(** * kops: the Spotinst provider adapter and the AWS autoscaling-group model builder

    A shallow embedding of

    - [pkg/resources/spotinst/aws.go]: the three backend services
      (Elastigroup, Ocean cluster, Ocean launch spec) behind the common
      [InstanceGroupService] contract;
    - [pkg/model/awsmodel/autoscalinggroup.go]: the builders that turn one
      instance-group specification into a launch configuration or launch
      template task and an autoscaling-group task.

    Go pointers ([*string], [*int64], [*bool], ...) are [option]s, Go strings
    are [string]s (sequences of bytes), Go integers are [Z] (the code converts
    [int32] to [int64] and compares, it never computes with them, so no
    wrap-around arises).  Objects that the code writes through a pointer are
    threaded as explicit state. *)

From Stdlib Require Import String Ascii List ZArith Bool Lia.
From Stdlib Require Import Sorting.Sorted Sorting.Permutation.
From Stdlib Require Import RelationClasses.
From Stdlib Require OrdersEx.
Import ListNotations.

Local Open Scope string_scope.
Local Open Scope Z_scope.

Set Implicit Arguments.

(* ------------------------------------------------------------------ *)
(** ** Package [fi]: pointer helpers *)

(** Modelled from the spec: package [k8s.io/kops/upup/pkg/fi] is used by both
    source files but declared outside them.  Its helpers build a pointer to a
    value, or read through a pointer with the zero value for [nil] (an unset
    field reads as empty string, [0] or [false]). *)
Module fi.

Definition String (s : string) : option string := Some s.
Definition Bool (b : bool) : option bool := Some b.
Definition Int64 (n : Z) : option Z := Some n.

Definition StringValue (p : option string) : string :=
  match p with Some s => s | None => "" end.

Definition BoolValue (p : option bool) : bool :=
  match p with Some b => b | None => false end.

Definition Int32Value (p : option Z) : Z :=
  match p with Some n => n | None => 0 end.

End fi.

(* ------------------------------------------------------------------ *)
(** ** Package [strings] of the Go standard library *)

Module strings.

(** [strings.HasPrefix]: byte-wise prefix test. *)
Fixpoint HasPrefix (s prefix : string) : bool :=
  match prefix, s with
  | EmptyString, _ => true
  | String _ _, EmptyString => false
  | String p prefix', String c s' => Ascii.eqb c p && HasPrefix s' prefix'
  end.

(** [strings.Contains s substr]: [substr] occurs in [s] at some offset. *)
Fixpoint Contains (s substr : string) : bool :=
  HasPrefix s substr ||
  match s with
  | EmptyString => false
  | String _ s' => Contains s' substr
  end.

(** ['A' <= c && c <= 'Z'] on a byte. *)
Definition isUpper (c : ascii) : bool :=
  let n := N_of_ascii c in (65 <=? n)%N && (n <=? 90)%N.

(** [c >= utf8.RuneSelf] fails: the byte is ASCII. *)
Definition isASCIIByte (c : ascii) : bool := (N_of_ascii c <? 128)%N.

Definition lowerByte (c : ascii) : ascii :=
  if isUpper c then ascii_of_N (N_of_ascii c + 32) else c.

Fixpoint isASCII (s : string) : bool :=
  match s with
  | EmptyString => true
  | String c s' => isASCIIByte c && isASCII s'
  end.

Fixpoint lowerASCII (s : string) : string :=
  match s with
  | EmptyString => EmptyString
  | String c s' => String (lowerByte c) (lowerASCII s')
  end.

Section ToLower.

(** [strings.Map(unicode.ToLower, s)], the slow path taken when [s] holds a
    byte outside ASCII.  It needs the Unicode case tables, which are data of
    the Go runtime: it stays a parameter. *)
Variable mapUnicodeToLower : string -> string.

(** [strings.ToLower]: strings that are ASCII throughout are lowered byte by
    byte (the fast path), all others go through [unicode.ToLower]. *)
Definition ToLower (s : string) : string :=
  if isASCII s then lowerASCII s else mapUnicodeToLower s.

End ToLower.

(** [strings.Split(s, ",")[0]]: with a non-empty separator the result of
    [Split] has at least one element, the text before the first separator
    (the whole of [s] when there is none).  Only a one-byte separator is
    used by the code. *)
Fixpoint SplitFirst (s : string) (sep : ascii) : string :=
  match s with
  | EmptyString => EmptyString
  | String c s' => if Ascii.eqb c sep then EmptyString
                   else String c (SplitFirst s' sep)
  end.

End strings.

(* ------------------------------------------------------------------ *)
(** ** [pkg/resources/spotinst/aws.go] *)

Module spotinst.

(** [client.Error] and [client.Errors] of the Spotinst SDK: the structured
    errors decoded from a backend response. *)
Module client.
Record Error := {
  Code : string;
  Message : string;
  Field : string;
}.
Definition Errors := list Error.
End client.

(** A Go [error] value returned by a backend call: either the SDK's
    [client.Errors] (the only dynamic type the code inspects) or any other
    error, of which only its text is kept. *)
Inductive error :=
| ClientErrors (errs : client.Errors)
| OtherError (text : string).

(** Request payloads of the SDK, restricted to the fields the code sets. *)
Module awseg.
Record DeleteGroupInput := { DeleteGroupInput_GroupID : option string }.
Record DetachGroupInput := {
  GroupID : option string;
  InstanceIDs : list string;
  ShouldDecrementTargetCapacity : option bool;
  ShouldTerminateInstances : option bool;
}.
(** [awseg.Service], over a backend whose state is [B]. *)
Record Service (B : Type) := {
  Delete : DeleteGroupInput -> B -> option error * B;
  Detach : DetachGroupInput -> B -> option error * B;
}.
End awseg.

Module awsoc.
Record DeleteClusterInput := { DeleteClusterInput_ClusterID : option string }.
Record DeleteLaunchSpecInput := { LaunchSpecID : option string }.
Record DetachClusterInstancesInput := {
  ClusterID : option string;
  InstanceIDs : list string;
  ShouldDecrementTargetCapacity : option bool;
  ShouldTerminateInstances : option bool;
}.
(** [awsoc.Service], over a backend whose state is [B]. *)
Record Service (B : Type) := {
  DeleteCluster : DeleteClusterInput -> B -> option error * B;
  DeleteLaunchSpec : DeleteLaunchSpecInput -> B -> option error * B;
  DetachClusterInstances : DetachClusterInstancesInput -> B -> option error * B;
}.
End awsoc.

(** The part of the [InstanceGroupService] interface studied here.  A method
    returns its Go [error] ([None] is [nil]) and the backend's new state. *)
Record InstanceGroupService (B : Type) := {
  Delete : string -> B -> option error * B;
  Detach : string -> string -> B -> option error * B;
}.

Section Services.

Variable mapUnicodeToLower : string -> string.
Variable B : Type.

(** *** awsElastigroupService *)

Definition awsElastigroupService_Delete (svc : awseg.Service B)
    (groupID : string) (st : B) : option error * B :=
  let input := {| awseg.DeleteGroupInput_GroupID := fi.String groupID |} in
  awseg.Delete svc input st.

Definition awsElastigroupService_Detach (svc : awseg.Service B)
    (groupID instanceID : string) (st : B) : option error * B :=
  let input := {|
    awseg.GroupID := fi.String groupID;
    awseg.InstanceIDs := [instanceID];
    awseg.ShouldDecrementTargetCapacity := fi.Bool false;
    awseg.ShouldTerminateInstances := fi.Bool true;
  |} in
  awseg.Detach svc input st.

Definition awsElastigroupService (svc : awseg.Service B)
  : InstanceGroupService B := {|
  Delete := awsElastigroupService_Delete svc;
  Detach := awsElastigroupService_Detach svc;
|}.

(** *** awsOceanClusterService *)

Definition awsOceanClusterService_Delete (svc : awsoc.Service B)
    (clusterID : string) (st : B) : option error * B :=
  let input := {| awsoc.DeleteClusterInput_ClusterID := fi.String clusterID |} in
  awsoc.DeleteCluster svc input st.

Definition awsOceanClusterService_Detach (svc : awsoc.Service B)
    (clusterID instanceID : string) (st : B) : option error * B :=
  let input := {|
    awsoc.ClusterID := fi.String clusterID;
    awsoc.InstanceIDs := [instanceID];
    awsoc.ShouldDecrementTargetCapacity := fi.Bool false;
    awsoc.ShouldTerminateInstances := fi.Bool true;
  |} in
  awsoc.DetachClusterInstances svc input st.

Definition awsOceanClusterService (svc : awsoc.Service B)
  : InstanceGroupService B := {|
  Delete := awsOceanClusterService_Delete svc;
  Detach := awsOceanClusterService_Detach svc;
|}.

(** *** awsOceanLaunchSpecService *)

(** The loop of [Delete] over the entries of a [client.Errors]: [true] when
    it reaches [return nil]. *)
Fixpoint oceanGone (errs : client.Errors) : bool :=
  match errs with
  | [] => false
  | e :: errs' =>
      if strings.Contains
           (strings.ToLower mapUnicodeToLower (client.Message e))
           "ocean does not exist"
      then true
      else oceanGone errs'
  end.

Definition awsOceanLaunchSpecService_Delete (svc : awsoc.Service B)
    (specID : string) (st : B) : option error * B :=
  let input := {| awsoc.LaunchSpecID := fi.String specID |} in
  let '(err, st') := awsoc.DeleteLaunchSpec svc input st in
  match err with
  | Some e =>
      match e with
      | ClientErrors errs =>
          if oceanGone errs then (None, st') else (Some e, st')
      | OtherError _ => (Some e, st')
      end
  | None => (None, st')
  end.

Definition awsOceanLaunchSpecService_Detach (svc : awsoc.Service B)
    (specID instanceID : string) (st : B) : option error * B :=
  let input := {|
    awsoc.ClusterID := fi.String specID;
    awsoc.InstanceIDs := [instanceID];
    awsoc.ShouldDecrementTargetCapacity := fi.Bool false;
    awsoc.ShouldTerminateInstances := fi.Bool true;
  |} in
  awsoc.DetachClusterInstances svc input st.

Definition awsOceanLaunchSpecService (svc : awsoc.Service B)
  : InstanceGroupService B := {|
  Delete := awsOceanLaunchSpecService_Delete svc;
  Detach := awsOceanLaunchSpecService_Detach svc;
|}.

(** *** awsCloud *)

Record awsCloud := {
  eg : InstanceGroupService B;
  oc : InstanceGroupService B;
  ls : InstanceGroupService B;
}.

Definition newAWSCloud (egsvc : awseg.Service B) (ocsvc : awsoc.Service B)
  : awsCloud := {|
  eg := awsElastigroupService egsvc;
  oc := awsOceanClusterService ocsvc;
  ls := awsOceanLaunchSpecService ocsvc;
|}.

Definition Elastigroup (x : awsCloud) := eg x.
Definition OceanCluster (x : awsCloud) := oc x.
Definition OceanLaunchSpec (x : awsCloud) := ls x.

End Services.

(** *** A backend that keeps the requests it receives

    To speak of the request that reaches the backend, an SDK service over a
    backend [B] is wrapped into one over [B * list request]: it answers as
    the wrapped service does and appends every request to the log. *)

Inductive request :=
| ReqDeleteGroup (input : awseg.DeleteGroupInput)
| ReqDetachGroup (input : awseg.DetachGroupInput)
| ReqDeleteCluster (input : awsoc.DeleteClusterInput)
| ReqDeleteLaunchSpec (input : awsoc.DeleteLaunchSpecInput)
| ReqDetachClusterInstances (input : awsoc.DetachClusterInstancesInput).

Definition recorded {B I : Type} (tag : I -> request)
    (call : I -> B -> option error * B)
    (input : I) (st : B * list request) : option error * (B * list request) :=
  let '(err, st') := call input (fst st) in
  (err, (st', snd st ++ [tag input])%list).

Definition recording_eg {B} (svc : awseg.Service B)
  : awseg.Service (B * list request) := {|
  awseg.Delete := recorded ReqDeleteGroup (awseg.Delete svc);
  awseg.Detach := recorded ReqDetachGroup (awseg.Detach svc);
|}.

Definition recording_oc {B} (svc : awsoc.Service B)
  : awsoc.Service (B * list request) := {|
  awsoc.DeleteCluster := recorded ReqDeleteCluster (awsoc.DeleteCluster svc);
  awsoc.DeleteLaunchSpec :=
    recorded ReqDeleteLaunchSpec (awsoc.DeleteLaunchSpec svc);
  awsoc.DetachClusterInstances :=
    recorded ReqDetachClusterInstances (awsoc.DetachClusterInstances svc);
|}.

(** The two switches of a detach request, [None] for any other request. *)
Definition detachSwitches (r : request) : option (option bool * option bool) :=
  match r with
  | ReqDetachGroup i =>
      Some (awseg.ShouldDecrementTargetCapacity i,
            awseg.ShouldTerminateInstances i)
  | ReqDetachClusterInstances i =>
      Some (awsoc.ShouldDecrementTargetCapacity i,
            awsoc.ShouldTerminateInstances i)
  | _ => None
  end.

(** A backend whose answer to every launch-spec deletion is [err]. *)
Definition answering (err : option error) : awsoc.Service unit := {|
  awsoc.DeleteCluster := fun _ st => (None, st);
  awsoc.DeleteLaunchSpec := fun _ st => (err, st);
  awsoc.DetachClusterInstances := fun _ st => (None, st);
|}.

(** The group and the instances a detach request names. *)
Definition detachTarget (r : request) : option (option string * list string) :=
  match r with
  | ReqDetachGroup i => Some (awseg.GroupID i, awseg.InstanceIDs i)
  | ReqDetachClusterInstances i => Some (awsoc.ClusterID i, awsoc.InstanceIDs i)
  | _ => None
  end.

End spotinst.

(* ------------------------------------------------------------------ *)
(** ** Outcomes and state *)

(** What a Go call can end in: a value, a returned [error], or a run-time
    panic (index out of range, nil dereference, failed type assertion, or
    the fatal exit of the task registry). *)
Inductive outcome (E A : Type) :=
| Ok (a : A)
| Err (e : E)
| Panic (msg : string).

Arguments Ok {E A} a.
Arguments Err {E A} e.
Arguments Panic {E A} msg.

(** Code that reads and writes objects behind pointers: the objects are the
    state [S], which outlives an error return or a panic. *)
Definition M (E S A : Type) := S -> outcome E A * S.

Definition ret {E S A} (a : A) : M E S A := fun s => (Ok a, s).

Definition bind {E S A B} (m : M E S A) (f : A -> M E S B) : M E S B :=
  fun s =>
    match m s with
    | (Ok a, s') => f a s'
    | (Err e, s') => (Err e, s')
    | (Panic msg, s') => (Panic msg, s')
    end.

Definition fail {E S A} (e : E) : M E S A := fun s => (Err e, s).
Definition panic {E S A} (msg : string) : M E S A := fun s => (Panic msg, s).
Definition get {E S} : M E S S := fun s => (Ok s, s).
Definition put {E S} (s : S) : M E S unit := fun _ => (Ok tt, s).

(** A call whose only effect is its result. *)
Definition lift {E S A} (r : outcome E A) : M E S A := fun s => (r, s).

(** Run [m] on the component of the state selected by [proj]/[upd]. *)
Definition zoom {E S T A} (proj : S -> T) (upd : T -> S -> S)
    (m : M E T A) : M E S A :=
  fun s => let '(r, t) := m (proj s) in (r, upd t s).

Notation "x <- m ;; k" := (bind m (fun x => k))
  (at level 61, m at next level, right associativity).
Notation "m ;;; k" := (bind m (fun _ => k))
  (at level 61, right associativity).

(** Field update of a record [r] whose eta-expansion is [eta]: rebuild [r]
    with [proj r] replaced by [v]. *)
Ltac set_field eta proj r v :=
  let body := eval cbv beta delta [eta] in (eta r) in
  let abstracted := eval pattern (proj r) in body in
  lazymatch abstracted with
  | ?g _ => let res := eval cbv beta in (g v) in exact res
  end.

(* ------------------------------------------------------------------ *)
(** ** Declarations the model builder imports *)

(** Modelled from the spec: the volume-type names of the AWS SDK
    ([ec2.VolumeTypeGp2] and the like), constants declared outside the
    sources at hand; the spec names the types io1, io2 and gp3 and a
    general-purpose default. *)
Module ec2.
Definition VolumeTypeGp2 : string := "gp2".
Definition VolumeTypeGp3 : string := "gp3".
Definition VolumeTypeIo1 : string := "io1".
Definition VolumeTypeIo2 : string := "io2".
End ec2.

(** Modelled from the spec: the API types of package [kops] (instance group,
    volume, subnet), declared outside the sources at hand.  Roles, subnet
    types and load-balancer classes are Go string types.  Of
    [InstanceGroupSpec] the fields that the builders mention are kept. *)
Module kops.

Definition InstanceGroupRole := string.
Definition InstanceGroupRoleMaster : InstanceGroupRole := "Master".
Definition InstanceGroupRoleNode : InstanceGroupRole := "Node".
Definition InstanceGroupRoleBastion : InstanceGroupRole := "Bastion".

Definition SubnetType := string.
Definition SubnetTypePublic : SubnetType := "Public".
Definition SubnetTypePrivate : SubnetType := "Private".
Definition SubnetTypeUtility : SubnetType := "Utility".

Definition LoadBalancerClass := string.
Definition LoadBalancerClassNetwork : LoadBalancerClass := "Network".

Module VolumeSpec.
Record t := {
  Device : string;
  Encrypted : option bool;
  Iops : option Z;
  Throughput : option Z;
  Key : option string;
  Size : Z;
  Type_ : string;
  DeleteOnTermination : option bool;
}.
Definition eta (x : t) : t :=
  Build_t (Device x) (Encrypted x) (Iops x) (Throughput x) (Key x) (Size x)
          (Type_ x) (DeleteOnTermination x).
Definition set_Type (v : string) (x : t) : t :=
  ltac:(set_field eta Type_ x v).
Definition set_Iops (v : option Z) (x : t) : t :=
  ltac:(set_field eta Iops x v).
Definition set_Throughput (v : option Z) (x : t) : t :=
  ltac:(set_field eta Throughput x v).
End VolumeSpec.

Module InstanceMetadataOptions.
Record t := {
  HTTPPutResponseHopLimit : option Z;
  HTTPTokens : option string;
}.
End InstanceMetadataOptions.

Module MixedInstancesPolicySpec.
Record t := {
  Instances : list string;
  OnDemandAllocationStrategy : option string;
  OnDemandBase : option Z;
  OnDemandAboveBase : option Z;
  SpotAllocationStrategy : option string;
  SpotInstancePools : option Z;
}.
End MixedInstancesPolicySpec.

Module LoadBalancer.
Record t := {
  LoadBalancerName : option string;
  TargetGroupARN : option string;
}.
End LoadBalancer.

Record InstanceGroupSpec := {
  Role : InstanceGroupRole;
  Image : string;
  MinSize : option Z;
  MaxSize : option Z;
  MachineType : string;
  RootVolumeSize : option Z;
  RootVolumeType : option string;
  RootVolumeIops : option Z;
  RootVolumeThroughput : option Z;
  RootVolumeOptimization : option bool;
  RootVolumeDeleteOnTermination : option bool;
  RootVolumeEncryption : option bool;
  RootVolumeEncryptionKey : option string;
  Volumes : list VolumeSpec.t;
  Subnets : list string;
  MaxPrice : option string;
  SpotDurationInMinutes : option Z;
  AssociatePublicIP : option bool;
  AdditionalSecurityGroups : list string;
  Tenancy : string;
  SuspendProcesses : list string;
  ExternalLoadBalancers : list LoadBalancer.t;
  DetailedInstanceMonitoring : option bool;
  MixedInstancesPolicy : option MixedInstancesPolicySpec.t;
  SecurityGroupOverride : option string;
  InstanceProtection : option bool;
  InstanceInterruptionBehavior : option string;
  InstanceMetadata : option InstanceMetadataOptions.t;
}.

Definition eta_Spec (s : InstanceGroupSpec) : InstanceGroupSpec :=
  Build_InstanceGroupSpec
    (Role s) (Image s) (MinSize s) (MaxSize s) (MachineType s)
    (RootVolumeSize s) (RootVolumeType s) (RootVolumeIops s)
    (RootVolumeThroughput s) (RootVolumeOptimization s)
    (RootVolumeDeleteOnTermination s) (RootVolumeEncryption s)
    (RootVolumeEncryptionKey s) (Volumes s) (Subnets s) (MaxPrice s)
    (SpotDurationInMinutes s) (AssociatePublicIP s)
    (AdditionalSecurityGroups s) (Tenancy s) (SuspendProcesses s)
    (ExternalLoadBalancers s) (DetailedInstanceMonitoring s)
    (MixedInstancesPolicy s) (SecurityGroupOverride s) (InstanceProtection s)
    (InstanceInterruptionBehavior s) (InstanceMetadata s).

Definition set_Volumes (v : list VolumeSpec.t) (s : InstanceGroupSpec)
  : InstanceGroupSpec := ltac:(set_field eta_Spec Volumes s v).

(** [kops.InstanceGroup]: the object behind the [ig] pointer. *)
Record InstanceGroup := {
  ObjectMeta_Name : string;
  Spec : InstanceGroupSpec;
}.

Definition set_Spec (v : InstanceGroupSpec) (ig : InstanceGroup)
  : InstanceGroup := {| ObjectMeta_Name := ObjectMeta_Name ig; Spec := v |}.

Module ClusterSubnetSpec.
Record t := {
  Name : string;
  Type_ : SubnetType;
}.
End ClusterSubnetSpec.

(** [Cluster.Spec.API.LoadBalancer], reached through two pointers. *)
Module LoadBalancerAccessSpec.
Record t := {
  AdditionalSecurityGroups : list string;
  SSLCertificate : string;
}.
End LoadBalancerAccessSpec.

Module AccessSpec.
Record t := { LoadBalancer : option LoadBalancerAccessSpec.t }.
End AccessSpec.

End kops.

(** Modelled from the spec: the task types of package [awstasks], declared
    outside the sources at hand; each keeps the fields that the builders
    assign.  A [*fi.Lifecycle] is a pointer to a string, user data is the
    opaque blob of the bootstrap collaborator, a tag set is a list of
    key/value pairs. *)
Module awstasks.

Definition Lifecycle := option string.
Definition Tags := list (string * string).

Module SecurityGroup.
Record t := {
  ID : option string;
  Lifecycle : awstasks.Lifecycle;
  Name : option string;
  Shared : option bool;
}.
End SecurityGroup.

Module IAMInstanceProfile.
Record t := { Name : option string }.
End IAMInstanceProfile.

Module SSHKey.
Record t := { Name : option string }.
End SSHKey.

Module Subnet.
Record t := { Name : option string }.
End Subnet.

Module BlockDeviceMapping.
Record t := {
  DeviceName : option string;
  EbsDeleteOnTermination : option bool;
  EbsEncrypted : option bool;
  EbsKmsKey : option string;
  EbsVolumeIops : option Z;
  EbsVolumeSize : option Z;
  EbsVolumeThroughput : option Z;
  EbsVolumeType : option string;
}.
End BlockDeviceMapping.

Module LaunchConfiguration.
Record t := {
  Name : option string;
  Lifecycle : awstasks.Lifecycle;
  AssociatePublicIP : option bool;
  BlockDeviceMappings : list BlockDeviceMapping.t;
  HTTPPutResponseHopLimit : option Z;
  HTTPTokens : option string;
  IAMInstanceProfile : option IAMInstanceProfile.t;
  ImageID : option string;
  InstanceMonitoring : option bool;
  InstanceType : option string;
  RootVolumeDeleteOnTermination : option bool;
  RootVolumeEncryption : option bool;
  RootVolumeIops : option Z;
  RootVolumeOptimization : option bool;
  RootVolumeSize : option Z;
  RootVolumeType : option string;
  SSHKey : option SSHKey.t;
  SecurityGroups : list SecurityGroup.t;
  SpotPrice : string;
  Tenancy : option string;
  UserData : option string;
}.
Definition eta (r : t) : t :=
  Build_t (Name r) (Lifecycle r) (AssociatePublicIP r) (BlockDeviceMappings r)
    (HTTPPutResponseHopLimit r) (HTTPTokens r) (IAMInstanceProfile r)
    (ImageID r) (InstanceMonitoring r) (InstanceType r)
    (RootVolumeDeleteOnTermination r) (RootVolumeEncryption r)
    (RootVolumeIops r) (RootVolumeOptimization r) (RootVolumeSize r)
    (RootVolumeType r) (SSHKey r) (SecurityGroups r) (SpotPrice r)
    (Tenancy r) (UserData r).
Definition set_AssociatePublicIP (v : option bool) (r : t) : t :=
  ltac:(set_field eta AssociatePublicIP r v).
Definition set_BlockDeviceMappings (v : list BlockDeviceMapping.t) (r : t) : t :=
  ltac:(set_field eta BlockDeviceMappings r v).
Definition set_HTTPPutResponseHopLimit (v : option Z) (r : t) : t :=
  ltac:(set_field eta HTTPPutResponseHopLimit r v).
Definition set_HTTPTokens (v : option string) (r : t) : t :=
  ltac:(set_field eta HTTPTokens r v).
Definition set_RootVolumeIops (v : option Z) (r : t) : t :=
  ltac:(set_field eta RootVolumeIops r v).
Definition set_SSHKey (v : option SSHKey.t) (r : t) : t :=
  ltac:(set_field eta SSHKey r v).
Definition set_SecurityGroups (v : list SecurityGroup.t) (r : t) : t :=
  ltac:(set_field eta SecurityGroups r v).
Definition set_SpotPrice (v : string) (r : t) : t :=
  ltac:(set_field eta SpotPrice r v).
Definition set_Tenancy (v : option string) (r : t) : t :=
  ltac:(set_field eta Tenancy r v).
Definition set_UserData (v : option string) (r : t) : t :=
  ltac:(set_field eta UserData r v).
End LaunchConfiguration.

Module LaunchTemplate.
Record t := {
  Name : option string;
  Lifecycle : awstasks.Lifecycle;
  AssociatePublicIP : option bool;
  BlockDeviceMappings : list BlockDeviceMapping.t;
  HTTPPutResponseHopLimit : option Z;
  HTTPTokens : option string;
  IAMInstanceProfile : option IAMInstanceProfile.t;
  ImageID : option string;
  InstanceInterruptionBehavior : option string;
  InstanceMonitoring : option bool;
  InstanceType : option string;
  RootVolumeEncryption : option bool;
  RootVolumeIops : option Z;
  RootVolumeKmsKey : option string;
  RootVolumeOptimization : option bool;
  RootVolumeSize : option Z;
  RootVolumeThroughput : option Z;
  RootVolumeType : option string;
  SSHKey : option SSHKey.t;
  SecurityGroups : list SecurityGroup.t;
  SpotDurationInMinutes : option Z;
  SpotPrice : option string;
  Tags : awstasks.Tags;
  Tenancy : option string;
  UserData : option string;
}.
Definition eta (r : t) : t :=
  Build_t (Name r) (Lifecycle r) (AssociatePublicIP r) (BlockDeviceMappings r)
    (HTTPPutResponseHopLimit r) (HTTPTokens r) (IAMInstanceProfile r)
    (ImageID r) (InstanceInterruptionBehavior r) (InstanceMonitoring r)
    (InstanceType r) (RootVolumeEncryption r) (RootVolumeIops r)
    (RootVolumeKmsKey r) (RootVolumeOptimization r) (RootVolumeSize r)
    (RootVolumeThroughput r) (RootVolumeType r) (SSHKey r) (SecurityGroups r)
    (SpotDurationInMinutes r) (SpotPrice r) (Tags r) (Tenancy r) (UserData r).
Definition set_InstanceInterruptionBehavior (v : option string) (r : t) : t :=
  ltac:(set_field eta InstanceInterruptionBehavior r v).
Definition set_RootVolumeIops (v : option Z) (r : t) : t :=
  ltac:(set_field eta RootVolumeIops r v).
Definition set_RootVolumeKmsKey (v : option string) (r : t) : t :=
  ltac:(set_field eta RootVolumeKmsKey r v).
Definition set_RootVolumeThroughput (v : option Z) (r : t) : t :=
  ltac:(set_field eta RootVolumeThroughput r v).
Definition set_SpotDurationInMinutes (v : option Z) (r : t) : t :=
  ltac:(set_field eta SpotDurationInMinutes r v).
Definition set_SpotPrice (v : option string) (r : t) : t :=
  ltac:(set_field eta SpotPrice r v).
End LaunchTemplate.

Module ClassicLoadBalancer.
Record t := {
  Name : option string;
  LoadBalancerName : option string;
  Shared : option bool;
}.
End ClassicLoadBalancer.

Module TargetGroup.
Record t := {
  Name : option string;
  ARN : option string;
  Shared : option bool;
}.
End TargetGroup.

Module AutoscalingGroup.
Record t := {
  Name : option string;
  Lifecycle : awstasks.Lifecycle;
  Granularity : option string;
  InstanceProtection : option bool;
  LaunchConfiguration : option LaunchConfiguration.t;
  LaunchTemplate : option LaunchTemplate.t;
  LoadBalancers : list ClassicLoadBalancer.t;
  MaxSize : option Z;
  Metrics : list string;
  MinSize : option Z;
  MixedInstanceOverrides : list string;
  MixedOnDemandAboveBase : option Z;
  MixedOnDemandAllocationStrategy : option string;
  MixedOnDemandBase : option Z;
  MixedSpotAllocationStrategy : option string;
  MixedSpotInstancePools : option Z;
  MixedSpotMaxPrice : option string;
  Subnets : list Subnet.t;
  SuspendProcesses : option (list string);
  Tags : awstasks.Tags;
  TargetGroups : list TargetGroup.t;
}.
Definition eta (r : t) : t :=
  Build_t (Name r) (Lifecycle r) (Granularity r) (InstanceProtection r)
    (LaunchConfiguration r) (LaunchTemplate r) (LoadBalancers r) (MaxSize r)
    (Metrics r) (MinSize r) (MixedInstanceOverrides r)
    (MixedOnDemandAboveBase r) (MixedOnDemandAllocationStrategy r)
    (MixedOnDemandBase r) (MixedSpotAllocationStrategy r)
    (MixedSpotInstancePools r) (MixedSpotMaxPrice r) (Subnets r)
    (SuspendProcesses r) (Tags r) (TargetGroups r).
Definition set_InstanceProtection (v : option bool) (r : t) : t :=
  ltac:(set_field eta InstanceProtection r v).
Definition set_LaunchConfiguration (v : option LaunchConfiguration.t) (r : t) : t :=
  ltac:(set_field eta LaunchConfiguration r v).
Definition set_LaunchTemplate (v : option LaunchTemplate.t) (r : t) : t :=
  ltac:(set_field eta LaunchTemplate r v).
Definition set_LoadBalancers (v : list ClassicLoadBalancer.t) (r : t) : t :=
  ltac:(set_field eta LoadBalancers r v).
Definition set_MaxSize (v : option Z) (r : t) : t :=
  ltac:(set_field eta MaxSize r v).
Definition set_MinSize (v : option Z) (r : t) : t :=
  ltac:(set_field eta MinSize r v).
Definition set_MixedInstanceOverrides (v : list string) (r : t) : t :=
  ltac:(set_field eta MixedInstanceOverrides r v).
Definition set_MixedOnDemandAboveBase (v : option Z) (r : t) : t :=
  ltac:(set_field eta MixedOnDemandAboveBase r v).
Definition set_MixedOnDemandAllocationStrategy (v : option string) (r : t) : t :=
  ltac:(set_field eta MixedOnDemandAllocationStrategy r v).
Definition set_MixedOnDemandBase (v : option Z) (r : t) : t :=
  ltac:(set_field eta MixedOnDemandBase r v).
Definition set_MixedSpotAllocationStrategy (v : option string) (r : t) : t :=
  ltac:(set_field eta MixedSpotAllocationStrategy r v).
Definition set_MixedSpotInstancePools (v : option Z) (r : t) : t :=
  ltac:(set_field eta MixedSpotInstancePools r v).
Definition set_MixedSpotMaxPrice (v : option string) (r : t) : t :=
  ltac:(set_field eta MixedSpotMaxPrice r v).
Definition set_Subnets (v : list Subnet.t) (r : t) : t :=
  ltac:(set_field eta Subnets r v).
Definition set_SuspendProcesses (v : option (list string)) (r : t) : t :=
  ltac:(set_field eta SuspendProcesses r v).
Definition set_Tags (v : awstasks.Tags) (r : t) : t :=
  ltac:(set_field eta Tags r v).
Definition set_TargetGroups (v : list TargetGroup.t) (r : t) : t :=
  ltac:(set_field eta TargetGroups r v).
End AutoscalingGroup.

(** A [fi.Task] as the builders hand it to the registry. *)
Inductive Task :=
| TaskSecurityGroup (t : SecurityGroup.t)
| TaskClassicLoadBalancer (t : ClassicLoadBalancer.t)
| TaskTargetGroup (t : TargetGroup.t)
| TaskLaunchConfiguration (t : LaunchConfiguration.t)
| TaskLaunchTemplate (t : LaunchTemplate.t)
| TaskAutoscalingGroup (t : AutoscalingGroup.t).

End awstasks.

(** Package [sort] of the Go standard library. *)
Module sort.
Section Stable.

Variable A : Type.
Variable less : A -> A -> bool.

(** Put [x] behind every element it is not less than. *)
Fixpoint insert (x : A) (l : list A) : list A :=
  match l with
  | [] => [x]
  | y :: l' => if less x y then x :: y :: l' else y :: insert x l'
  end.

(** [sort.Stable]: the slice after the call, ascending for [less] with
    equal elements in their original order.  The library sorts blocks by
    insertion and merges them; for a [less] that is a strict weak order the
    stable arrangement is unique, and insertion of the elements from left to
    right computes it. *)
Definition Stable (l : list A) : list A :=
  fold_left (fun sorted x => insert x sorted) l [].

End Stable.
End sort.

(** Modelled from the spec: the [sort.Interface] types
    [awstasks.OrderLoadBalancersByName] and [awstasks.OrderTargetGroupsByName]
    are declared outside the sources at hand; by their names and by the spec
    (lists sorted by name) their [Less] compares the names read through
    [fi.StringValue], as Go compares strings (byte-wise). *)
Definition OrderLoadBalancersByName_Less
    (a b : awstasks.ClassicLoadBalancer.t) : bool :=
  String.ltb (fi.StringValue (awstasks.ClassicLoadBalancer.Name a))
             (fi.StringValue (awstasks.ClassicLoadBalancer.Name b)).

Definition OrderTargetGroupsByName_Less
    (a b : awstasks.TargetGroup.t) : bool :=
  String.ltb (fi.StringValue (awstasks.TargetGroup.Name a))
             (fi.StringValue (awstasks.TargetGroup.Name b)).

(** [l[i] = v] on a slice that has an index [i]. *)
Fixpoint list_set {A} (i : nat) (v : A) (l : list A) : list A :=
  match l, i with
  | [], _ => []
  | _ :: l', O => v :: l'
  | x :: l', S i' => x :: list_set i' v l'
  end.

(* ------------------------------------------------------------------ *)
(** ** [pkg/model/awsmodel/autoscalinggroup.go] *)

Module awsmodel.

Import kops awstasks.

(** DefaultVolumeType is the default volume type *)
Definition DefaultVolumeType : string := ec2.VolumeTypeGp2.
(** DefaultVolumeIonIops is the default volume IOPS when volume type is io1 or io2 *)
Definition DefaultVolumeIonIops : Z := 100.
(** DefaultVolumeGp3Iops is the default volume IOPS when volume type is gp3 *)
Definition DefaultVolumeGp3Iops : Z := 3000.
(** DefaultVolumeGp3Throughput is the default volume throughput when volume type is gp3 *)
Definition DefaultVolumeGp3Throughput : Z := 125.
(** DefaultVolumeDeleteOnTermination is the default volume behavior after instance termination *)
Definition DefaultVolumeDeleteOnTermination : bool := true.
(** DefaultVolumeEncryption is the default volume encryption behavior *)
Definition DefaultVolumeEncryption : bool := false.

(** The [error] values of the builders: an error of a collaborator, passed
    on as it is, or one of the three made with [fmt.Errorf], kept with its
    arguments instead of its text:
    - ["unable to find IAM profile link for instance group %q: %w"],
    - ["error building cloud tags: %v"],
    - ["could not determine any subnets for InstanceGroup %q; subnets was %s"]. *)
Inductive error :=
| Upstream (text : string)
| ErrIAMProfileLink (igName : string) (cause : error)
| ErrCloudTags (cause : error)
| ErrNoSubnets (igName : string) (subnets : list string).

Definition result := outcome error.

(** Replace the error of a collaborator's result. *)
Definition wrapErr {A} (f : error -> error) (r : result A) : result A :=
  match r with
  | Ok a => Ok a
  | Err e => Err (f e)
  | Panic msg => Panic msg
  end.

(** [c.EnsureTask(lb)] as a statement: the returned error is dropped. *)
Definition dropErr {S} (m : M error S unit) : M error S unit :=
  fun s =>
    match m s with
    | (Err _, s') => (Ok tt, s')
    | r => r
    end.

Section Builder.

(** The state of the task registry [c *fi.ModelBuilderContext]. *)
Variable Registry : Type.

(** Modelled from the spec: what the builders call and do not define.  The
    methods of the embedded [AWSModelContext], the bootstrap script builder,
    the feature flags, the helpers of [defaults], [spotinstmodel] and
    [awsup], and the two registration operations of the task registry.  A
    collaborator that is handed [ig] reads it and does not write it; one that
    is handed [c] may register tasks.  [AddTask] returns nothing: when the
    registry refuses a task it ends the process, which is a [Panic] here. *)
Record AutoscalingGroupModelBuilder := {
  Lifecycle : awstasks.Lifecycle;
  SecurityLifecycle : awstasks.Lifecycle;
  InstanceGroups : list InstanceGroup;
  Cluster_Spec_API : option AccessSpec.t;
  AutoscalingGroupName : InstanceGroup -> string;
  UseLaunchTemplate : InstanceGroup -> bool;
  DefaultInstanceGroupVolumeSize : InstanceGroupRole -> result Z;
  LinkToSecurityGroup : InstanceGroupRole -> SecurityGroup.t;
  LinkToIAMInstanceProfile : InstanceGroup -> result (option IAMInstanceProfile.t);
  APILoadBalancerClass : LoadBalancerClass;
  UseSSHKey : bool;
  LinkToSSHKey : result (option SSHKey.t);
  ResourceNodeUp : InstanceGroup -> M error Registry (option string);
  GatherSubnets : InstanceGroup -> result (list ClusterSubnetSpec.t);
  CloudTagsForInstanceGroup : InstanceGroup -> result awstasks.Tags;
  LinkToSubnet : ClusterSubnetSpec.t -> Subnet.t;
  UseLoadBalancerForAPI : bool;
  UseNetworkLoadBalancer : bool;
  LinkToTargetGroup : string -> TargetGroup.t;
  LinkToCLB : string -> ClassicLoadBalancer.t;
  featureflag_Spotinst_Enabled : bool;
  featureflag_SpotinstHybrid_Enabled : bool;
  HybridInstanceGroup : InstanceGroup -> bool;
  GetTargetGroupNameFromARN : string -> result string;
  EnsureTask : Task -> M error Registry unit;
  AddTask : Task -> M error Registry unit;
}.

(** What a builder call can reach: the registry behind [c] and the instance
    group behind [ig]. *)
Record World := {
  reg : Registry;
  ig : InstanceGroup;
}.

Definition B := M error World.

Definition getIG : B InstanceGroup := fun w => (Ok (ig w), w).

Definition putIG (g : InstanceGroup) : B unit :=
  fun w => (Ok tt, {| reg := reg w; ig := g |}).

(** A call on the registry [c]. *)
Definition onRegistry {A} (m : M error Registry A) : B A :=
  zoom reg (fun r w => {| reg := r; ig := ig w |}) m.

Variable b : AutoscalingGroupModelBuilder.

(** The loop over [b.Cluster.Spec.API.LoadBalancer.AdditionalSecurityGroups]. *)
Fixpoint nlbSecurityGroups (ids : list string) (t : LaunchConfiguration.t)
  : B LaunchConfiguration.t :=
  match ids with
  | [] => ret t
  | id :: ids' =>
      let sgTask := {|
        SecurityGroup.ID := fi.String id;
        SecurityGroup.Lifecycle := SecurityLifecycle b;
        SecurityGroup.Name := fi.String ("nlb-" ++ id);
        SecurityGroup.Shared := fi.Bool true;
      |} in
      onRegistry (EnsureTask b (TaskSecurityGroup sgTask)) ;;;
      let t := LaunchConfiguration.set_SecurityGroups
                 (LaunchConfiguration.SecurityGroups t ++ [sgTask]) t in
      nlbSecurityGroups ids' t
  end.

(** The loop over [ig.Spec.AdditionalSecurityGroups]. *)
Fixpoint additionalSecurityGroups (ids : list string) (t : LaunchConfiguration.t)
  : B LaunchConfiguration.t :=
  match ids with
  | [] => ret t
  | id :: ids' =>
      let sgTask := {|
        SecurityGroup.ID := fi.String id;
        SecurityGroup.Lifecycle := SecurityLifecycle b;
        SecurityGroup.Name := fi.String id;
        SecurityGroup.Shared := fi.Bool true;
      |} in
      onRegistry (EnsureTask b (TaskSecurityGroup sgTask)) ;;;
      let t := LaunchConfiguration.set_SecurityGroups
                 (LaunchConfiguration.SecurityGroups t ++ [sgTask]) t in
      additionalSecurityGroups ids' t
  end.

(** The writes of one round of the loop over [ig.Spec.Volumes] through
    [x := &ig.Spec.Volumes[i]]. *)
Definition defaultVolume (x : VolumeSpec.t) : VolumeSpec.t :=
  let x := if (VolumeSpec.Type_ x =? "")%string
           then VolumeSpec.set_Type DefaultVolumeType x else x in
  if (VolumeSpec.Type_ x =? ec2.VolumeTypeIo1)%string
     || (VolumeSpec.Type_ x =? ec2.VolumeTypeIo2)%string
  then
    match VolumeSpec.Iops x with
    | None => VolumeSpec.set_Iops (fi.Int64 DefaultVolumeIonIops) x
    | Some _ => x
    end
  else if (VolumeSpec.Type_ x =? ec2.VolumeTypeGp3)%string
  then
    let x := match VolumeSpec.Iops x with
             | None => VolumeSpec.set_Iops (fi.Int64 DefaultVolumeGp3Iops) x
             | Some _ => x
             end in
    match VolumeSpec.Throughput x with
    | None => VolumeSpec.set_Throughput (fi.Int64 DefaultVolumeGp3Throughput) x
    | Some _ => x
    end
  else VolumeSpec.set_Iops None x.

(** The mapping appended in one round, read from [x] after its writes. *)
Definition blockDeviceMapping (x : VolumeSpec.t) : BlockDeviceMapping.t :=
  let deleteOnTermination :=
    match VolumeSpec.DeleteOnTermination x with
    | Some _ => fi.BoolValue (VolumeSpec.DeleteOnTermination x)
    | None => DefaultVolumeDeleteOnTermination
    end in
  let encryption :=
    match VolumeSpec.Encrypted x with
    | Some _ => fi.BoolValue (VolumeSpec.Encrypted x)
    | None => DefaultVolumeEncryption
    end in
  {|
    BlockDeviceMapping.DeviceName := fi.String (VolumeSpec.Device x);
    BlockDeviceMapping.EbsDeleteOnTermination := fi.Bool deleteOnTermination;
    BlockDeviceMapping.EbsEncrypted := fi.Bool encryption;
    BlockDeviceMapping.EbsKmsKey := VolumeSpec.Key x;
    BlockDeviceMapping.EbsVolumeIops := VolumeSpec.Iops x;
    BlockDeviceMapping.EbsVolumeSize := fi.Int64 (VolumeSpec.Size x);
    BlockDeviceMapping.EbsVolumeThroughput := VolumeSpec.Throughput x;
    BlockDeviceMapping.EbsVolumeType := fi.String (VolumeSpec.Type_ x);
  |}.

(** [for i := range ig.Spec.Volumes]: [n] rounds are left, the next index is
    [i].  Each round writes the element at [i] of the list behind [ig] and
    appends its mapping to [t]. *)
Fixpoint additionalBlockDevices (n i : nat) (t : LaunchConfiguration.t)
  : B LaunchConfiguration.t :=
  match n with
  | O => ret t
  | S n' =>
      g <- getIG ;;
      match nth_error (Volumes (Spec g)) i with
      | None => panic "index out of range"
      | Some x =>
          let x := defaultVolume x in
          putIG (set_Spec (set_Volumes (list_set i x (Volumes (Spec g))) (Spec g)) g) ;;;
          let t := LaunchConfiguration.set_BlockDeviceMappings
                     (LaunchConfiguration.BlockDeviceMappings t
                        ++ [blockDeviceMapping x]) t in
          additionalBlockDevices n' (S i) t
      end
  end.

(** The instance group once the loop over its volumes has run: every
    element of [ig.Spec.Volumes] carries the writes of its round. *)
Definition defaultedVolumes (g : InstanceGroup) : InstanceGroup :=
  set_Spec (set_Volumes (map defaultVolume (Volumes (Spec g))) (Spec g)) g.

(** buildLaunchConfigurationTask is responsible for building a launch
    configuration task into the model *)
Definition buildLaunchConfigurationTask (name : string)
  : B LaunchConfiguration.t :=
  g <- getIG ;;
  (* @step: lets add the root volume settings *)
  volumeSize <- lift (DefaultInstanceGroupVolumeSize b (Role (Spec g))) ;;
  let volumeSize :=
    if fi.Int32Value (RootVolumeSize (Spec g)) >? 0
    then fi.Int32Value (RootVolumeSize (Spec g)) else volumeSize in
  let volumeType := fi.StringValue (RootVolumeType (Spec g)) in
  let volumeType :=
    if (volumeType =? "")%string then DefaultVolumeType else volumeType in
  let rootVolumeDeleteOnTermination :=
    match RootVolumeDeleteOnTermination (Spec g) with
    | Some _ => fi.BoolValue (RootVolumeDeleteOnTermination (Spec g))
    | None => DefaultVolumeDeleteOnTermination
    end in
  let rootVolumeEncryption :=
    match RootVolumeEncryption (Spec g) with
    | Some _ => fi.BoolValue (RootVolumeEncryption (Spec g))
    | None => DefaultVolumeEncryption
    end in
  (* @step: if required we add the override for the security group *)
  let sgLink := LinkToSecurityGroup b (Role (Spec g)) in
  let sgLink :=
    match SecurityGroupOverride (Spec g) with
    | Some _ =>
        let sgName := fi.StringValue (SecurityGroupOverride (Spec g))
                        ++ "-" ++ Role (Spec g) in
        {|
          SecurityGroup.ID := SecurityGroupOverride (Spec g);
          SecurityGroup.Lifecycle := None;
          SecurityGroup.Name := Some sgName;
          SecurityGroup.Shared := fi.Bool true;
        |}
    | None => sgLink
    end in
  (* @step: add the iam instance profile *)
  link <- lift (wrapErr (ErrIAMProfileLink (ObjectMeta_Name g))
                        (LinkToIAMInstanceProfile b g)) ;;
  let t := {|
    LaunchConfiguration.Name := fi.String name;
    LaunchConfiguration.Lifecycle := Lifecycle b;
    LaunchConfiguration.AssociatePublicIP := None;
    LaunchConfiguration.BlockDeviceMappings := [];
    LaunchConfiguration.HTTPPutResponseHopLimit := None;
    LaunchConfiguration.HTTPTokens := None;
    LaunchConfiguration.IAMInstanceProfile := link;
    LaunchConfiguration.ImageID := fi.String (Image (Spec g));
    LaunchConfiguration.InstanceMonitoring := DetailedInstanceMonitoring (Spec g);
    LaunchConfiguration.InstanceType :=
      fi.String (strings.SplitFirst (MachineType (Spec g)) ","%char);
    LaunchConfiguration.RootVolumeDeleteOnTermination :=
      fi.Bool rootVolumeDeleteOnTermination;
    LaunchConfiguration.RootVolumeEncryption := fi.Bool rootVolumeEncryption;
    LaunchConfiguration.RootVolumeIops := None;
    LaunchConfiguration.RootVolumeOptimization := RootVolumeOptimization (Spec g);
    LaunchConfiguration.RootVolumeSize := fi.Int64 volumeSize;
    LaunchConfiguration.RootVolumeType := fi.String volumeType;
    LaunchConfiguration.SSHKey := None;
    LaunchConfiguration.SecurityGroups := [sgLink];
    LaunchConfiguration.SpotPrice := "";
    LaunchConfiguration.Tenancy := None;
    LaunchConfiguration.UserData := None;
  |} in
  let t := LaunchConfiguration.set_HTTPTokens (fi.String "optional") t in
  let t :=
    match InstanceMetadata (Spec g) with
    | Some md =>
        match InstanceMetadataOptions.HTTPTokens md with
        | Some _ => LaunchConfiguration.set_HTTPTokens
                      (InstanceMetadataOptions.HTTPTokens md) t
        | None => t
        end
    | None => t
    end in
  let t := LaunchConfiguration.set_HTTPPutResponseHopLimit (fi.Int64 1) t in
  let t :=
    match InstanceMetadata (Spec g) with
    | Some md =>
        match InstanceMetadataOptions.HTTPPutResponseHopLimit md with
        | Some _ => LaunchConfiguration.set_HTTPPutResponseHopLimit
                      (InstanceMetadataOptions.HTTPPutResponseHopLimit md) t
        | None => t
        end
    | None => t
    end in
  t <- (if (Role (Spec g) =? InstanceGroupRoleMaster)%string
           && (APILoadBalancerClass b =? LoadBalancerClassNetwork)%string
        then
          match Cluster_Spec_API b with
          | Some api =>
              match AccessSpec.LoadBalancer api with
              | Some lb =>
                  nlbSecurityGroups
                    (LoadBalancerAccessSpec.AdditionalSecurityGroups lb) t
              | None => panic "nil pointer dereference"
              end
          | None => panic "nil pointer dereference"
          end
        else ret t) ;;
  let t :=
    if (volumeType =? ec2.VolumeTypeIo1)%string
       || (volumeType =? ec2.VolumeTypeIo2)%string
    then
      if fi.Int32Value (RootVolumeIops (Spec g)) <? 100
      then LaunchConfiguration.set_RootVolumeIops
             (fi.Int64 DefaultVolumeIonIops) t
      else LaunchConfiguration.set_RootVolumeIops
             (fi.Int64 (fi.Int32Value (RootVolumeIops (Spec g)))) t
    else t in
  let t :=
    if negb (Tenancy (Spec g) =? "")%string
    then LaunchConfiguration.set_Tenancy (fi.String (Tenancy (Spec g))) t
    else t in
  (* @step: add any additional security groups to the instancegroup *)
  t <- additionalSecurityGroups (AdditionalSecurityGroups (Spec g)) t ;;
  (* @step: add any additional block devices to the launch configuration *)
  t <- additionalBlockDevices (List.length (Volumes (Spec g))) 0 t ;;
  t <- (if UseSSHKey b
        then key <- lift (LinkToSSHKey b) ;;
             ret (LaunchConfiguration.set_SSHKey key t)
        else ret t) ;;
  (* @step: add the instancegroup userdata *)
  g <- getIG ;;
  userData <- onRegistry (ResourceNodeUp b g) ;;
  let t := LaunchConfiguration.set_UserData userData t in
  (* @step: set up instance spot pricing *)
  let t :=
    if negb (fi.StringValue (MaxPrice (Spec g)) =? "")%string
    then
      let spotPrice := fi.StringValue (MaxPrice (Spec g)) in
      LaunchConfiguration.set_SpotPrice spotPrice t
    else t in
  (* @step: check the subnets are ok and pull together an array for us *)
  subnets <- lift (GatherSubnets b g) ;;
  (* @step: check if we can add an public ip to this subnet *)
  match subnets with
  | [] => panic "index out of range"
  | subnet0 :: _ =>
      let ty := ClusterSubnetSpec.Type_ subnet0 in
      if (ty =? SubnetTypePublic)%string || (ty =? SubnetTypeUtility)%string
      then
        let t := LaunchConfiguration.set_AssociatePublicIP (fi.Bool true) t in
        let t :=
          match AssociatePublicIP (Spec g) with
          | Some _ => LaunchConfiguration.set_AssociatePublicIP
                        (AssociatePublicIP (Spec g)) t
          | None => t
          end in
        ret t
      else if (ty =? SubnetTypePrivate)%string
      then ret (LaunchConfiguration.set_AssociatePublicIP (fi.Bool false) t)
      else ret t
  end.

(** buildLaunchTemplateTask is responsible for creating the template task
    into the aws model *)
Definition buildLaunchTemplateTask (name : string) : B LaunchTemplate.t :=
  lc <- buildLaunchConfigurationTask name ;;
  g <- getIG ;;
  tags <- lift (wrapErr ErrCloudTags (CloudTagsForInstanceGroup b g)) ;;
  let lt := {|
    LaunchTemplate.Name := fi.String name;
    LaunchTemplate.Lifecycle := Lifecycle b;
    LaunchTemplate.AssociatePublicIP := LaunchConfiguration.AssociatePublicIP lc;
    LaunchTemplate.BlockDeviceMappings := LaunchConfiguration.BlockDeviceMappings lc;
    LaunchTemplate.HTTPPutResponseHopLimit :=
      LaunchConfiguration.HTTPPutResponseHopLimit lc;
    LaunchTemplate.HTTPTokens := LaunchConfiguration.HTTPTokens lc;
    LaunchTemplate.IAMInstanceProfile := LaunchConfiguration.IAMInstanceProfile lc;
    LaunchTemplate.ImageID := LaunchConfiguration.ImageID lc;
    LaunchTemplate.InstanceInterruptionBehavior := None;
    LaunchTemplate.InstanceMonitoring := LaunchConfiguration.InstanceMonitoring lc;
    LaunchTemplate.InstanceType := LaunchConfiguration.InstanceType lc;
    LaunchTemplate.RootVolumeEncryption :=
      LaunchConfiguration.RootVolumeEncryption lc;
    LaunchTemplate.RootVolumeIops := LaunchConfiguration.RootVolumeIops lc;
    LaunchTemplate.RootVolumeKmsKey := None;
    LaunchTemplate.RootVolumeOptimization :=
      LaunchConfiguration.RootVolumeOptimization lc;
    LaunchTemplate.RootVolumeSize := LaunchConfiguration.RootVolumeSize lc;
    LaunchTemplate.RootVolumeThroughput := None;
    LaunchTemplate.RootVolumeType := LaunchConfiguration.RootVolumeType lc;
    LaunchTemplate.SSHKey := LaunchConfiguration.SSHKey lc;
    LaunchTemplate.SecurityGroups := LaunchConfiguration.SecurityGroups lc;
    LaunchTemplate.SpotDurationInMinutes := None;
    LaunchTemplate.SpotPrice := None;
    LaunchTemplate.Tags := tags;
    LaunchTemplate.Tenancy := LaunchConfiguration.Tenancy lc;
    LaunchTemplate.UserData := LaunchConfiguration.UserData lc;
  |} in
  (* When using a MixedInstances ASG, AWS requires the SpotPrice be defined
     on the ASG rather than the LaunchTemplate *)
  let lt :=
    match MixedInstancesPolicy (Spec g) with
    | None => LaunchTemplate.set_SpotPrice
                (fi.String (LaunchConfiguration.SpotPrice lc)) lt
    | Some _ => LaunchTemplate.set_SpotPrice (fi.String "") lt
    end in
  let lt :=
    match SpotDurationInMinutes (Spec g) with
    | Some _ => LaunchTemplate.set_SpotDurationInMinutes
                  (SpotDurationInMinutes (Spec g)) lt
    | None => lt
    end in
  let lt :=
    match InstanceInterruptionBehavior (Spec g) with
    | Some _ => LaunchTemplate.set_InstanceInterruptionBehavior
                  (InstanceInterruptionBehavior (Spec g)) lt
    | None => lt
    end in
  let lt :=
    if fi.BoolValue (RootVolumeEncryption (Spec g))
       && match RootVolumeEncryptionKey (Spec g) with
          | Some _ => true
          | None => false
          end
    then LaunchTemplate.set_RootVolumeKmsKey (RootVolumeEncryptionKey (Spec g)) lt
    else LaunchTemplate.set_RootVolumeKmsKey (fi.String "") lt in
  let lt :=
    if (fi.StringValue (LaunchTemplate.RootVolumeType lt) =? ec2.VolumeTypeGp3)%string
    then
      let lt :=
        if fi.Int32Value (RootVolumeIops (Spec g)) <? 3000
        then LaunchTemplate.set_RootVolumeIops (fi.Int64 DefaultVolumeGp3Iops) lt
        else LaunchTemplate.set_RootVolumeIops
               (fi.Int64 (fi.Int32Value (RootVolumeIops (Spec g)))) lt in
      if fi.Int32Value (RootVolumeThroughput (Spec g)) <? 125
      then LaunchTemplate.set_RootVolumeThroughput
             (fi.Int64 DefaultVolumeGp3Throughput) lt
      else LaunchTemplate.set_RootVolumeThroughput
             (fi.Int64 (fi.Int32Value (RootVolumeThroughput (Spec g)))) lt
    else lt in
  ret lt.

(** The loop over [ig.Spec.ExternalLoadBalancers] of
    [buildAutoScalingGroupTask]. *)
Fixpoint externalLoadBalancers (name : string) (extLBs : list LoadBalancer.t)
    (t : AutoscalingGroup.t) : B AutoscalingGroup.t :=
  match extLBs with
  | [] => ret t
  | extLB :: extLBs' =>
      t <- match LoadBalancer.LoadBalancerName extLB with
           | Some _ =>
               let lb := {|
                 ClassicLoadBalancer.Name := LoadBalancer.LoadBalancerName extLB;
                 ClassicLoadBalancer.LoadBalancerName :=
                   LoadBalancer.LoadBalancerName extLB;
                 ClassicLoadBalancer.Shared := fi.Bool true;
               |} in
               let t := AutoscalingGroup.set_LoadBalancers
                          (AutoscalingGroup.LoadBalancers t ++ [lb]) t in
               onRegistry (dropErr (EnsureTask b (TaskClassicLoadBalancer lb))) ;;;
               ret t
           | None => ret t
           end ;;
      t <- match LoadBalancer.TargetGroupARN extLB with
           | Some _ =>
               targetGroupName <-
                 lift (GetTargetGroupNameFromARN b
                         (fi.StringValue (LoadBalancer.TargetGroupARN extLB))) ;;
               let tg := {|
                 TargetGroup.Name := fi.String (name ++ "-" ++ targetGroupName);
                 TargetGroup.ARN := LoadBalancer.TargetGroupARN extLB;
                 TargetGroup.Shared := fi.Bool true;
               |} in
               let t := AutoscalingGroup.set_TargetGroups
                          (AutoscalingGroup.TargetGroups t ++ [tg]) t in
               onRegistry (AddTask b (TaskTargetGroup tg)) ;;;
               ret t
           | None => ret t
           end ;;
      externalLoadBalancers name extLBs' t
  end.

(** The attachments of [buildAutoScalingGroupTask] that are made unless
    Spotinst manages them: the block under the condition on the feature
    flags. *)
Definition managedLoadBalancers (g : InstanceGroup) (t : AutoscalingGroup.t)
  : B AutoscalingGroup.t :=
  (* Spotinst handles load balancer attachments internally, so there's no
     need to create separate attachments for both managed (+Spotinst) and
     hybrid (+SpotinstHybrid) instance groups. *)
  if negb (featureflag_Spotinst_Enabled b)
     || (featureflag_SpotinstHybrid_Enabled b
         && negb (HybridInstanceGroup b g))
  then
    t <- (if UseLoadBalancerForAPI b
             && (Role (Spec g) =? InstanceGroupRoleMaster)%string
          then
            if UseNetworkLoadBalancer b
            then
              let t := AutoscalingGroup.set_TargetGroups
                         (AutoscalingGroup.TargetGroups t
                            ++ [LinkToTargetGroup b "tcp"]) t in
              match Cluster_Spec_API b with
              | Some api =>
                  match AccessSpec.LoadBalancer api with
                  | Some lb =>
                      if negb (LoadBalancerAccessSpec.SSLCertificate lb
                                 =? "")%string
                      then ret (AutoscalingGroup.set_TargetGroups
                                  (AutoscalingGroup.TargetGroups t
                                     ++ [LinkToTargetGroup b "tls"]) t)
                      else ret t
                  | None => panic "nil pointer dereference"
                  end
              | None => panic "nil pointer dereference"
              end
            else
              ret (AutoscalingGroup.set_LoadBalancers
                     (AutoscalingGroup.LoadBalancers t
                        ++ [LinkToCLB b "api"]) t)
          else ret t) ;;
    if (Role (Spec g) =? InstanceGroupRoleBastion)%string
    then ret (AutoscalingGroup.set_LoadBalancers
                (AutoscalingGroup.LoadBalancers t
                   ++ [LinkToCLB b "bastion"]) t)
    else ret t
  else ret t.

(** buildAutoscalingGroupTask is responsible for building the autoscaling
    task into the model *)
Definition buildAutoScalingGroupTask (name : string) : B AutoscalingGroup.t :=
  g <- getIG ;;
  let t := {|
    AutoscalingGroup.Name := fi.String name;
    AutoscalingGroup.Lifecycle := Lifecycle b;
    AutoscalingGroup.Granularity := fi.String "1Minute";
    AutoscalingGroup.InstanceProtection := None;
    AutoscalingGroup.LaunchConfiguration := None;
    AutoscalingGroup.LaunchTemplate := None;
    AutoscalingGroup.LoadBalancers := [];
    AutoscalingGroup.MaxSize := None;
    AutoscalingGroup.Metrics := [
      "GroupDesiredCapacity";
      "GroupInServiceInstances";
      "GroupMaxSize";
      "GroupMinSize";
      "GroupPendingInstances";
      "GroupStandbyInstances";
      "GroupTerminatingInstances";
      "GroupTotalInstances"
    ];
    AutoscalingGroup.MinSize := None;
    AutoscalingGroup.MixedInstanceOverrides := [];
    AutoscalingGroup.MixedOnDemandAboveBase := None;
    AutoscalingGroup.MixedOnDemandAllocationStrategy := None;
    AutoscalingGroup.MixedOnDemandBase := None;
    AutoscalingGroup.MixedSpotAllocationStrategy := None;
    AutoscalingGroup.MixedSpotInstancePools := None;
    AutoscalingGroup.MixedSpotMaxPrice := None;
    AutoscalingGroup.Subnets := [];
    AutoscalingGroup.SuspendProcesses := None;
    AutoscalingGroup.Tags := [];
    AutoscalingGroup.TargetGroups := [];
  |} in
  let minSize := fi.Int64 1 in
  let maxSize := fi.Int64 1 in
  let minSize :=
    match MinSize (Spec g) with
    | Some n => fi.Int64 n
    | None =>
        if (Role (Spec g) =? InstanceGroupRoleNode)%string
        then fi.Int64 2 else minSize
    end in
  let maxSize :=
    match MaxSize (Spec g) with
    | Some n => fi.Int64 n
    | None =>
        if (Role (Spec g) =? InstanceGroupRoleNode)%string
        then fi.Int64 2 else maxSize
    end in
  let t := AutoscalingGroup.set_MinSize minSize t in
  let t := AutoscalingGroup.set_MaxSize maxSize t in
  subnets <- lift (GatherSubnets b g) ;;
  match subnets with
  | [] => fail (ErrNoSubnets (ObjectMeta_Name g) (kops.Subnets (Spec g)))
  | _ :: _ =>
      let t := AutoscalingGroup.set_Subnets
                 (AutoscalingGroup.Subnets t ++ map (LinkToSubnet b) subnets) t in
      tags <- lift (wrapErr ErrCloudTags (CloudTagsForInstanceGroup b g)) ;;
      let t := AutoscalingGroup.set_Tags tags t in
      let processes := ([] ++ SuspendProcesses (Spec g))%list in
      let t := AutoscalingGroup.set_SuspendProcesses (Some processes) t in
      let t := AutoscalingGroup.set_InstanceProtection
                 (InstanceProtection (Spec g)) t in
      let t := AutoscalingGroup.set_LoadBalancers [] t in
      let t := AutoscalingGroup.set_TargetGroups [] t in
      t <- managedLoadBalancers g t ;;
      t <- externalLoadBalancers name (ExternalLoadBalancers (Spec g)) t ;;
      let t := AutoscalingGroup.set_LoadBalancers
                 (sort.Stable OrderLoadBalancersByName_Less
                    (AutoscalingGroup.LoadBalancers t)) t in
      let t := AutoscalingGroup.set_TargetGroups
                 (sort.Stable OrderTargetGroupsByName_Less
                    (AutoscalingGroup.TargetGroups t)) t in
      (* @step: are we using a mixed instance policy *)
      let t :=
        match MixedInstancesPolicy (Spec g) with
        | Some spec =>
            let t := AutoscalingGroup.set_MixedInstanceOverrides
                       (MixedInstancesPolicySpec.Instances spec) t in
            let t := AutoscalingGroup.set_MixedOnDemandAboveBase
                       (MixedInstancesPolicySpec.OnDemandAboveBase spec) t in
            let t := AutoscalingGroup.set_MixedOnDemandAllocationStrategy
                       (MixedInstancesPolicySpec.OnDemandAllocationStrategy spec) t in
            let t := AutoscalingGroup.set_MixedOnDemandBase
                       (MixedInstancesPolicySpec.OnDemandBase spec) t in
            let t := AutoscalingGroup.set_MixedSpotAllocationStrategy
                       (MixedInstancesPolicySpec.SpotAllocationStrategy spec) t in
            let t := AutoscalingGroup.set_MixedSpotInstancePools
                       (MixedInstancesPolicySpec.SpotInstancePools spec) t in
            AutoscalingGroup.set_MixedSpotMaxPrice (MaxPrice (Spec g)) t
        | None => t
        end in
      ret t
  end.

(** The closure [func() (fi.Task, error)] of [Build]: the launch resource of
    the instance group, a template or a configuration. *)
Definition buildLaunchTask (name : string) : B Task :=
  g <- getIG ;;
  if UseLaunchTemplate b g
  then lt <- buildLaunchTemplateTask name ;;
       ret (TaskLaunchTemplate lt)
  else lc <- buildLaunchConfigurationTask name ;;
       ret (TaskLaunchConfiguration lc).

(** One round of the loop of [Build], for the instance group behind [ig]. *)
Definition buildInstanceGroup : B unit :=
  g <- getIG ;;
  let name := AutoscalingGroupName b g in
  if featureflag_SpotinstHybrid_Enabled b && HybridInstanceGroup b g
  then ret tt
  else
    (* @check if his instancegroup is backed by a fleet and override with a
       launch template *)
    task <- buildLaunchTask name ;;
    onRegistry (AddTask b task) ;;;
    (* @step: now lets build the autoscaling group task *)
    tsk <- buildAutoScalingGroupTask name ;;
    g <- getIG ;;
    tsk <- (if UseLaunchTemplate b g
            then match task with
                 | TaskLaunchTemplate lt =>
                     ret (AutoscalingGroup.set_LaunchTemplate (Some lt) tsk)
                 | _ => panic "interface conversion"
                 end
            else match task with
                 | TaskLaunchConfiguration lc =>
                     ret (AutoscalingGroup.set_LaunchConfiguration (Some lc) tsk)
                 | _ => panic "interface conversion"
                 end) ;;
    onRegistry (AddTask b (TaskAutoscalingGroup tsk)).

(** The loop of [Build] over the instance groups [igs]: the result, the
    registry and the instance groups as the loop leaves them.  The loop ends
    at the first error. *)
Fixpoint buildInstanceGroups (igs : list InstanceGroup) (c : Registry)
  : result unit * (Registry * list InstanceGroup) :=
  match igs with
  | [] => (Ok tt, (c, []))
  | g :: igs' =>
      match buildInstanceGroup {| reg := c; ig := g |} with
      | (Ok _, w) =>
          let '(r, (c', igs'')) := buildInstanceGroups igs' (reg w) in
          (r, (c', ig w :: igs''))
      | (Err e, w) => (Err e, (reg w, ig w :: igs'))
      | (Panic msg, w) => (Panic msg, (reg w, ig w :: igs'))
      end
  end.

(** Build is responsible for constructing the aws autoscaling group from the
    kops spec *)
Definition Build (c : Registry)
  : result unit * (Registry * list InstanceGroup) :=
  buildInstanceGroups (InstanceGroups b) c.

End Builder.

(** *** The launch resource, whichever its shape *)

Definition launchRootVolumeType (task : Task) : option string :=
  match task with
  | TaskLaunchConfiguration lc => LaunchConfiguration.RootVolumeType lc
  | TaskLaunchTemplate lt => LaunchTemplate.RootVolumeType lt
  | _ => None
  end.

Definition launchRootVolumeIops (task : Task) : option Z :=
  match task with
  | TaskLaunchConfiguration lc => LaunchConfiguration.RootVolumeIops lc
  | TaskLaunchTemplate lt => LaunchTemplate.RootVolumeIops lt
  | _ => None
  end.

Definition launchAssociatePublicIP (task : Task) : option bool :=
  match task with
  | TaskLaunchConfiguration lc => LaunchConfiguration.AssociatePublicIP lc
  | TaskLaunchTemplate lt => LaunchTemplate.AssociatePublicIP lt
  | _ => None
  end.

Definition launchBlockDeviceMappings (task : Task) : list BlockDeviceMapping.t :=
  match task with
  | TaskLaunchConfiguration lc => LaunchConfiguration.BlockDeviceMappings lc
  | TaskLaunchTemplate lt => LaunchTemplate.BlockDeviceMappings lt
  | _ => []
  end.

End awsmodel.

(* ------------------------------------------------------------------ *)
(** ** A sample cluster

    Concrete collaborators and instance groups on which the builders are
    evaluated: a registry that is the list of the tasks it was handed and
    that accepts every task, one subnet of a chosen type, and a worker group
    that sets nothing beyond its image and machine type. *)

Module example.

Import kops awstasks awsmodel.

Definition registry := list Task.

Definition register (t : Task) : M error registry unit :=
  fun c => (Ok tt, (c ++ [t])%list).

Definition subnet (ty : SubnetType) : ClusterSubnetSpec.t := {|
  ClusterSubnetSpec.Name := "us-test-1a";
  ClusterSubnetSpec.Type_ := ty;
|}.

Definition builder (subnetType : SubnetType) (template : bool)
  : AutoscalingGroupModelBuilder registry := {|
  Lifecycle := Some "Sync";
  SecurityLifecycle := Some "Sync";
  InstanceGroups := [];
  Cluster_Spec_API := None;
  AutoscalingGroupName := fun g => ObjectMeta_Name g ++ ".example.com";
  UseLaunchTemplate := fun _ => template;
  DefaultInstanceGroupVolumeSize := fun _ => Ok 128;
  LinkToSecurityGroup := fun role => {|
    SecurityGroup.ID := None;
    SecurityGroup.Lifecycle := Some "Sync";
    SecurityGroup.Name := Some (role ++ ".example.com");
    SecurityGroup.Shared := None;
  |};
  LinkToIAMInstanceProfile := fun g =>
    Ok (Some {| IAMInstanceProfile.Name := Some (Role (Spec g) ++ "s.example.com") |});
  APILoadBalancerClass := "Classic";
  UseSSHKey := false;
  LinkToSSHKey := Ok None;
  ResourceNodeUp := fun _ c => (Ok (Some "#!/bin/bash"), c);
  GatherSubnets := fun _ => Ok [subnet subnetType];
  CloudTagsForInstanceGroup := fun g => Ok [("Name", ObjectMeta_Name g)];
  LinkToSubnet := fun s => {| Subnet.Name := Some (ClusterSubnetSpec.Name s) |};
  UseLoadBalancerForAPI := true;
  UseNetworkLoadBalancer := false;
  LinkToTargetGroup := fun n => {|
    TargetGroup.Name := Some (n ++ ".example.com");
    TargetGroup.ARN := None;
    TargetGroup.Shared := None;
  |};
  LinkToCLB := fun n => {|
    ClassicLoadBalancer.Name := Some (n ++ ".example.com");
    ClassicLoadBalancer.LoadBalancerName := None;
    ClassicLoadBalancer.Shared := None;
  |};
  featureflag_Spotinst_Enabled := false;
  featureflag_SpotinstHybrid_Enabled := false;
  HybridInstanceGroup := fun _ => false;
  GetTargetGroupNameFromARN := fun arn => Ok ("tg-of-" ++ arn);
  EnsureTask := register;
  AddTask := register;
|}.

Definition nodes : InstanceGroupSpec := {|
  Role := InstanceGroupRoleNode;
  Image := "ami-0123456789";
  MinSize := None;
  MaxSize := None;
  MachineType := "m5.large,m5.xlarge";
  RootVolumeSize := None;
  RootVolumeType := None;
  RootVolumeIops := None;
  RootVolumeThroughput := None;
  RootVolumeOptimization := None;
  RootVolumeDeleteOnTermination := None;
  RootVolumeEncryption := None;
  RootVolumeEncryptionKey := None;
  Volumes := [];
  Subnets := ["us-test-1a"];
  MaxPrice := None;
  SpotDurationInMinutes := None;
  AssociatePublicIP := None;
  AdditionalSecurityGroups := [];
  Tenancy := "";
  SuspendProcesses := [];
  ExternalLoadBalancers := [];
  DetailedInstanceMonitoring := None;
  MixedInstancesPolicy := None;
  SecurityGroupOverride := None;
  InstanceProtection := None;
  InstanceInterruptionBehavior := None;
  InstanceMetadata := None;
|}.

Definition with_Role (v : InstanceGroupRole) (s : InstanceGroupSpec)
  : InstanceGroupSpec := ltac:(set_field eta_Spec Role s v).
Definition with_MinSize (v : option Z) (s : InstanceGroupSpec)
  : InstanceGroupSpec := ltac:(set_field eta_Spec MinSize s v).
Definition with_MaxSize (v : option Z) (s : InstanceGroupSpec)
  : InstanceGroupSpec := ltac:(set_field eta_Spec MaxSize s v).
Definition with_RootVolumeType (v : option string) (s : InstanceGroupSpec)
  : InstanceGroupSpec := ltac:(set_field eta_Spec RootVolumeType s v).
Definition with_RootVolumeIops (v : option Z) (s : InstanceGroupSpec)
  : InstanceGroupSpec := ltac:(set_field eta_Spec RootVolumeIops s v).
Definition with_MaxPrice (v : option string) (s : InstanceGroupSpec)
  : InstanceGroupSpec := ltac:(set_field eta_Spec MaxPrice s v).
Definition with_AssociatePublicIP (v : option bool) (s : InstanceGroupSpec)
  : InstanceGroupSpec := ltac:(set_field eta_Spec AssociatePublicIP s v).
Definition with_MixedInstancesPolicy (v : option MixedInstancesPolicySpec.t)
    (s : InstanceGroupSpec) : InstanceGroupSpec :=
  ltac:(set_field eta_Spec MixedInstancesPolicy s v).
Definition with_ExternalLoadBalancers (v : list LoadBalancer.t)
    (s : InstanceGroupSpec) : InstanceGroupSpec :=
  ltac:(set_field eta_Spec ExternalLoadBalancers s v).

(** The state a build starts from: an empty registry and the group [s]. *)
Definition start (s : InstanceGroupSpec) : World registry := {|
  reg := [];
  ig := {| ObjectMeta_Name := "nodes"; Spec := s |};
|}.

(** A volume that sets its device, its size and what is passed here. *)
Definition volume (ty : string) (iops throughput : option Z) : VolumeSpec.t := {|
  VolumeSpec.Device := "/dev/xvdd";
  VolumeSpec.Encrypted := None;
  VolumeSpec.Iops := iops;
  VolumeSpec.Throughput := throughput;
  VolumeSpec.Key := None;
  VolumeSpec.Size := 20;
  VolumeSpec.Type_ := ty;
  VolumeSpec.DeleteOnTermination := None;
|}.

Definition mixed : MixedInstancesPolicySpec.t := {|
  MixedInstancesPolicySpec.Instances := ["m5.large"; "m5a.large"];
  MixedInstancesPolicySpec.OnDemandAllocationStrategy := None;
  MixedInstancesPolicySpec.OnDemandBase := Some 1;
  MixedInstancesPolicySpec.OnDemandAboveBase := Some 50;
  MixedInstancesPolicySpec.SpotAllocationStrategy := None;
  MixedInstancesPolicySpec.SpotInstancePools := None;
|}.

End example.

(* ------------------------------------------------------------------ *)
(** ** Variations of the sample cluster

    The sample builder with other subnets and other feature flags, and
    instance groups that set more of their specification. *)

Module example_variants.

Import kops awstasks awsmodel.

(** The builder [base] over the subnets [subnets], with the two Spotinst
    feature flags as given and [isHybrid] for the hybrid groups. *)
Definition customised (subnets : list ClusterSubnetSpec.t)
    (spotinst hybrid : bool) (isHybrid : InstanceGroup -> bool)
    (base : AutoscalingGroupModelBuilder example.registry)
  : AutoscalingGroupModelBuilder example.registry := {|
  Lifecycle := Lifecycle base;
  SecurityLifecycle := SecurityLifecycle base;
  InstanceGroups := InstanceGroups base;
  Cluster_Spec_API := Cluster_Spec_API base;
  AutoscalingGroupName := AutoscalingGroupName base;
  UseLaunchTemplate := UseLaunchTemplate base;
  DefaultInstanceGroupVolumeSize := DefaultInstanceGroupVolumeSize base;
  LinkToSecurityGroup := LinkToSecurityGroup base;
  LinkToIAMInstanceProfile := LinkToIAMInstanceProfile base;
  APILoadBalancerClass := APILoadBalancerClass base;
  UseSSHKey := UseSSHKey base;
  LinkToSSHKey := LinkToSSHKey base;
  ResourceNodeUp := ResourceNodeUp base;
  GatherSubnets := fun _ => Ok subnets;
  CloudTagsForInstanceGroup := CloudTagsForInstanceGroup base;
  LinkToSubnet := LinkToSubnet base;
  UseLoadBalancerForAPI := UseLoadBalancerForAPI base;
  UseNetworkLoadBalancer := UseNetworkLoadBalancer base;
  LinkToTargetGroup := LinkToTargetGroup base;
  LinkToCLB := LinkToCLB base;
  featureflag_Spotinst_Enabled := spotinst;
  featureflag_SpotinstHybrid_Enabled := hybrid;
  HybridInstanceGroup := isHybrid;
  GetTargetGroupNameFromARN := GetTargetGroupNameFromARN base;
  EnsureTask := EnsureTask base;
  AddTask := AddTask base;
|}.

Definition with_RootVolumeSize (v : option Z) (s : InstanceGroupSpec)
  : InstanceGroupSpec := ltac:(set_field eta_Spec RootVolumeSize s v).
Definition with_RootVolumeEncryption (v : option bool) (s : InstanceGroupSpec)
  : InstanceGroupSpec := ltac:(set_field eta_Spec RootVolumeEncryption s v).
Definition with_RootVolumeEncryptionKey (v : option string)
    (s : InstanceGroupSpec) : InstanceGroupSpec :=
  ltac:(set_field eta_Spec RootVolumeEncryptionKey s v).
Definition with_AdditionalSecurityGroups (v : list string)
    (s : InstanceGroupSpec) : InstanceGroupSpec :=
  ltac:(set_field eta_Spec AdditionalSecurityGroups s v).
Definition with_SecurityGroupOverride (v : option string)
    (s : InstanceGroupSpec) : InstanceGroupSpec :=
  ltac:(set_field eta_Spec SecurityGroupOverride s v).
Definition with_InstanceMetadata (v : option InstanceMetadataOptions.t)
    (s : InstanceGroupSpec) : InstanceGroupSpec :=
  ltac:(set_field eta_Spec InstanceMetadata s v).
Definition with_Tenancy (v : string) (s : InstanceGroupSpec)
  : InstanceGroupSpec := ltac:(set_field eta_Spec Tenancy s v).
Definition with_SuspendProcesses (v : list string) (s : InstanceGroupSpec)
  : InstanceGroupSpec := ltac:(set_field eta_Spec SuspendProcesses s v).

(** A group that sets what the sample group leaves out: a root volume of
    size zero that is encrypted under a key, a security group of its own in
    place of the one of its role, one more security group, an answer to
    metadata requests that asks for tokens, and dedicated tenancy. *)
Definition hardened : InstanceGroupSpec :=
  with_RootVolumeSize (Some 0)
    (with_RootVolumeEncryption (Some true)
       (with_RootVolumeEncryptionKey (Some "arn:aws:kms:key/1")
          (with_SecurityGroupOverride (Some "sg-override")
             (with_AdditionalSecurityGroups ["sg-extra"]
                (with_InstanceMetadata
                   (Some {| InstanceMetadataOptions.HTTPPutResponseHopLimit := None;
                            InstanceMetadataOptions.HTTPTokens := Some "required" |})
                   (with_Tenancy "dedicated" example.nodes)))))).

(** A volume that sets every field that is passed on as it is. *)
Definition keyed_volume : VolumeSpec.t := {|
  VolumeSpec.Device := "/dev/xvde";
  VolumeSpec.Encrypted := Some true;
  VolumeSpec.Iops := None;
  VolumeSpec.Throughput := None;
  VolumeSpec.Key := Some "arn:aws:kms:key/2";
  VolumeSpec.Size := 50;
  VolumeSpec.Type_ := "";
  VolumeSpec.DeleteOnTermination := Some false;
|}.

(** Two load balancers that a group names itself, the second by an ARN
    only. *)
Definition external : list LoadBalancer.t := [
  {| LoadBalancer.LoadBalancerName := Some "zeta";
     LoadBalancer.TargetGroupARN := Some "arn-2" |};
  {| LoadBalancer.LoadBalancerName := None;
     LoadBalancer.TargetGroupARN := Some "arn-1" |}
].

(** A group called [name] with the specification [s]. *)
Definition group (name : string) (s : InstanceGroupSpec) : InstanceGroup := {|
  ObjectMeta_Name := name;
  Spec := s;
|}.

End example_variants.

(* ------------------------------------------------------------------ *)
(** ** [pkg/resources/spotinst/aws.go]: listing, creating, reading, updating

    The methods of the three services beside [Delete] and [Detach], the
    instance-group wrappers and their constructor.  A method is a computation
    on the backend's state that ends in a value, an [error] or a panic. *)

Module spotinst_groups.

Import spotinst.

(** Modelled from the spec: [fi.IntValue], of the package [fi] declared
    outside the sources at hand: the integer behind a pointer, [0] for
    [nil]. *)
Definition IntValue (p : option Z) : Z :=
  match p with Some n => n | None => 0 end.

(** The objects of the SDK, restricted to the fields the wrappers read.
    Every one is handled through a pointer, which may be [nil]. *)
Record Capacity := {
  Minimum : option Z;
  Maximum : option Z;
}.

Record Group := {
  Group_ID : option string;
  Group_Name : option string;
  Group_Capacity : option Capacity;
}.

Record Cluster := {
  Cluster_ID : option string;
  Cluster_Name : option string;
  Cluster_Capacity : option Capacity;
}.

Record LaunchSpec := {
  LaunchSpec_ID : option string;
  LaunchSpec_Name : option string;
}.

Record egInstance := { egInstance_ID : option string }.
Record ocInstance := { ocInstance_ID : option string }.

(** An [interface{}] value by its dynamic type: a pointer to one of the
    three objects, or anything else (the [nil] interface included). *)
Inductive object :=
| ObjGroup (p : option Group)
| ObjCluster (p : option Cluster)
| ObjLaunchSpec (p : option LaunchSpec)
| ObjOther.

(** The three implementations of the [InstanceGroup] interface, each the
    pointer it wraps. *)
Inductive InstanceGroup :=
| awsElastigroupInstanceGroup (obj : option Group)
| awsOceanClusterInstanceGroup (obj : option Cluster)
| awsOceanLaunchSpecInstanceGroup (obj : option LaunchSpec).

(** The two implementations of the [Instance] interface. *)
Inductive Instance :=
| awsElastigroupInstance (obj : option egInstance)
| awsOceanInstance (obj : option ocInstance).

Definition nilDereference {A} : outcome error A :=
  Panic "invalid memory address or nil pointer dereference".

Definition interfaceConversion {A} : outcome error A :=
  Panic "interface conversion".

(** [Obj()] *)
Definition Obj (x : InstanceGroup) : object :=
  match x with
  | awsElastigroupInstanceGroup o => ObjGroup o
  | awsOceanClusterInstanceGroup o => ObjCluster o
  | awsOceanLaunchSpecInstanceGroup o => ObjLaunchSpec o
  end.

(** [Id()]: [fi.StringValue(x.obj.ID)], which reads through [x.obj]. *)
Definition Id (x : InstanceGroup) : outcome error string :=
  match x with
  | awsElastigroupInstanceGroup (Some o) => Ok (fi.StringValue (Group_ID o))
  | awsOceanClusterInstanceGroup (Some o) => Ok (fi.StringValue (Cluster_ID o))
  | awsOceanLaunchSpecInstanceGroup (Some o) =>
      Ok (fi.StringValue (LaunchSpec_ID o))
  | _ => nilDereference
  end.

(** [Name()] *)
Definition Name (x : InstanceGroup) : outcome error string :=
  match x with
  | awsElastigroupInstanceGroup (Some o) => Ok (fi.StringValue (Group_Name o))
  | awsOceanClusterInstanceGroup (Some o) => Ok (fi.StringValue (Cluster_Name o))
  | awsOceanLaunchSpecInstanceGroup (Some o) =>
      Ok (fi.StringValue (LaunchSpec_Name o))
  | _ => nilDereference
  end.

(** [fi.IntValue(x.obj.Capacity.Minimum)], through two pointers. *)
Definition capacityMinimum (c : option (option Capacity)) : outcome error Z :=
  match c with
  | Some (Some c) => Ok (IntValue (Minimum c))
  | _ => nilDereference
  end.

Definition capacityMaximum (c : option (option Capacity)) : outcome error Z :=
  match c with
  | Some (Some c) => Ok (IntValue (Maximum c))
  | _ => nilDereference
  end.

(** [MinSize()]: the launch spec answers [-1] without reading its object. *)
Definition MinSize (x : InstanceGroup) : outcome error Z :=
  match x with
  | awsElastigroupInstanceGroup o => capacityMinimum (option_map Group_Capacity o)
  | awsOceanClusterInstanceGroup o =>
      capacityMinimum (option_map Cluster_Capacity o)
  | awsOceanLaunchSpecInstanceGroup _ => Ok (-1)
  end.

(** [MaxSize()] *)
Definition MaxSize (x : InstanceGroup) : outcome error Z :=
  match x with
  | awsElastigroupInstanceGroup o => capacityMaximum (option_map Group_Capacity o)
  | awsOceanClusterInstanceGroup o =>
      capacityMaximum (option_map Cluster_Capacity o)
  | awsOceanLaunchSpecInstanceGroup _ => Ok (-1)
  end.

(** [Id()] of an instance. *)
Definition Instance_Id (x : Instance) : outcome error string :=
  match x with
  | awsElastigroupInstance (Some o) => Ok (fi.StringValue (egInstance_ID o))
  | awsOceanInstance (Some o) => Ok (fi.StringValue (ocInstance_ID o))
  | _ => nilDereference
  end.

Section Types.

(** The three values of the string type [InstanceGroupType] that the file
    names; they are declared outside it and stay parameters. *)
Variables InstanceGroupElastigroup InstanceGroupOceanCluster
          InstanceGroupOceanLaunchSpec : string.

(** [Type()] *)
Definition Type_ (x : InstanceGroup) : string :=
  match x with
  | awsElastigroupInstanceGroup _ => InstanceGroupElastigroup
  | awsOceanClusterInstanceGroup _ => InstanceGroupOceanCluster
  | awsOceanLaunchSpecInstanceGroup _ => InstanceGroupOceanLaunchSpec
  end.

(** [newAWSInstanceGroup]: the cases of the switch are tried in order, and a
    type assertion on an object of another dynamic type panics. *)
Definition newAWSInstanceGroup (typ : string) (obj : object)
  : outcome error InstanceGroup :=
  if (typ =? InstanceGroupElastigroup)%string then
    match obj with
    | ObjGroup p => Ok (awsElastigroupInstanceGroup p)
    | _ => interfaceConversion
    end
  else if (typ =? InstanceGroupOceanCluster)%string then
    match obj with
    | ObjCluster p => Ok (awsOceanClusterInstanceGroup p)
    | _ => interfaceConversion
    end
  else if (typ =? InstanceGroupOceanLaunchSpec)%string then
    match obj with
    | ObjLaunchSpec p => Ok (awsOceanLaunchSpecInstanceGroup p)
    | _ => interfaceConversion
    end
  else
    Err (OtherError ("spotinst: unsupported instance group type: " ++ typ)).

End Types.

(** *** The remaining calls of the SDK

    What reaches the backend, and what comes back: an error or an output. *)

Inductive call :=
| CallListGroups
| CallCreateGroup (group : option Group)
| CallReadGroup (groupID : option string)
| CallUpdateGroup (group : option Group)
| CallStatusGroup (groupID : option string)
| CallListClusters
| CallCreateCluster (cluster : option Cluster)
| CallReadCluster (clusterID : option string)
| CallUpdateCluster (cluster : option Cluster)
| CallListClusterInstances (clusterID : option string)
| CallListLaunchSpecs
| CallCreateLaunchSpec (spec : option LaunchSpec)
| CallReadLaunchSpec (specID : option string)
| CallUpdateLaunchSpec (spec : option LaunchSpec).

(** The output of a call, by the field that the code reads: the list of a
    listing, or the one object of a create, read or update. *)
Inductive output :=
| OutGroups (groups : list (option Group))
| OutGroup (group : option Group)
| OutEgInstances (instances : list (option egInstance))
| OutClusters (clusters : list (option Cluster))
| OutCluster (cluster : option Cluster)
| OutOcInstances (instances : list (option ocInstance))
| OutLaunchSpecs (specs : list (option LaunchSpec))
| OutLaunchSpec (spec : option LaunchSpec)
| OutNil.

Section Services.

(** The state of the backend, and the SDK: the backend's answer to a call.
    An answer that is not an error is an output pointer, [OutNil] when it
    is [nil] or of another shape than the call has. *)
Variable B : Type.
Variable svc : call -> B -> (error + output) * B.

Definition S := M error B.

(** A call of the SDK, with its [if err != nil { return ..., err }]. *)
Definition request (c : call) : S output :=
  fun st =>
    match svc c st with
    | (inl err, st') => (Err err, st')
    | (inr out, st') => (Ok out, st')
    end.

(** [groups := make([]InstanceGroup, n)] followed by
    [for i, group := range items { groups[i] = wrap(group) }]: the slice
    before the loop holds [n] nil interfaces. *)
Fixpoint fill {A W} (wrap : A -> W) (items : list A) (i : nat)
    (slots : list (option W)) : list (option W) :=
  match items with
  | [] => slots
  | item :: items' => fill wrap items' (Datatypes.S i) (list_set i (Some (wrap item)) slots)
  end.

Definition wrapAll {A W} (wrap : A -> W) (items : list A) : list (option W) :=
  fill wrap items 0 (repeat None (List.length items)).

(** *** awsElastigroupService *)

Definition awsElastigroupService_List : S (list (option InstanceGroup)) :=
  out <- request CallListGroups ;;
  match out with
  | OutGroups groups => ret (wrapAll awsElastigroupInstanceGroup groups)
  | _ => lift nilDereference
  end.

Definition awsElastigroupService_Create (group : InstanceGroup) : S string :=
  match Obj group with
  | ObjGroup p =>
      out <- request (CallCreateGroup p) ;;
      match out with
      | OutGroup (Some g) => ret (fi.StringValue (Group_ID g))
      | _ => lift nilDereference
      end
  | _ => lift interfaceConversion
  end.


Definition awsElastigroupService_Update (group : InstanceGroup) : S unit :=
  match Obj group with
  | ObjGroup p =>
      request (CallUpdateGroup p) ;;;
      ret tt
  | _ => lift interfaceConversion
  end.

Definition awsElastigroupService_Instances (groupID : string)
  : S (list (option Instance)) :=
  out <- request (CallStatusGroup (fi.String groupID)) ;;
  match out with
  | OutEgInstances instances => ret (wrapAll awsElastigroupInstance instances)
  | _ => lift nilDereference
  end.

(** *** awsOceanClusterService *)

Definition awsOceanClusterService_List : S (list (option InstanceGroup)) :=
  out <- request CallListClusters ;;
  match out with
  | OutClusters clusters => ret (wrapAll awsOceanClusterInstanceGroup clusters)
  | _ => lift nilDereference
  end.

Definition awsOceanClusterService_Create (group : InstanceGroup) : S string :=
  match Obj group with
  | ObjCluster p =>
      out <- request (CallCreateCluster p) ;;
      match out with
      | OutCluster (Some c) => ret (fi.StringValue (Cluster_ID c))
      | _ => lift nilDereference
      end
  | _ => lift interfaceConversion
  end.


Definition awsOceanClusterService_Update (group : InstanceGroup) : S unit :=
  match Obj group with
  | ObjCluster p =>
      request (CallUpdateCluster p) ;;;
      ret tt
  | _ => lift interfaceConversion
  end.

Definition awsOceanClusterService_Instances (clusterID : string)
  : S (list (option Instance)) :=
  out <- request (CallListClusterInstances (fi.String clusterID)) ;;
  match out with
  | OutOcInstances instances => ret (wrapAll awsOceanInstance instances)
  | _ => lift nilDereference
  end.

(** *** awsOceanLaunchSpecService *)

Definition awsOceanLaunchSpecService_List : S (list (option InstanceGroup)) :=
  out <- request CallListLaunchSpecs ;;
  match out with
  | OutLaunchSpecs specs => ret (wrapAll awsOceanLaunchSpecInstanceGroup specs)
  | _ => lift nilDereference
  end.

Definition awsOceanLaunchSpecService_Create (group : InstanceGroup) : S string :=
  match Obj group with
  | ObjLaunchSpec p =>
      out <- request (CallCreateLaunchSpec p) ;;
      match out with
      | OutLaunchSpec (Some s) => ret (fi.StringValue (LaunchSpec_ID s))
      | _ => lift nilDereference
      end
  | _ => lift interfaceConversion
  end.


Definition awsOceanLaunchSpecService_Update (group : InstanceGroup) : S unit :=
  match Obj group with
  | ObjLaunchSpec p =>
      request (CallUpdateLaunchSpec p) ;;;
      ret tt
  | _ => lift interfaceConversion
  end.

Definition awsOceanLaunchSpecService_Instances (specID : string)
  : S (list (option Instance)) :=
  out <- request (CallListClusterInstances (fi.String specID)) ;;
  match out with
  | OutOcInstances instances => ret (wrapAll awsOceanInstance instances)
  | _ => lift nilDereference
  end.

End Services.

(** The SDK over a backend that keeps the calls it receives, in order. *)
Definition logging {B} (svc : call -> B -> (error + output) * B)
    (c : call) (st : B * list call) : (error + output) * (B * list call) :=
  let '(r, st') := svc c (fst st) in
  (r, (st', snd st ++ [c])%list).

End spotinst_groups.

(* ------------------------------------------------------------------ *)
(** * Properties of the Spotinst adapter *)

Module spotinst_facts.

Import spotinst.

(** ** Substrings and letter case *)

Lemma HasPrefix_app (p s : string) : strings.HasPrefix (p ++ s) p = true.
Proof.
  induction p as [|c p IH]; simpl.
  - now destruct s.
  - now rewrite Ascii.eqb_refl, IH.
Qed.

Lemma Contains_of_prefix (s p : string) :
  strings.HasPrefix s p = true -> strings.Contains s p = true.
Proof.
  intros H. destruct s; cbn [strings.Contains]; now rewrite H.
Qed.

Lemma Contains_app (pre mid post : string) :
  strings.Contains (pre ++ mid ++ post) mid = true.
Proof.
  induction pre as [|c pre IH].
  - cbn [append]. apply Contains_of_prefix, HasPrefix_app.
  - simpl. rewrite IH. apply orb_true_r.
Qed.

Lemma lowerASCII_app (s1 s2 : string) :
  strings.lowerASCII (s1 ++ s2) = (strings.lowerASCII s1 ++ strings.lowerASCII s2)%string.
Proof.
  induction s1 as [|c s1 IH]; simpl; [reflexivity | now rewrite IH].
Qed.

(** A message that is ASCII and holds the phrase in whatever mix of upper and
    lower case passes the test of [Delete]. *)
Lemma any_letter_case_passes (f : string -> string) (pre mid post : string) :
  strings.isASCII (pre ++ mid ++ post) = true ->
  strings.lowerASCII mid = "ocean does not exist" ->
  strings.Contains (strings.ToLower f (pre ++ mid ++ post))
                   "ocean does not exist" = true.
Proof.
  intros Hascii Hmid. unfold strings.ToLower. rewrite Hascii.
  rewrite !lowerASCII_app, Hmid. apply Contains_app.
Qed.

(** The loop of [Delete] answers [true] exactly when an entry passes. *)
Lemma oceanGone_iff (f : string -> string) (errs : client.Errors) :
  oceanGone f errs = true <->
  exists e, In e errs /\
    strings.Contains (strings.ToLower f (client.Message e))
                     "ocean does not exist" = true.
Proof.
  induction errs as [|e errs IH]; simpl.
  - split; [discriminate | intros (e & [] & _)].
  - destruct (strings.Contains _ _) eqn:E.
    + split; [intros _; exists e; auto | reflexivity].
    + rewrite IH. split.
      * intros (e' & Hin & He'). exists e'. auto.
      * intros (e' & [<- | Hin] & He'); [congruence | exists e'; auto].
Qed.

(** ** Delete of a launch spec *)

(** C2.  When the backend answers the deletion of a launch spec with an
    error, [Delete] returns [nil] if the error is the SDK's list of errors and
    the message of one of its entries, put in lower case, contains
    "ocean does not exist"; every other error is returned as it came. *)
Theorem Delete_launch_spec_ocean_gone
    (f : string -> string) (B : Type) (svc : awsoc.Service B)
    (specID : string) (st st' : B) (err : error)
    (Hbackend : awsoc.DeleteLaunchSpec svc
                  {| awsoc.LaunchSpecID := Some specID |} st = (Some err, st')) :
  let gone :=
    exists errs e, err = ClientErrors errs /\ In e errs /\
      strings.Contains (strings.ToLower f (client.Message e))
                       "ocean does not exist" = true in
  (gone -> Delete (awsOceanLaunchSpecService f svc) specID st = (None, st')) /\
  (~ gone -> Delete (awsOceanLaunchSpecService f svc) specID st = (Some err, st')).
Proof.
  simpl. unfold awsOceanLaunchSpecService_Delete, fi.String.
  rewrite Hbackend. split.
  - intros (errs & e & -> & Hin & He).
    assert (H : oceanGone f errs = true) by (apply oceanGone_iff; eauto).
    now rewrite H.
  - intros Hno. destruct err as [errs | text]; [| reflexivity].
    destruct (oceanGone f errs) eqn:H; [| reflexivity].
    exfalso. apply Hno. apply oceanGone_iff in H as (e & Hin & He). eauto.
Qed.

Lemma Delete_launch_spec_ocean_gone_witness :
  let gone := ClientErrors
    [ {| client.Code := "CANT_DELETE"; client.Message := "Ocean Does NOT exist";
         client.Field := "" |} ] in
  let busy := ClientErrors
    [ {| client.Code := "BUSY"; client.Message := "launch spec is in use";
         client.Field := "" |} ] in
  Delete (awsOceanLaunchSpecService (fun s => s) (answering (Some gone)))
         "ols-1" tt = (None, tt) /\
  Delete (awsOceanLaunchSpecService (fun s => s) (answering (Some busy)))
         "ols-1" tt = (Some busy, tt).
Proof.
  split.
  - apply (Delete_launch_spec_ocean_gone (fun s => s) (answering _) "ols-1" tt
             eq_refl).
    eexists _, _. split; [reflexivity |]. split; [left; reflexivity |].
    reflexivity.
  - apply (Delete_launch_spec_ocean_gone (fun s => s) (answering _) "ols-1" tt
             eq_refl).
    intros (errs & e & Herr & Hin & He). injection Herr as <-.
    destruct Hin as [<- | []]. discriminate He.
Defined.

(** ** Detach *)

(** C9.  Whichever of the three services is asked to detach an instance, and
    whatever the backend answers, exactly one request reaches the backend; it
    is a detach request for that group and that instance, with
    [ShouldDecrementTargetCapacity] false and [ShouldTerminateInstances]
    true. *)
Theorem Detach_request_switches
    (f : string -> string) (B : Type)
    (egsvc : awseg.Service B) (ocsvc : awsoc.Service B)
    (groupID instanceID : string) (st : B) (log : list request) :
  let x := newAWSCloud f (recording_eg egsvc) (recording_oc ocsvc) in
  Forall
    (fun svc : InstanceGroupService (B * list request) =>
       exists req,
         snd (snd (Detach svc groupID instanceID (st, log)))
           = (log ++ [req])%list /\
         detachSwitches req = Some (Some false, Some true) /\
         detachTarget req = Some (Some groupID, [instanceID]))
    [Elastigroup x; OceanCluster x; OceanLaunchSpec x].
Proof.
  intros x. repeat constructor; simpl.
  - unfold awsElastigroupService_Detach; simpl. unfold recorded; simpl.
    destruct (awseg.Detach egsvc _ st) as [err st']; simpl.
    eexists; repeat split.
  - unfold awsOceanClusterService_Detach; simpl. unfold recorded; simpl.
    destruct (awsoc.DetachClusterInstances ocsvc _ st) as [err st']; simpl.
    eexists; repeat split.
  - unfold awsOceanLaunchSpecService_Detach; simpl. unfold recorded; simpl.
    destruct (awsoc.DetachClusterInstances ocsvc _ st) as [err st']; simpl.
    eexists; repeat split.
Qed.

End spotinst_facts.

(* ------------------------------------------------------------------ *)
(** * Properties of the stable sort *)

Module sort_facts.

(** ** The order of Go strings *)

Lemma compare_as_OT (a b : string) :
  String.compare a b = OrdersEx.String_as_OT.compare a b.
Proof.
  reflexivity.
Qed.

Lemma leb_iff (a b : string) :
  String.leb a b = true <-> a = b \/ OrdersEx.String_as_OT.lt a b.
Proof.
  unfold String.leb. rewrite compare_as_OT.
  destruct (OrdersEx.String_as_OT.compare_spec a b) as [E | L | G].
  - split; auto.
  - split; auto.
  - split; [discriminate |]. intros [-> | L]; exfalso.
    + exact (StrictOrder_Irreflexive _ G).
    + exact (StrictOrder_Irreflexive _ (StrictOrder_Transitive _ _ _ L G)).
Qed.

Lemma leb_trans (a b c : string) :
  String.leb a b = true -> String.leb b c = true -> String.leb a c = true.
Proof.
  rewrite !leb_iff. intros [-> | Hab] [-> | Hbc]; auto.
  right. eapply (StrictOrder_Transitive (R := OrdersEx.String_as_OT.lt)); eassumption.
Qed.

Lemma ltb_leb (a b : string) : String.ltb a b = true -> String.leb a b = true.
Proof.
  unfold String.ltb, String.leb. now destruct (String.compare a b).
Qed.

Lemma not_ltb_leb (a b : string) :
  String.ltb a b = false -> String.leb b a = true.
Proof.
  unfold String.ltb, String.leb. rewrite (String.compare_antisym a b).
  now destruct (String.compare b a).
Qed.

(** ** Sorting by a string key *)

Section ByKey.

Variable A : Type.
Variable key : A -> string.

#[local] Abbreviation less :=
  (fun a b : A => String.ltb (key a) (key b)).
#[local] Abbreviation ordered :=
  (fun a b : A => String.leb (key a) (key b) = true).

Lemma insert_perm (x : A) (l : list A) :
  Permutation (sort.insert less x l) (x :: l).
Proof.
  induction l as [|y l IH]; simpl; [reflexivity |].
  destruct (less x y); [reflexivity |].
  rewrite IH. apply perm_swap.
Qed.

Lemma insert_sorted (x : A) (l : list A) :
  StronglySorted ordered l -> StronglySorted ordered (sort.insert less x l).
Proof.
  induction 1 as [|y l Hl IH Hy]; simpl.
  - repeat constructor.
  - destruct (less x y) eqn:E.
    + constructor; [now constructor |].
      apply ltb_leb in E. constructor; [exact E |].
      eapply Forall_impl; [| exact Hy].
      intros z Hz. cbv beta in *. eapply leb_trans; eassumption.
    + constructor; [exact IH |].
      apply not_ltb_leb in E.
      eapply Permutation_Forall; [symmetry; apply insert_perm |].
      constructor; assumption.
Qed.

Lemma Stable_from (l : list A) : forall acc,
  StronglySorted ordered acc ->
  let r := fold_left (fun sorted x => sort.insert less x sorted) l acc in
  StronglySorted ordered r /\ Permutation r (acc ++ l).
Proof.
  induction l as [|x l IH]; intros acc Hacc; simpl.
  - split; [assumption | now rewrite app_nil_r].
  - destruct (IH (sort.insert less x acc) (insert_sorted x Hacc)) as [Hs Hp].
    split; [exact Hs |]. rewrite Hp, insert_perm.
    apply Permutation_cons_app. reflexivity.
Qed.

(** [sort.Stable] by a key returns its input rearranged in ascending order
    of the key. *)
Lemma Stable_sorted (l : list A) :
  StronglySorted ordered (sort.Stable less l) /\
  Permutation (sort.Stable less l) l.
Proof.
  apply (Stable_from l (acc := [])). constructor.
Qed.

End ByKey.

End sort_facts.

(* ------------------------------------------------------------------ *)
(** * Properties of the model builder *)

Module awsmodel_facts.

Import kops awstasks awsmodel.

(** ** Running a sequence of calls *)

Lemma bind_Ok {E S A B} (m : M E S A) (f : A -> M E S B) s b s' :
  bind m f s = (Ok b, s') ->
  exists a s1, m s = (Ok a, s1) /\ f a s1 = (Ok b, s').
Proof.
  unfold bind. destruct (m s) as [[a | e | msg] s1]; intros H;
    try discriminate. eauto.
Qed.

Lemma lift_Ok {E S A} (r : outcome E A) (s : S) a s' :
  lift r s = (Ok a, s') -> r = Ok a /\ s' = s.
Proof. unfold lift. intros H. injection H as -> ->. auto. Qed.

Lemma ret_Ok {E S A} (x : A) (s : S) a s' :
  @ret E S A x s = (Ok a, s') -> a = x /\ s' = s.
Proof. unfold ret. intros H. injection H as -> ->. auto. Qed.

(** The state after [bind m f] satisfies [P] as soon as the state after [m]
    satisfies [Q] and [f] carries [Q] to [P]. *)
Lemma bind_state {E S A B} (m : M E S A) (f : A -> M E S B)
    (Q P : S -> Prop) s :
  Q (snd (m s)) ->
  (forall s1, Q s1 -> P s1) ->
  (forall a s1, Q s1 -> P (snd (f a s1))) ->
  P (snd (bind m f s)).
Proof.
  unfold bind. intros HQ HQP Hf.
  destruct (m s) as [[a | e | msg] s1]; simpl in *; auto.
Qed.

Section Builder.

Variable Registry : Type.
Variable b : AutoscalingGroupModelBuilder Registry.

#[local] Abbreviation World := (World Registry).

(** A registry call leaves the instance group alone. *)
Lemma onRegistry_ig {A} (m : M error Registry A) (w : World) :
  ig (snd (onRegistry m w)) = ig w.
Proof.
  unfold onRegistry, zoom. destruct (m (reg w)) as [r c]. reflexivity.
Qed.

Lemma onRegistry_Ok {A} (m : M error Registry A) (w w' : World) a :
  onRegistry m w = (Ok a, w') -> ig w' = ig w.
Proof.
  intros H. rewrite <- (onRegistry_ig m w), H. reflexivity.
Qed.

(** ** The loops over security groups *)

Lemma nlbSecurityGroups_ig ids : forall t (w : World),
  ig (snd (nlbSecurityGroups b ids t w)) = ig w.
Proof.
  induction ids as [|id ids IH]; intros t w; simpl; [reflexivity |].
  apply (bind_state _ _ (fun w1 => ig w1 = ig w)).
  - apply onRegistry_ig.
  - auto.
  - intros _ w1 H1. now rewrite IH.
Qed.

Lemma nlbSecurityGroups_Ok ids : forall t (w w' : World) t',
  nlbSecurityGroups b ids t w = (Ok t', w') ->
  t' = LaunchConfiguration.set_SecurityGroups
         (LaunchConfiguration.SecurityGroups t') t.
Proof.
  induction ids as [|id ids IH]; intros t w w' t' H; simpl in H.
  - apply ret_Ok in H as [-> _]. now destruct t.
  - apply bind_Ok in H as (_ & w1 & _ & H). apply IH in H.
    rewrite H at 1. reflexivity.
Qed.

Lemma additionalSecurityGroups_ig ids : forall t (w : World),
  ig (snd (additionalSecurityGroups b ids t w)) = ig w.
Proof.
  induction ids as [|id ids IH]; intros t w; simpl; [reflexivity |].
  apply (bind_state _ _ (fun w1 => ig w1 = ig w)).
  - apply onRegistry_ig.
  - auto.
  - intros _ w1 H1. now rewrite IH.
Qed.

Lemma additionalSecurityGroups_Ok ids : forall t (w w' : World) t',
  additionalSecurityGroups b ids t w = (Ok t', w') ->
  t' = LaunchConfiguration.set_SecurityGroups
         (LaunchConfiguration.SecurityGroups t') t.
Proof.
  induction ids as [|id ids IH]; intros t w w' t' H; simpl in H.
  - apply ret_Ok in H as [-> _]. now destruct t.
  - apply bind_Ok in H as (_ & w1 & _ & H). apply IH in H.
    rewrite H at 1. reflexivity.
Qed.

(** ** The loop over the volumes *)

Lemma list_set_length {A} (v : A) l : forall i,
  List.length (list_set i v l) = List.length l.
Proof.
  induction l as [|x l IH]; intros [|i]; simpl; auto.
Qed.

Lemma skipn_nth_error {A} (l : list A) : forall i x,
  nth_error l i = Some x -> skipn i l = x :: skipn (S i) l.
Proof.
  induction l as [|y l IH]; intros [|i] x H; simpl in *; try discriminate.
  - now injection H as ->.
  - now apply IH.
Qed.

Lemma skipn_list_set {A} (v : A) l : forall i,
  skipn (S i) (list_set i v l) = skipn (S i) l.
Proof.
  induction l as [|y l IH]; intros [|i]; simpl; auto.
  apply (IH i).
Qed.

Lemma firstn_list_set {A} (v : A) l : forall i x,
  nth_error l i = Some x ->
  firstn (S i) (list_set i v l) = (firstn i l ++ [v])%list.
Proof.
  induction l as [|y l IH]; intros [|i] x H; simpl in *; try discriminate.
  - reflexivity.
  - f_equal. now apply (IH i x).
Qed.

Lemma additionalBlockDevices_run n : forall i t (w : World),
  (i + n)%nat = List.length (Volumes (Spec (ig w))) ->
  let vols := Volumes (Spec (ig w)) in
  additionalBlockDevices n i t w =
    (Ok (LaunchConfiguration.set_BlockDeviceMappings
           (LaunchConfiguration.BlockDeviceMappings t
              ++ map (fun x => blockDeviceMapping (defaultVolume x))
                     (skipn i vols)) t),
     {| reg := reg w;
        ig := set_Spec
                (set_Volumes (firstn i vols ++ map defaultVolume (skipn i vols))
                             (Spec (ig w)))
                (ig w) |}).
Proof.
  induction n as [|n IH]; intros i t w Hlen vols; simpl.
  - rewrite Nat.add_0_r in Hlen. subst vols. rewrite Hlen.
    rewrite skipn_all, firstn_all. simpl. rewrite !app_nil_r.
    unfold ret. f_equal.
    + f_equal. now destruct t.
    + destruct w as [c [nm sp]]. destruct sp. reflexivity.
  - unfold bind at 1, getIG at 1.
    destruct (nth_error (Volumes (Spec (ig w))) i) as [x |] eqn:Hx.
    2:{ apply nth_error_None in Hx. lia. }
    unfold bind at 1, putIG at 1.
    rewrite IH.
    2:{ simpl. rewrite list_set_length. lia. }
    cbn [ig reg Spec set_Spec Volumes set_Volumes].
    subst vols.
    rewrite skipn_list_set, (firstn_list_set _ _ _ Hx), (skipn_nth_error _ _ Hx).
    unfold LaunchConfiguration.set_BlockDeviceMappings, set_Volumes, set_Spec.
    simpl. rewrite <- !app_assoc. reflexivity.
Qed.

(** ** The launch configuration *)

Lemma nlbSecurityGroups_run ids t (w w' : World) r :
  nlbSecurityGroups b ids t w = (r, w') -> ig w' = ig w.
Proof. intros H. now rewrite <- (nlbSecurityGroups_ig ids t w), H. Qed.

Lemma additionalSecurityGroups_run ids t (w w' : World) r :
  additionalSecurityGroups b ids t w = (r, w') -> ig w' = ig w.
Proof. intros H. now rewrite <- (additionalSecurityGroups_ig ids t w), H. Qed.


#[local] Abbreviation core t :=
  (LaunchConfiguration.RootVolumeType t,
   LaunchConfiguration.RootVolumeIops t,
   LaunchConfiguration.SpotPrice t,
   LaunchConfiguration.BlockDeviceMappings t,
   LaunchConfiguration.AssociatePublicIP t).

Ltac use_core F :=
  let H1 := fresh in let H2 := fresh in let H3 := fresh in
  let H4 := fresh in let H5 := fresh in
  injection F as H1 H2 H3 H4 H5;
  cbn; rewrite ?H1, ?H2, ?H3, ?H4, ?H5.

(** What a successful [buildLaunchConfigurationTask] leaves behind: the
    instance group with its volumes defaulted, a first subnet, and the fields
    of the launch configuration studied below. *)
Lemma buildLaunchConfigurationTask_Ok name (w w' : World) lc :
  buildLaunchConfigurationTask b name w = (Ok lc, w') ->
  let spec := Spec (ig w) in
  let raw := fi.StringValue (RootVolumeType spec) in
  let volumeType := if (raw =? "")%string then DefaultVolumeType else raw in
  ig w' = defaultedVolumes (ig w) /\
  exists subnet0 rest,
    GatherSubnets b (ig w') = Ok (subnet0 :: rest) /\
    core lc =
      (Some volumeType,
       (if (volumeType =? ec2.VolumeTypeIo1)%string
           || (volumeType =? ec2.VolumeTypeIo2)%string
        then Some (if fi.Int32Value (RootVolumeIops spec) <? 100
                   then 100 else fi.Int32Value (RootVolumeIops spec))
        else None),
       fi.StringValue (MaxPrice spec),
       map (fun x => blockDeviceMapping (defaultVolume x)) (Volumes spec),
       let ty := ClusterSubnetSpec.Type_ subnet0 in
       if (ty =? SubnetTypePublic)%string || (ty =? SubnetTypeUtility)%string
       then match AssociatePublicIP spec with
            | Some v => Some v
            | None => Some true
            end
       else if (ty =? SubnetTypePrivate)%string then Some false else None).
Proof.
  intros H spec raw volumeType.
  unfold buildLaunchConfigurationTask in H.
  apply bind_Ok in H as (g & w1 & Hg & H). injection Hg as <- <-.
  apply bind_Ok in H as (volumeSize & w1 & Hvs & H).
  apply lift_Ok in Hvs as [Hvs ->].
  cbv beta zeta in H.
  apply bind_Ok in H as (link & w1 & Hlink & H).
  apply lift_Ok in Hlink as [Hlink ->].
  apply bind_Ok in H as (t1 & w1 & Ht1 & H).
  match type of Ht1 with
  | context [nlbSecurityGroups b _ ?t] => set (t0 := t) in *
  end.
  fold spec raw volumeType in H.
  assert (F0 : core t0 = (Some volumeType, None, ""%string, [], None)).
  { subst t0. fold spec.
    destruct (InstanceMetadata spec) as [[[?|] [?|]]|]; reflexivity. }
  assert (Hw1 : ig w1 = ig w /\ core t1 = core t0).
  { destruct (_ && _) in Ht1.
    - destruct (Cluster_Spec_API b) as [api|]; [|discriminate].
      destruct (AccessSpec.LoadBalancer api) as [lb|]; [|discriminate].
      split; [now apply nlbSecurityGroups_run in Ht1 |].
      apply nlbSecurityGroups_Ok in Ht1. now rewrite Ht1.
    - apply ret_Ok in Ht1 as [-> ->]. split; reflexivity. }
  destruct Hw1 as [Hw1 F1]. rewrite F0 in F1. clear Ht1 F0. clearbody t0.
  apply bind_Ok in H as (t2 & w2 & Ht2 & H).
  assert (Hw2 : ig w2 = ig w).
  { rewrite <- Hw1. now apply additionalSecurityGroups_run in Ht2. }
  apply additionalSecurityGroups_Ok in Ht2.
  apply bind_Ok in H as (t3 & w3 & Ht3 & H).
  rewrite additionalBlockDevices_run in Ht3 by (simpl; now rewrite Hw2).
  injection Ht3 as <- <-.
  rewrite Hw2 in H. cbn [skipn firstn app] in H.
  fold (defaultedVolumes (ig w)) in H.
  set (iops := if (volumeType =? ec2.VolumeTypeIo1)%string
                  || (volumeType =? ec2.VolumeTypeIo2)%string
               then Some (if fi.Int32Value (RootVolumeIops spec) <? 100
                          then 100 else fi.Int32Value (RootVolumeIops spec))
               else None).
  assert (F2 : core t2 = (Some volumeType, iops, ""%string, [], None)).
  { rewrite Ht2. subst iops.
    repeat match goal with
           | |- context [if ?c then _ else _] => destruct c
           end; use_core F1; reflexivity. }
  clear Ht2 F1. clearbody iops.
  apply bind_Ok in H as (t4 & w4 & Ht4 & H).
  set (bdms := map (fun x => blockDeviceMapping (defaultVolume x))
                   (Volumes (Spec (ig w)))) in *.
  assert (F4 : w4 = {| reg := reg w2; ig := defaultedVolumes (ig w) |} /\
               core t4 = (Some volumeType, iops, ""%string, bdms, None)).
  { destruct (UseSSHKey b).
    - apply bind_Ok in Ht4 as (key & w5 & Hkey & Ht4).
      apply lift_Ok in Hkey as [_ ->]. apply ret_Ok in Ht4 as [-> ->].
      split; [reflexivity | use_core F2; reflexivity].
    - apply ret_Ok in Ht4 as [-> ->].
      split; [reflexivity | use_core F2; reflexivity]. }
  destruct F4 as [-> F4]. clear Ht4 F2.
  apply bind_Ok in H as (g & w5 & Hg & H). injection Hg as <- <-.
  cbn [ig] in H.
  apply bind_Ok in H as (userData & w5 & Hud & H).
  apply onRegistry_Ok in Hud. cbn [ig] in Hud.
  apply bind_Ok in H as (subnets & w6 & Hsub & H).
  apply lift_Ok in Hsub as [Hsub ->].
  destruct subnets as [|subnet0 rest]; [discriminate |].
  change (Spec (defaultedVolumes (ig w)))
    with (set_Volumes (map defaultVolume (Volumes spec)) spec) in H.
  cbn [MaxPrice AssociatePublicIP set_Volumes] in H.
  assert (Hlc : w' = w5 /\ core lc =
    (Some volumeType, iops, fi.StringValue (MaxPrice spec), bdms,
     let ty := ClusterSubnetSpec.Type_ subnet0 in
     if (ty =? SubnetTypePublic)%string || (ty =? SubnetTypeUtility)%string
     then match AssociatePublicIP spec with
          | Some v => Some v
          | None => Some true
          end
     else if (ty =? SubnetTypePrivate)%string then Some false else None)).
  { cbv zeta.
    assert (Hprice : forall p, (if negb (p =? "")%string then p else ""%string) = p).
    { intros p. destruct (String.eqb_spec p ""); simpl; congruence. }
    rewrite <- (Hprice (fi.StringValue (MaxPrice spec))).
    repeat match type of H with
           | context [if ?c then _ else _] => destruct c
           | context [match ?c with Some _ => _ | None => _ end] => destruct c
           end;
      apply ret_Ok in H as [-> ->]; (split; [reflexivity |]);
      use_core F4; reflexivity. }
  destruct Hlc as [-> Hlc]. split; [assumption |].
  exists subnet0, rest. rewrite Hud. split; assumption.
Qed.

(** ** The launch template *)

#[local] Abbreviation coreLT t :=
  (LaunchTemplate.RootVolumeType t,
   LaunchTemplate.RootVolumeIops t,
   LaunchTemplate.RootVolumeThroughput t,
   LaunchTemplate.SpotPrice t,
   LaunchTemplate.BlockDeviceMappings t,
   LaunchTemplate.AssociatePublicIP t,
   LaunchTemplate.RootVolumeKmsKey t).

(** What a successful [buildLaunchTemplateTask] leaves behind. *)
Lemma buildLaunchTemplateTask_Ok name (w w' : World) lt :
  buildLaunchTemplateTask b name w = (Ok lt, w') ->
  let spec := Spec (ig w) in
  let raw := fi.StringValue (RootVolumeType spec) in
  let volumeType := if (raw =? "")%string then DefaultVolumeType else raw in
  ig w' = defaultedVolumes (ig w) /\
  exists subnet0 rest,
    GatherSubnets b (ig w') = Ok (subnet0 :: rest) /\
    coreLT lt =
      (Some volumeType,
       (if (volumeType =? ec2.VolumeTypeGp3)%string
        then Some (if fi.Int32Value (RootVolumeIops spec) <? 3000
                   then 3000 else fi.Int32Value (RootVolumeIops spec))
        else if (volumeType =? ec2.VolumeTypeIo1)%string
                || (volumeType =? ec2.VolumeTypeIo2)%string
        then Some (if fi.Int32Value (RootVolumeIops spec) <? 100
                   then 100 else fi.Int32Value (RootVolumeIops spec))
        else None),
       (if (volumeType =? ec2.VolumeTypeGp3)%string
        then Some (if fi.Int32Value (RootVolumeThroughput spec) <? 125
                   then 125 else fi.Int32Value (RootVolumeThroughput spec))
        else None),
       match MixedInstancesPolicy spec with
       | None => Some (fi.StringValue (MaxPrice spec))
       | Some _ => Some ""%string
       end,
       map (fun x => blockDeviceMapping (defaultVolume x)) (Volumes spec),
       (let ty := ClusterSubnetSpec.Type_ subnet0 in
        if (ty =? SubnetTypePublic)%string || (ty =? SubnetTypeUtility)%string
        then match AssociatePublicIP spec with
             | Some v => Some v
             | None => Some true
             end
        else if (ty =? SubnetTypePrivate)%string then Some false else None),
       if fi.BoolValue (RootVolumeEncryption spec)
       then match RootVolumeEncryptionKey spec with
            | Some k => Some k
            | None => Some ""%string
            end
       else Some ""%string).
Proof.
  intros H spec raw volumeType.
  unfold buildLaunchTemplateTask in H.
  apply bind_Ok in H as (lc & w1 & Hlc & H).
  apply buildLaunchConfigurationTask_Ok in Hlc as (Hw1 & subnet0 & rest & Hsub & F).
  fold spec raw volumeType in F.
  apply bind_Ok in H as (g & w2 & Hg & H). injection Hg as <- <-.
  apply bind_Ok in H as (tags & w2 & Htags & H).
  apply lift_Ok in Htags as [Htags ->].
  cbv beta zeta in H. apply ret_Ok in H as [-> ->].
  split; [assumption |]. exists subnet0, rest. split; [assumption |].
  rewrite Hw1.
  change (Spec (defaultedVolumes (ig w)))
    with (set_Volumes (map defaultVolume (Volumes spec)) spec).
  cbn [MixedInstancesPolicy SpotDurationInMinutes InstanceInterruptionBehavior
       RootVolumeEncryption RootVolumeEncryptionKey RootVolumeIops
       RootVolumeThroughput set_Volumes].
  injection F as F1 F2 F3 F4 F5.
  destruct (MixedInstancesPolicy spec), (SpotDurationInMinutes spec),
    (InstanceInterruptionBehavior spec),
    (fi.BoolValue (RootVolumeEncryption spec)),
    (RootVolumeEncryptionKey spec);
    cbn; rewrite F1; cbn.
  all: destruct (volumeType =? ec2.VolumeTypeGp3)%string;
    [destruct (fi.Int32Value (RootVolumeIops spec) <? 3000),
              (fi.Int32Value (RootVolumeThroughput spec) <? 125) |];
    cbn; rewrite ?F2, ?F3, ?F4, ?F5; reflexivity.
Qed.

(** ** What a build leaves of the instance group, also when it fails *)

Lemma bind_snd {E S A C} (P : S -> Prop) (m : M E S A) (f : A -> M E S C) s :
  P (snd (m s)) ->
  (forall a s1, m s = (Ok a, s1) -> P (snd (f a s1))) ->
  P (snd (bind m f s)).
Proof.
  unfold bind. intros Hm Hf.
  destruct (m s) as [[a | e | msg] s1]; simpl in *; auto.
Qed.

Lemma buildLaunchConfigurationTask_ig name (w : World) :
  let g' := ig (snd (buildLaunchConfigurationTask b name w)) in
  g' = ig w \/ g' = defaultedVolumes (ig w).
Proof.
  unfold buildLaunchConfigurationTask.
  apply bind_snd; [now left |]. intros g w1 Hg. injection Hg as <- <-.
  apply bind_snd; [now left |]. intros volumeSize w1 Hvs.
  apply lift_Ok in Hvs as [_ ->]. cbv beta zeta.
  apply bind_snd; [now left |]. intros link w1 Hlink.
  apply lift_Ok in Hlink as [_ ->].
  match goal with
  | |- context [nlbSecurityGroups b _ ?t] => generalize t; intros t0
  end.
  assert (Hnlb : forall r w1,
    (if (Role (Spec (ig w)) =? InstanceGroupRoleMaster)%string
        && (APILoadBalancerClass b =? LoadBalancerClassNetwork)%string
     then
       match Cluster_Spec_API b with
       | Some api =>
           match AccessSpec.LoadBalancer api with
           | Some lb =>
               nlbSecurityGroups b
                 (LoadBalancerAccessSpec.AdditionalSecurityGroups lb) t0
           | None => panic "nil pointer dereference"
           end
       | None => panic "nil pointer dereference"
       end
     else ret t0) w = (r, w1) -> ig w1 = ig w).
  { intros r w1. destruct (_ && _).
    - destruct (Cluster_Spec_API b) as [api|];
        [| intros H; now injection H as _ <-].
      destruct (AccessSpec.LoadBalancer api) as [lb|];
        [| intros H; now injection H as _ <-].
      apply nlbSecurityGroups_run.
    - intros H; now injection H as _ <-. }
  apply bind_snd.
  { left. match goal with |- ig (snd ?x) = _ => destruct x as [r w1] eqn:E end.
    now apply Hnlb in E. }
  intros t1 w1 Ht1. apply Hnlb in Ht1. clear Hnlb.
  match goal with
  | |- context [additionalSecurityGroups b _ ?t] => generalize t; intros t1'
  end.
  apply bind_snd.
  { left. rewrite additionalSecurityGroups_ig. assumption. }
  intros t2 w2 Ht2. apply additionalSecurityGroups_run in Ht2.
  rewrite Ht1 in Ht2. clear Ht1 w1.
  assert (Hloop : forall t,
    additionalBlockDevices (List.length (Volumes (Spec (ig w)))) 0 t w2 =
      (Ok (LaunchConfiguration.set_BlockDeviceMappings
             (LaunchConfiguration.BlockDeviceMappings t
                ++ map (fun x => blockDeviceMapping (defaultVolume x))
                       (Volumes (Spec (ig w)))) t),
       {| reg := reg w2; ig := defaultedVolumes (ig w) |})).
  { intros t. rewrite additionalBlockDevices_run by (simpl; now rewrite Ht2).
    now rewrite Ht2. }
  apply bind_snd; [rewrite Hloop; now right |].
  intros t3 w3 Ht3. rewrite Hloop in Ht3. injection Ht3 as _ <-. clear Hloop.
  apply bind_snd.
  { right. destruct (UseSSHKey b); [| reflexivity].
    apply bind_snd; [reflexivity |]. intros key w4 Hkey.
    apply lift_Ok in Hkey as [_ ->]. reflexivity. }
  intros t4 w4 Ht4.
  assert (Hw4 : ig w4 = defaultedVolumes (ig w)).
  { destruct (UseSSHKey b).
    - apply bind_Ok in Ht4 as (key & w5 & Hkey & Ht4).
      apply lift_Ok in Hkey as [_ ->]. now apply ret_Ok in Ht4 as [_ ->].
    - now apply ret_Ok in Ht4 as [_ ->]. }
  clear Ht4.
  apply bind_snd; [now right |]. intros g w5 Hg. injection Hg as <- <-.
  apply bind_snd; [right; now rewrite onRegistry_ig |].
  intros userData w5 Hud. apply onRegistry_Ok in Hud. rewrite Hw4 in Hud.
  apply bind_snd; [now right |]. intros subnets w6 Hsub.
  apply lift_Ok in Hsub as [_ ->].
  right. destruct subnets as [|subnet0 rest]; [assumption |].
  repeat match goal with
         | |- context [if ?c then _ else _] => destruct c
         end; assumption.
Qed.

Lemma buildLaunchTemplateTask_ig name (w : World) :
  let g' := ig (snd (buildLaunchTemplateTask b name w)) in
  g' = ig w \/ g' = defaultedVolumes (ig w).
Proof.
  unfold buildLaunchTemplateTask.
  apply bind_snd; [apply buildLaunchConfigurationTask_ig |].
  intros lc w1 Hlc. apply buildLaunchConfigurationTask_Ok in Hlc as [Hw1 _].
  apply bind_snd; [now right |]. intros g w2 Hg. injection Hg as <- <-.
  apply bind_snd; [now right |]. intros tags w2 Htags.
  apply lift_Ok in Htags as [_ ->]. now right.
Qed.

Lemma buildLaunchTask_ig name (w : World) :
  let g' := ig (snd (buildLaunchTask b name w)) in
  g' = ig w \/ g' = defaultedVolumes (ig w).
Proof.
  unfold buildLaunchTask.
  apply bind_snd; [now left |]. intros g w1 Hg. injection Hg as <- <-.
  destruct (UseLaunchTemplate b (ig w)).
  - apply bind_snd; [apply buildLaunchTemplateTask_ig |].
    intros lt w1 Hlt. apply buildLaunchTemplateTask_Ok in Hlt as [Hw1 _].
    now right.
  - apply bind_snd; [apply buildLaunchConfigurationTask_ig |].
    intros lc w1 Hlc. apply buildLaunchConfigurationTask_Ok in Hlc as [Hw1 _].
    now right.
Qed.

(** ** The autoscaling group *)

#[local] Abbreviation sizes t :=
  (AutoscalingGroup.MinSize t, AutoscalingGroup.MaxSize t).

(** The load balancers that the loop over the external references attaches. *)
#[local] Abbreviation externalCLBs extLBs :=
  (flat_map
     (fun extLB =>
        match LoadBalancer.LoadBalancerName extLB with
        | Some _ =>
            [ {| ClassicLoadBalancer.Name := LoadBalancer.LoadBalancerName extLB;
                 ClassicLoadBalancer.LoadBalancerName :=
                   LoadBalancer.LoadBalancerName extLB;
                 ClassicLoadBalancer.Shared := fi.Bool true |} ]
        | None => []
        end) extLBs).

Lemma externalLoadBalancers_ig name extLBs : forall t (w : World),
  ig (snd (externalLoadBalancers b name extLBs t w)) = ig w.
Proof.
  induction extLBs as [|e extLBs IH]; intros t w; simpl; [reflexivity |].
  apply (bind_snd (fun w1 => ig w1 = ig w)).
  { destruct (LoadBalancer.LoadBalancerName e); [| reflexivity].
    apply (bind_snd (fun w1 => ig w1 = ig w)); [apply onRegistry_ig |].
    intros ? w1 H1. apply onRegistry_Ok in H1. assumption. }
  intros t1 w1 H1.
  assert (Hw1 : ig w1 = ig w).
  { destruct (LoadBalancer.LoadBalancerName e).
    - apply bind_Ok in H1 as (? & w2 & H2 & H1).
      apply onRegistry_Ok in H2. now apply ret_Ok in H1 as [_ ->].
    - now apply ret_Ok in H1 as [_ ->]. }
  clear H1.
  apply (bind_snd (fun w2 => ig w2 = ig w)).
  { destruct (LoadBalancer.TargetGroupARN e); [| assumption].
    apply (bind_snd (fun w2 => ig w2 = ig w)); [assumption |].
    intros n w2 Hn. apply lift_Ok in Hn as [_ ->].
    apply (bind_snd (fun w2 => ig w2 = ig w));
      [now rewrite onRegistry_ig |].
    intros ? w2 H2. apply onRegistry_Ok in H2. simpl. congruence. }
  intros t2 w2 H2.
  assert (Hw2 : ig w2 = ig w).
  { destruct (LoadBalancer.TargetGroupARN e).
    - apply bind_Ok in H2 as (n & w3 & Hn & H2).
      apply lift_Ok in Hn as [_ ->].
      apply bind_Ok in H2 as (? & w3 & H3 & H2).
      apply onRegistry_Ok in H3. apply ret_Ok in H2 as [_ ->]. congruence.
    - apply ret_Ok in H2 as [_ ->]. assumption. }
  rewrite IH. assumption.
Qed.

Lemma externalLoadBalancers_Ok name extLBs : forall t (w w' : World) t',
  externalLoadBalancers b name extLBs t w = (Ok t', w') ->
  sizes t' = sizes t /\
  AutoscalingGroup.LoadBalancers t' =
    (AutoscalingGroup.LoadBalancers t ++ externalCLBs extLBs)%list /\
  exists tgs,
    AutoscalingGroup.TargetGroups t' =
      (AutoscalingGroup.TargetGroups t ++ tgs)%list.
Proof.
  induction extLBs as [|e extLBs IH]; intros t w w' t' H; simpl in H.
  - apply ret_Ok in H as [-> _]. simpl. rewrite app_nil_r.
    repeat split. exists []. now rewrite app_nil_r.
  - apply bind_Ok in H as (t1 & w1 & H1 & H).
    apply bind_Ok in H as (t2 & w2 & H2 & H).
    apply IH in H as (Hs & Hlb & tgs & Htg).
    assert (E1 : t1 = AutoscalingGroup.set_LoadBalancers
                        (AutoscalingGroup.LoadBalancers t ++ externalCLBs [e]) t).
    { simpl. destruct (LoadBalancer.LoadBalancerName e).
      - apply bind_Ok in H1 as (? & w3 & _ & H1).
        now apply ret_Ok in H1 as [-> _].
      - apply ret_Ok in H1 as [-> _]. simpl. rewrite app_nil_r. now destruct t. }
    assert (E2 : exists tg1, t2 = AutoscalingGroup.set_TargetGroups
                        (AutoscalingGroup.TargetGroups t1 ++ tg1) t1).
    { destruct (LoadBalancer.TargetGroupARN e).
      - apply bind_Ok in H2 as (n & w3 & _ & H2).
        apply bind_Ok in H2 as (? & w4 & _ & H2).
        apply ret_Ok in H2 as [-> _]. eexists. reflexivity.
      - apply ret_Ok in H2 as [-> _]. exists []. rewrite app_nil_r.
        now destruct t1. }
    destruct E2 as (tg1 & E2). subst t2 t1. simpl in *.
    rewrite Hs, Hlb. repeat split.
    + rewrite <- app_assoc, app_nil_r. reflexivity.
    + exists (tg1 ++ tgs)%list. rewrite Htg, app_assoc. reflexivity.
Qed.

Lemma managedLoadBalancers_run g t (w w1 : World) r :
  managedLoadBalancers b g t w = (r, w1) ->
  w1 = w /\ forall t1, r = Ok t1 -> sizes t1 = sizes t.
Proof.
  unfold managedLoadBalancers, bind, ret, panic.
  repeat match goal with
         | |- context [if ?c then _ else _] => destruct c
         | |- context [match ?c with Some _ => _ | None => _ end] => destruct c
         end; intros H; injection H as <- <-;
    (split; [reflexivity | intros t' Ht'; try discriminate;
                            now injection Ht' as <-]).
Qed.

Lemma buildAutoScalingGroupTask_ig name (w : World) :
  ig (snd (buildAutoScalingGroupTask b name w)) = ig w.
Proof.
  unfold buildAutoScalingGroupTask.
  apply (bind_snd (fun w1 => ig w1 = ig w)); [reflexivity |].
  intros g w1 Hg. injection Hg as <- <-. cbv beta zeta.
  apply (bind_snd (fun w1 => ig w1 = ig w)); [reflexivity |].
  intros subnets w1 Hsub. apply lift_Ok in Hsub as [_ ->].
  destruct subnets as [|s0 rest]; [reflexivity |].
  apply (bind_snd (fun w1 => ig w1 = ig w)); [reflexivity |].
  intros tags w1 Htags. apply lift_Ok in Htags as [_ ->].
  apply (bind_snd (fun w1 => ig w1 = ig w)).
  { match goal with |- ig (snd ?x) = _ => destruct x as [r w1] eqn:E end.
    apply managedLoadBalancers_run in E as [-> _]. reflexivity. }
  intros t1 w1 Ht1. apply managedLoadBalancers_run in Ht1 as [-> _].
  apply (bind_snd (fun w1 => ig w1 = ig w));
    [apply externalLoadBalancers_ig |].
  intros t2 w2 Ht2.
  rewrite <- (externalLoadBalancers_ig name
                (ExternalLoadBalancers (Spec (ig w))) t1 w), Ht2.
  reflexivity.
Qed.

(** What a successful [buildAutoScalingGroupTask] returns: the capacity
    bounds, and the two lists of attachments as [sort.Stable] leaves them. *)
Lemma buildAutoScalingGroupTask_Ok name (w w' : World) t :
  buildAutoScalingGroupTask b name w = (Ok t, w') ->
  let spec := Spec (ig w) in
  let fallback := if (Role spec =? InstanceGroupRoleNode)%string then 2 else 1 in
  sizes t =
    (Some match MinSize spec with Some n => n | None => fallback end,
     Some match MaxSize spec with Some n => n | None => fallback end) /\
  exists managed tgs,
    AutoscalingGroup.LoadBalancers t =
      sort.Stable OrderLoadBalancersByName_Less
        (managed ++ externalCLBs (ExternalLoadBalancers spec)) /\
    AutoscalingGroup.TargetGroups t =
      sort.Stable OrderTargetGroupsByName_Less tgs.
Proof.
  intros H spec fallback. unfold buildAutoScalingGroupTask in H.
  apply bind_Ok in H as (g & w1 & Hg & H). injection Hg as <- <-.
  cbv beta zeta in H.
  apply bind_Ok in H as (subnets & w1 & Hsub & H).
  apply lift_Ok in Hsub as [_ ->].
  destruct subnets as [|s0 rest]; [discriminate |].
  apply bind_Ok in H as (tags & w1 & Htags & H).
  apply lift_Ok in Htags as [_ ->].
  apply bind_Ok in H as (t1 & w1 & Ht1 & H).
  fold spec in Ht1, H.
  apply managedLoadBalancers_run in Ht1 as [-> F1].
  specialize (F1 t1 eq_refl).
  assert (F0 : sizes t1 =
    (Some match MinSize spec with Some n => n | None => fallback end,
     Some match MaxSize spec with Some n => n | None => fallback end)).
  { rewrite F1. subst fallback. cbn.
    destruct (MinSize spec), (MaxSize spec),
      (Role spec =? InstanceGroupRoleNode)%string; reflexivity. }
  clear F1.
  apply bind_Ok in H as (t2 & w2 & Ht2 & H).
  apply externalLoadBalancers_Ok in Ht2 as (F2 & Hlb & tgs & Htg).
  rewrite F0 in F2. apply ret_Ok in H as [-> _].
  split.
  - destruct (MixedInstancesPolicy spec); cbn; exact F2.
  - exists (AutoscalingGroup.LoadBalancers t1),
           (AutoscalingGroup.TargetGroups t1 ++ tgs)%list.
    rewrite <- Hlb, <- Htg.
    destruct (MixedInstancesPolicy spec); split; reflexivity.
Qed.

(** ** The launch resource of either shape *)

Lemma buildLaunchTask_Ok name (w w' : World) task :
  buildLaunchTask b name w = (Ok task, w') ->
  (exists lc, task = TaskLaunchConfiguration lc /\
              buildLaunchConfigurationTask b name w = (Ok lc, w')) \/
  (exists lt, task = TaskLaunchTemplate lt /\
              buildLaunchTemplateTask b name w = (Ok lt, w')).
Proof.
  unfold buildLaunchTask. intros H.
  apply bind_Ok in H as (g & w1 & Hg & H). injection Hg as <- <-.
  destruct (UseLaunchTemplate b (ig w)).
  - apply bind_Ok in H as (lt & w1 & Hlt & H).
    apply ret_Ok in H as [-> ->]. right. eauto.
  - apply bind_Ok in H as (lc & w1 & Hlc & H).
    apply ret_Ok in H as [-> ->]. left. eauto.
Qed.

Lemma buildInstanceGroup_ig (w : World) :
  let g' := ig (snd (buildInstanceGroup b w)) in
  g' = ig w \/ g' = defaultedVolumes (ig w).
Proof.
  unfold buildInstanceGroup. set (P := fun w1 : World =>
    ig w1 = ig w \/ ig w1 = defaultedVolumes (ig w)).
  apply (bind_snd P); [now left |]. intros g w1 Hg. injection Hg as <- <-.
  cbv zeta. destruct (_ && _); [now left |].
  apply (bind_snd P); [apply buildLaunchTask_ig |].
  intros task w1 Htask.
  assert (H1 : P w1).
  { pose proof (buildLaunchTask_ig (AutoscalingGroupName b (ig w)) w) as H.
    now rewrite Htask in H. }
  clear Htask.
  assert (Hkeep : forall w2 : World, ig w2 = ig w1 -> P w2).
  { intros w2 E. unfold P in *. now rewrite E. }
  apply Hkeep. clear Hkeep H1 P.
  apply (bind_snd (fun w2 => ig w2 = ig w1)); [apply onRegistry_ig |].
  intros ? w2 H2. apply onRegistry_Ok in H2.
  apply (bind_snd (fun w3 => ig w3 = ig w1));
    [now rewrite buildAutoScalingGroupTask_ig |].
  intros tsk w3 H3.
  assert (E3 : ig w3 = ig w1).
  { rewrite <- H2, <- (buildAutoScalingGroupTask_ig
                         (AutoscalingGroupName b (ig w)) w2), H3.
    reflexivity. }
  clear H2 H3.
  apply (bind_snd (fun w4 => ig w4 = ig w1)); [assumption |].
  intros g w4 Hg. injection Hg as <- <-.
  apply (bind_snd (fun w4 => ig w4 = ig w1)).
  { destruct (UseLaunchTemplate b (ig w3)), task; assumption. }
  intros tsk' w4 H4.
  assert (E4 : ig w4 = ig w1).
  { destruct (UseLaunchTemplate b (ig w3)), task; try discriminate;
      now apply ret_Ok in H4 as [_ ->]. }
  now rewrite onRegistry_ig.
Qed.

(** The instance groups after [Build], one by one: as they were, or with
    their volumes defaulted. *)
Lemma buildInstanceGroups_igs igs : forall c,
  Forall2 (fun g g' => g' = g \/ g' = defaultedVolumes g)
          igs (snd (snd (buildInstanceGroups b igs c))).
Proof.
  induction igs as [|g igs IH]; intros c; simpl; [constructor |].
  pose proof (buildInstanceGroup_ig {| reg := c; ig := g |}) as Hg.
  simpl in Hg.
  assert (Hsame : Forall2 (fun g g' : InstanceGroup =>
                             g' = g \/ g' = defaultedVolumes g) igs igs).
  { clear. induction igs; constructor; auto. }
  destruct (buildInstanceGroup b {| reg := c; ig := g |})
    as [[[] | e | msg] w1]; simpl in *.
  - specialize (IH (reg w1)).
    destruct (buildInstanceGroups b igs (reg w1)) as [r [c' igs']]. simpl in *.
    constructor; assumption.
  - constructor; assumption.
  - constructor; assumption.
Qed.

(** Defaulting the volumes touches nothing but the type, the iops and the
    throughput of a volume, and doing it again changes nothing. *)
Lemma defaultVolume_frame (x : VolumeSpec.t) :
  let x' := defaultVolume x in
  VolumeSpec.Device x' = VolumeSpec.Device x /\
  VolumeSpec.Encrypted x' = VolumeSpec.Encrypted x /\
  VolumeSpec.Key x' = VolumeSpec.Key x /\
  VolumeSpec.Size x' = VolumeSpec.Size x /\
  VolumeSpec.DeleteOnTermination x' = VolumeSpec.DeleteOnTermination x.
Proof.
  unfold defaultVolume.
  repeat match goal with
         | |- context [if ?c then _ else _] => destruct c
         | |- context [match ?c with Some _ => _ | None => _ end] =>
             destruct c eqn:?
         end; repeat split.
Qed.

Lemma defaultVolume_other (x : VolumeSpec.t) :
  VolumeSpec.Type_ x <> ""%string ->
  VolumeSpec.Type_ x <> ec2.VolumeTypeIo1 ->
  VolumeSpec.Type_ x <> ec2.VolumeTypeIo2 ->
  VolumeSpec.Type_ x <> ec2.VolumeTypeGp3 ->
  defaultVolume x = VolumeSpec.set_Iops None x.
Proof.
  intros H0 H1 H2 H3. unfold defaultVolume.
  destruct (String.eqb_spec (VolumeSpec.Type_ x) ""); [contradiction |].
  cbv beta iota zeta.
  destruct (String.eqb_spec (VolumeSpec.Type_ x) ec2.VolumeTypeIo1);
    [contradiction |].
  destruct (String.eqb_spec (VolumeSpec.Type_ x) ec2.VolumeTypeIo2);
    [contradiction |].
  destruct (String.eqb_spec (VolumeSpec.Type_ x) ec2.VolumeTypeGp3);
    [contradiction |].
  reflexivity.
Qed.

Lemma defaultVolume_idempotent (x : VolumeSpec.t) :
  defaultVolume (defaultVolume x) = defaultVolume x.
Proof.
  destruct (String.eqb_spec (VolumeSpec.Type_ x) "") as [E0 | E0].
  { destruct x; simpl in E0; subst; reflexivity. }
  destruct (String.eqb_spec (VolumeSpec.Type_ x) ec2.VolumeTypeIo1) as [E1 | E1].
  { destruct x as [? ? [?|] ? ? ? ? ?]; simpl in E1; subst; reflexivity. }
  destruct (String.eqb_spec (VolumeSpec.Type_ x) ec2.VolumeTypeIo2) as [E2 | E2].
  { destruct x as [? ? [?|] ? ? ? ? ?]; simpl in E2; subst; reflexivity. }
  destruct (String.eqb_spec (VolumeSpec.Type_ x) ec2.VolumeTypeGp3) as [E3 | E3].
  { destruct x as [? ? [?|] [?|] ? ? ? ?]; simpl in E3; subst; reflexivity. }
  rewrite (defaultVolume_other x) by assumption.
  rewrite defaultVolume_other by (destruct x; assumption).
  now destruct x.
Qed.

Lemma defaultedVolumes_idempotent (g : InstanceGroup) :
  defaultedVolumes (defaultedVolumes g) = defaultedVolumes g.
Proof.
  unfold defaultedVolumes, set_Spec, set_Volumes. cbn. rewrite map_map.
  do 2 f_equal. apply map_ext. intros x. apply defaultVolume_idempotent.
Qed.

(** ** The claims *)

(** C1 (as amended).  Building the launch resource of an instance group,
    building its autoscaling group, or running the whole of [Build] never
    writes a field of an instance group other than its list of additional
    volumes: whether the call succeeds, fails or panics, the group is left
    as it was or with every volume defaulted in place.  Defaulting a volume
    writes its type, iops and throughput and no other field, and a second
    defaulting changes nothing more.  Building the autoscaling group writes
    nothing at all. *)
Theorem build_writes_only_volume_defaults name (w : World) c :
  (let g' := ig (snd (buildLaunchTask b name w)) in
   g' = ig w \/ g' = defaultedVolumes (ig w)) /\
  ig (snd (buildAutoScalingGroupTask b name w)) = ig w /\
  Forall2 (fun g g' => g' = g \/ g' = defaultedVolumes g)
          (InstanceGroups b) (snd (snd (Build b c))) /\
  (let g := ig w in
   ObjectMeta_Name (defaultedVolumes g) = ObjectMeta_Name g /\
   set_Volumes (Volumes (Spec g)) (Spec (defaultedVolumes g)) = Spec g /\
   Volumes (Spec (defaultedVolumes g)) = map defaultVolume (Volumes (Spec g)) /\
   defaultedVolumes (defaultedVolumes g) = defaultedVolumes g) /\
  (forall x : VolumeSpec.t,
     let x' := defaultVolume x in
     VolumeSpec.Device x' = VolumeSpec.Device x /\
     VolumeSpec.Encrypted x' = VolumeSpec.Encrypted x /\
     VolumeSpec.Key x' = VolumeSpec.Key x /\
     VolumeSpec.Size x' = VolumeSpec.Size x /\
     VolumeSpec.DeleteOnTermination x' = VolumeSpec.DeleteOnTermination x).
Proof.
  split; [apply buildLaunchTask_ig |].
  split; [apply buildAutoScalingGroupTask_ig |].
  split; [apply buildInstanceGroups_igs |].
  split; [| exact defaultVolume_frame].
  cbv zeta. repeat split.
  - destruct (ig w) as [nm sp]. now destruct sp.
  - apply defaultedVolumes_idempotent.
Qed.


(** C4 (as amended).  The block-device mappings of the launch resource are
    the additional volumes of the specification, one by one and in order.
    An empty type is gp2.  For io1 and io2 an unset iops becomes 100; for gp3
    an unset iops becomes 3000 and an unset throughput 125; an iops or a
    throughput that is set is kept as it is, whatever its value.  For every
    other type the iops is absent. *)
Theorem additional_volume_defaults name (w w' : World) task
    (Hbuild : buildLaunchTask b name w = (Ok task, w')) :
  Forall2
    (fun x m =>
       let ty := if (VolumeSpec.Type_ x =? "")%string
                 then ec2.VolumeTypeGp2 else VolumeSpec.Type_ x in
       BlockDeviceMapping.EbsVolumeType m = Some ty /\
       (ty = ec2.VolumeTypeIo1 \/ ty = ec2.VolumeTypeIo2 ->
        BlockDeviceMapping.EbsVolumeIops m =
          Some match VolumeSpec.Iops x with Some n => n | None => 100 end) /\
       (ty = ec2.VolumeTypeGp3 ->
        BlockDeviceMapping.EbsVolumeIops m =
          Some match VolumeSpec.Iops x with Some n => n | None => 3000 end /\
        BlockDeviceMapping.EbsVolumeThroughput m =
          Some match VolumeSpec.Throughput x with Some n => n | None => 125 end) /\
       (ty <> ec2.VolumeTypeIo1 -> ty <> ec2.VolumeTypeIo2 ->
        ty <> ec2.VolumeTypeGp3 ->
        BlockDeviceMapping.EbsVolumeIops m = None))
    (Volumes (Spec (ig w))) (launchBlockDeviceMappings task).
Proof.
  assert (Hmap : launchBlockDeviceMappings task =
                 map (fun x => blockDeviceMapping (defaultVolume x))
                     (Volumes (Spec (ig w)))).
  { apply buildLaunchTask_Ok in Hbuild as [(lc & -> & H) | (lt & -> & H)].
    - apply buildLaunchConfigurationTask_Ok in H as (_ & s0 & rest & _ & F).
      injection F as _ _ _ Hb _. exact Hb.
    - apply buildLaunchTemplateTask_Ok in H as (_ & s0 & rest & _ & F).
      injection F as _ _ _ _ Hb _ _. exact Hb. }
  rewrite Hmap. clear. induction (Volumes (Spec (ig w))) as [|x l IH];
    simpl; constructor; [| exact IH].
  clear. destruct x as [dev enc iops thr key size ty dot].
  unfold defaultVolume, blockDeviceMapping. cbn -[String.eqb].
  destruct (String.eqb_spec ty "") as [-> | E0]; cbn -[String.eqb].
  { repeat split; try discriminate. now intros [? | ?]. }
  destruct (String.eqb_spec ty ec2.VolumeTypeIo1) as [-> | E1];
    cbn -[String.eqb].
  { destruct iops; repeat split; try discriminate; congruence. }
  destruct (String.eqb_spec ty ec2.VolumeTypeIo2) as [-> | E2];
    cbn -[String.eqb].
  { destruct iops; repeat split; try discriminate; congruence. }
  destruct (String.eqb_spec ty ec2.VolumeTypeGp3) as [-> | E3];
    cbn -[String.eqb].
  { destruct iops, thr; repeat split; try discriminate; try congruence;
      now intros [? | ?]. }
  repeat split; try congruence. now intros [? | ?].
Qed.

(** C5.  The spot price of a launch template is the empty string when the
    specification has a mixed-instances policy, whatever its maximum price;
    it is the maximum price of the specification when there is no such
    policy and the maximum price is not empty. *)
Theorem template_spot_price name (w w' : World) lt
    (Hbuild : buildLaunchTemplateTask b name w = (Ok lt, w')) :
  let spec := Spec (ig w) in
  (MixedInstancesPolicy spec <> None ->
   LaunchTemplate.SpotPrice lt = Some ""%string) /\
  (MixedInstancesPolicy spec = None ->
   forall price, MaxPrice spec = Some price -> price <> ""%string ->
   LaunchTemplate.SpotPrice lt = Some price).
Proof.
  apply buildLaunchTemplateTask_Ok in Hbuild as (_ & s0 & rest & _ & F).
  injection F as _ _ _ Hprice _ _ _. cbv zeta. rewrite Hprice. split.
  - destruct (MixedInstancesPolicy (Spec (ig w))); [reflexivity | congruence].
  - intros -> price -> _. reflexivity.
Qed.

(** C6.  When the first gathered subnet is public or utility, the launch
    resource associates a public IP unless the specification says otherwise:
    the value of the specification when it has one, true when it has none.
    When the first gathered subnet is private it does not associate one,
    whatever the specification says. *)
Theorem associate_public_ip name (w w' : World) task subnet0 rest
    (Hbuild : buildLaunchTask b name w = (Ok task, w'))
    (Hsubnets : GatherSubnets b (ig w') = Ok (subnet0 :: rest)) :
  let ty := ClusterSubnetSpec.Type_ subnet0 in
  (ty = SubnetTypePublic \/ ty = SubnetTypeUtility ->
   launchAssociatePublicIP task =
     match AssociatePublicIP (Spec (ig w)) with
     | Some v => Some v
     | None => Some true
     end) /\
  (ty = SubnetTypePrivate -> launchAssociatePublicIP task = Some false).
Proof.
  assert (H : launchAssociatePublicIP task =
    let ty := ClusterSubnetSpec.Type_ subnet0 in
    if (ty =? SubnetTypePublic)%string || (ty =? SubnetTypeUtility)%string
    then match AssociatePublicIP (Spec (ig w)) with
         | Some v => Some v
         | None => Some true
         end
    else if (ty =? SubnetTypePrivate)%string then Some false else None).
  { apply buildLaunchTask_Ok in Hbuild as [(lc & -> & H) | (lt & -> & H)].
    - apply buildLaunchConfigurationTask_Ok in H as (_ & s0 & r0 & Hs & F).
      rewrite Hsubnets in Hs. injection Hs as <- <-.
      injection F as _ _ _ _ Ha. exact Ha.
    - apply buildLaunchTemplateTask_Ok in H as (_ & s0 & r0 & Hs & F).
      rewrite Hsubnets in Hs. injection Hs as <- <-.
      injection F as _ _ _ _ _ Ha _. exact Ha. }
  cbv zeta in *. rewrite H. split.
  - intros [-> | ->]; reflexivity.
  - intros ->. reflexivity.
Qed.

(** C7.  The root volume type of the launch resource is the one of the
    specification, gp2 when that is unset or empty.  When it is io1 or io2
    the root iops is 100 if the requested iops is unset or below 100, and the
    requested value otherwise.  When it is none of io1, io2 and gp3 the root
    iops is absent, whatever was requested. *)
Theorem root_volume_iops name (w w' : World) task
    (Hbuild : buildLaunchTask b name w = (Ok task, w')) :
  let spec := Spec (ig w) in
  let ty := if (fi.StringValue (RootVolumeType spec) =? "")%string
            then ec2.VolumeTypeGp2 else fi.StringValue (RootVolumeType spec) in
  launchRootVolumeType task = Some ty /\
  (ty = ec2.VolumeTypeIo1 \/ ty = ec2.VolumeTypeIo2 ->
   launchRootVolumeIops task =
     Some match RootVolumeIops spec with
          | Some n => if n <? 100 then 100 else n
          | None => 100
          end) /\
  (ty <> ec2.VolumeTypeIo1 -> ty <> ec2.VolumeTypeIo2 ->
   ty <> ec2.VolumeTypeGp3 ->
   launchRootVolumeIops task = None).
Proof.
  intros spec ty.
  assert (H : launchRootVolumeType task = Some ty /\
    (ty <> ec2.VolumeTypeGp3 ->
     launchRootVolumeIops task =
       if (ty =? ec2.VolumeTypeIo1)%string || (ty =? ec2.VolumeTypeIo2)%string
       then Some (if fi.Int32Value (RootVolumeIops spec) <? 100
                  then 100 else fi.Int32Value (RootVolumeIops spec))
       else None)).
  { apply buildLaunchTask_Ok in Hbuild as [(lc & -> & H) | (lt & -> & H)].
    - apply buildLaunchConfigurationTask_Ok in H as (_ & s0 & r0 & _ & F).
      injection F as Hty Hiops _ _ _. split; [exact Hty | intros _; exact Hiops].
    - apply buildLaunchTemplateTask_Ok in H as (_ & s0 & r0 & _ & F).
      injection F as Hty Hiops _ _ _ _ _. split; [exact Hty |].
      intros Hgp3. cbn. rewrite Hiops.
      change (if (fi.StringValue (RootVolumeType (Spec (ig w))) =? "")%string
              then DefaultVolumeType
              else fi.StringValue (RootVolumeType (Spec (ig w)))) with ty.
      destruct (String.eqb_spec ty ec2.VolumeTypeGp3); [contradiction |].
      reflexivity. }
  destruct H as [Hty Hiops]. split; [exact Hty |]. split.
  - intros Hio. rewrite Hiops by (destruct Hio as [-> | ->]; discriminate).
    replace ((ty =? ec2.VolumeTypeIo1) || (ty =? ec2.VolumeTypeIo2))%string
      with true by (destruct Hio as [-> | ->]; reflexivity).
    destruct (RootVolumeIops spec); reflexivity.
  - intros H1 H2 H3. rewrite Hiops by assumption.
    destruct (String.eqb_spec ty ec2.VolumeTypeIo1); [contradiction |].
    destruct (String.eqb_spec ty ec2.VolumeTypeIo2); [contradiction |].
    reflexivity.
Qed.

(** C8.  The capacity bounds of the autoscaling group are, each on its own,
    the bound of the specification when it is set, and otherwise 2 for the
    role Node and 1 for every other role. *)
Theorem capacity_bounds name (w w' : World) t
    (Hbuild : buildAutoScalingGroupTask b name w = (Ok t, w')) :
  let spec := Spec (ig w) in
  let fallback := if (Role spec =? InstanceGroupRoleNode)%string then 2 else 1 in
  AutoscalingGroup.MinSize t =
    Some match MinSize spec with Some n => n | None => fallback end /\
  AutoscalingGroup.MaxSize t =
    Some match MaxSize spec with Some n => n | None => fallback end.
Proof.
  apply buildAutoScalingGroupTask_Ok in Hbuild as [F _].
  injection F as Hmin Hmax. split; assumption.
Qed.

(** C10.  The load balancers and the target groups of the autoscaling group
    are each in ascending order of their names, in whatever order the
    attachments were added; and sorting loses none: every load balancer that
    the specification refers to by name is in the list. *)
Theorem attachments_sorted_by_name name (w w' : World) t
    (Hbuild : buildAutoScalingGroupTask b name w = (Ok t, w')) :
  StronglySorted
    (fun x y => String.leb (fi.StringValue (ClassicLoadBalancer.Name x))
                           (fi.StringValue (ClassicLoadBalancer.Name y)) = true)
    (AutoscalingGroup.LoadBalancers t) /\
  StronglySorted
    (fun x y => String.leb (fi.StringValue (TargetGroup.Name x))
                           (fi.StringValue (TargetGroup.Name y)) = true)
    (AutoscalingGroup.TargetGroups t) /\
  (forall extLB lbName,
     In extLB (ExternalLoadBalancers (Spec (ig w))) ->
     LoadBalancer.LoadBalancerName extLB = Some lbName ->
     In {| ClassicLoadBalancer.Name := Some lbName;
           ClassicLoadBalancer.LoadBalancerName := Some lbName;
           ClassicLoadBalancer.Shared := Some true |}
        (AutoscalingGroup.LoadBalancers t)).
Proof.
  apply buildAutoScalingGroupTask_Ok in Hbuild
    as (_ & managed & tgs & Hlb & Htg).
  rewrite Hlb, Htg. split; [| split].
  - apply (sort_facts.Stable_sorted
             (fun x => fi.StringValue (ClassicLoadBalancer.Name x))).
  - apply (sort_facts.Stable_sorted
             (fun x => fi.StringValue (TargetGroup.Name x))).
  - intros extLB lbName Hin Hname.
    eapply Permutation_in.
    + symmetry. apply (sort_facts.Stable_sorted
               (fun x => fi.StringValue (ClassicLoadBalancer.Name x))).
    + apply in_or_app. right. apply in_flat_map. exists extLB.
      split; [exact Hin |]. rewrite Hname. now left.
Qed.

End Builder.

(** ** The claims on the sample cluster *)

(** C1 as first stated fails: a volume without a type and with a stray iops
    is rewritten in the instance group by the build of its launch
    configuration. *)
Lemma build_leaves_spec_unchanged_counterexample :
  let spec := set_Volumes [example.volume "" (Some 500) None] example.nodes in
  let w := example.start spec in
  let w' := snd (buildLaunchTask (example.builder SubnetTypePublic false)
                                 "nodes.example.com" w) in
  Volumes (Spec (ig w')) = [example.volume "gp2" None None] /\
  Spec (ig w') <> Spec (ig w).
Proof.
  split; [reflexivity | discriminate].
Qed.



Lemma additional_volume_defaults_witness :
  exists task w',
    buildLaunchTask (example.builder SubnetTypePublic false)
      "nodes.example.com"
      (example.start
         (set_Volumes [example.volume "io1" None None;
                       example.volume "gp3" (Some 5000) None;
                       example.volume "" (Some 500) None] example.nodes))
      = (Ok task, w') /\
    Forall2
      (fun x m =>
         BlockDeviceMapping.EbsVolumeType m =
           Some (if (VolumeSpec.Type_ x =? "")%string
                 then "gp2"%string else VolumeSpec.Type_ x))
      [example.volume "io1" None None;
       example.volume "gp3" (Some 5000) None;
       example.volume "" (Some 500) None]
      (launchBlockDeviceMappings task).
Proof.
  eexists _, _. split; [vm_compute; reflexivity |].
  eapply Forall2_impl;
    [| eapply (@additional_volume_defaults _
                 (example.builder SubnetTypePublic false) "nodes.example.com"
                 (example.start
                    (set_Volumes [example.volume "io1" None None;
                                  example.volume "gp3" (Some 5000) None;
                                  example.volume "" (Some 500) None]
                                 example.nodes)));
       vm_compute; reflexivity].
  intros x m H. exact (proj1 H).
Defined.

(** C4 as first stated fails: an io1 volume that asks for 50 iops keeps 50,
    it is not raised to 100. *)
Lemma additional_volume_floor_counterexample :
  exists task w',
    buildLaunchTask (example.builder SubnetTypePublic false)
      "nodes.example.com"
      (example.start
         (set_Volumes [example.volume "io1" (Some 50) None] example.nodes))
      = (Ok task, w') /\
    map BlockDeviceMapping.EbsVolumeIops (launchBlockDeviceMappings task)
      = [Some 50] /\
    map BlockDeviceMapping.EbsVolumeIops (launchBlockDeviceMappings task)
      <> [Some 100].
Proof.
  eexists _, _. split; [vm_compute; reflexivity |].
  split; [reflexivity | discriminate].
Qed.

Lemma template_spot_price_witness :
  (exists lt w',
     buildLaunchTemplateTask (example.builder SubnetTypePublic true)
       "nodes.example.com"
       (example.start
          (example.with_MixedInstancesPolicy (Some example.mixed)
             (example.with_MaxPrice (Some "0.5"%string) example.nodes)))
       = (Ok lt, w') /\
     LaunchTemplate.SpotPrice lt = Some ""%string) /\
  (exists lt w',
     buildLaunchTemplateTask (example.builder SubnetTypePublic true)
       "nodes.example.com"
       (example.start (example.with_MaxPrice (Some "0.5"%string) example.nodes))
       = (Ok lt, w') /\
     LaunchTemplate.SpotPrice lt = Some "0.5"%string).
Proof.
  split; eexists _, _; (split; [vm_compute; reflexivity |]).
  - eapply (proj1 (@template_spot_price _
              (example.builder SubnetTypePublic true) "nodes.example.com"
              (example.start
                 (example.with_MixedInstancesPolicy (Some example.mixed)
                    (example.with_MaxPrice (Some "0.5"%string) example.nodes)))
              _ _ ltac:(vm_compute; reflexivity))).
    discriminate.
  - eapply (proj2 (@template_spot_price _
              (example.builder SubnetTypePublic true) "nodes.example.com"
              (example.start
                 (example.with_MaxPrice (Some "0.5"%string) example.nodes))
              _ _ ltac:(vm_compute; reflexivity)));
      [reflexivity | reflexivity | discriminate].
Defined.

Lemma associate_public_ip_witness :
  (exists task w',
     buildLaunchTask (example.builder SubnetTypeUtility false)
       "nodes.example.com"
       (example.start (example.with_AssociatePublicIP (Some false) example.nodes))
       = (Ok task, w') /\
     launchAssociatePublicIP task = Some false) /\
  (exists task w',
     buildLaunchTask (example.builder SubnetTypePrivate true)
       "nodes.example.com"
       (example.start (example.with_AssociatePublicIP (Some true) example.nodes))
       = (Ok task, w') /\
     launchAssociatePublicIP task = Some false).
Proof.
  split; eexists _, _; (split; [vm_compute; reflexivity |]).
  - eapply (proj1 (@associate_public_ip _
              (example.builder SubnetTypeUtility false) "nodes.example.com"
              (example.start
                 (example.with_AssociatePublicIP (Some false) example.nodes))
              _ _ (example.subnet SubnetTypeUtility) []
              ltac:(vm_compute; reflexivity) eq_refl)).
    right. reflexivity.
  - eapply (proj2 (@associate_public_ip _
              (example.builder SubnetTypePrivate true) "nodes.example.com"
              (example.start
                 (example.with_AssociatePublicIP (Some true) example.nodes))
              _ _ (example.subnet SubnetTypePrivate) []
              ltac:(vm_compute; reflexivity) eq_refl)).
    reflexivity.
Defined.

Lemma root_volume_iops_witness :
  (exists task w',
     buildLaunchTask (example.builder SubnetTypePublic false)
       "nodes.example.com"
       (example.start
          (example.with_RootVolumeType (Some "io1"%string)
             (example.with_RootVolumeIops (Some 50) example.nodes)))
       = (Ok task, w') /\
     launchRootVolumeIops task = Some 100) /\
  (exists task w',
     buildLaunchTask (example.builder SubnetTypePublic true)
       "nodes.example.com"
       (example.start
          (example.with_RootVolumeType (Some "st1"%string)
             (example.with_RootVolumeIops (Some 500) example.nodes)))
       = (Ok task, w') /\
     launchRootVolumeIops task = None).
Proof.
  split; eexists _, _; (split; [vm_compute; reflexivity |]).
  - eapply (proj1 (proj2 (@root_volume_iops _
              (example.builder SubnetTypePublic false) "nodes.example.com"
              (example.start
                 (example.with_RootVolumeType (Some "io1"%string)
                    (example.with_RootVolumeIops (Some 50) example.nodes)))
              _ _ ltac:(vm_compute; reflexivity)))).
    left. reflexivity.
  - eapply (proj2 (proj2 (@root_volume_iops _
              (example.builder SubnetTypePublic true) "nodes.example.com"
              (example.start
                 (example.with_RootVolumeType (Some "st1"%string)
                    (example.with_RootVolumeIops (Some 500) example.nodes)))
              _ _ ltac:(vm_compute; reflexivity)))); discriminate.
Defined.

Lemma capacity_bounds_witness :
  (exists t w',
     buildAutoScalingGroupTask (example.builder SubnetTypePublic false)
       "nodes.example.com" (example.start example.nodes) = (Ok t, w') /\
     AutoscalingGroup.MinSize t = Some 2 /\
     AutoscalingGroup.MaxSize t = Some 2) /\
  (exists t w',
     buildAutoScalingGroupTask (example.builder SubnetTypePublic false)
       "bastions.example.com"
       (example.start
          (example.with_Role InstanceGroupRoleBastion
             (example.with_MaxSize (Some 3) example.nodes))) = (Ok t, w') /\
     AutoscalingGroup.MinSize t = Some 1 /\
     AutoscalingGroup.MaxSize t = Some 3).
Proof.
  split; eexists _, _; (split; [vm_compute; reflexivity |]).
  - eapply (@capacity_bounds _
              (example.builder SubnetTypePublic false) "nodes.example.com"
              (example.start example.nodes)).
    vm_compute; reflexivity.
  - eapply (@capacity_bounds _
              (example.builder SubnetTypePublic false) "bastions.example.com"
              (example.start
                 (example.with_Role InstanceGroupRoleBastion
                    (example.with_MaxSize (Some 3) example.nodes)))).
    vm_compute; reflexivity.
Defined.

Lemma attachments_sorted_by_name_witness :
  exists t w',
    buildAutoScalingGroupTask (example.builder SubnetTypePublic false)
      "bastions.example.com"
      (example.start
         (example.with_Role InstanceGroupRoleBastion
            (example.with_ExternalLoadBalancers
               [ {| LoadBalancer.LoadBalancerName := Some "zeta"%string;
                    LoadBalancer.TargetGroupARN := Some "arn-2"%string |};
                 {| LoadBalancer.LoadBalancerName := Some "alpha"%string;
                    LoadBalancer.TargetGroupARN := Some "arn-1"%string |} ]
               example.nodes))) = (Ok t, w') /\
    map ClassicLoadBalancer.Name (AutoscalingGroup.LoadBalancers t)
      = [Some "alpha"; Some "bastion.example.com"; Some "zeta"]%string /\
    StronglySorted
      (fun x y => String.leb (fi.StringValue (ClassicLoadBalancer.Name x))
                             (fi.StringValue (ClassicLoadBalancer.Name y)) = true)
      (AutoscalingGroup.LoadBalancers t).
Proof.
  eexists _, _. split; [vm_compute; reflexivity |].
  split; [reflexivity |].
  eapply (proj1 (@attachments_sorted_by_name _
            (example.builder SubnetTypePublic false) "bastions.example.com"
            (example.start
               (example.with_Role InstanceGroupRoleBastion
                  (example.with_ExternalLoadBalancers
                     [ {| LoadBalancer.LoadBalancerName := Some "zeta"%string;
                          LoadBalancer.TargetGroupARN := Some "arn-2"%string |};
                       {| LoadBalancer.LoadBalancerName := Some "alpha"%string;
                          LoadBalancer.TargetGroupARN := Some "arn-1"%string |} ]
                     example.nodes)))
            _ _ ltac:(vm_compute; reflexivity))).
Defined.

End awsmodel_facts.

(* ------------------------------------------------------------------ *)
(** * Further properties of the Spotinst adapter *)

Module spotinst_more_facts.

Import spotinst.

(** ** What [strings.Contains] finds *)

Lemma HasPrefix_split (s p : string) :
  strings.HasPrefix s p = true -> exists post, s = (p ++ post)%string.
Proof.
  revert s. induction p as [|c p IH]; intros s H.
  - exists s. reflexivity.
  - destruct s as [|d s]; simpl in H; [discriminate |].
    apply andb_true_iff in H as [Hc Hp]. apply Ascii.eqb_eq in Hc as ->.
    destruct (IH s Hp) as (post & ->). exists post. reflexivity.
Qed.

Lemma Contains_split (s sub : string) :
  strings.Contains s sub = true ->
  exists pre post, s = (pre ++ sub ++ post)%string.
Proof.
  induction s as [|c s IH]; cbn [strings.Contains]; intros H.
  - apply orb_true_iff in H as [H | H]; [| discriminate].
    apply HasPrefix_split in H as (post & ->). exists ""%string, post.
    reflexivity.
  - apply orb_true_iff in H as [H | H].
    + apply HasPrefix_split in H as (post & ->). exists ""%string, post.
      reflexivity.
    + destruct (IH H) as (pre & post & ->). exists (String c pre), post.
      reflexivity.
Qed.

Lemma lowerASCII_split (s a b : string) :
  strings.lowerASCII s = (a ++ b)%string ->
  exists s1 s2, s = (s1 ++ s2)%string /\
                strings.lowerASCII s1 = a /\ strings.lowerASCII s2 = b.
Proof.
  revert s. induction a as [|c a IH]; intros s H.
  - exists ""%string, s. auto.
  - destruct s as [|d s]; simpl in H; [discriminate |].
    injection H as Hc H. destruct (IH s H) as (s1 & s2 & -> & H1 & H2).
    exists (String d s1), s2. simpl. rewrite Hc, H1. auto.
Qed.

(** For a message that is ASCII throughout, the test of [Delete] succeeds
    exactly when the message holds the phrase in some mix of upper and lower
    case. *)
Lemma ascii_message_test (f : string -> string) (msg : string) :
  strings.isASCII msg = true ->
  strings.Contains (strings.ToLower f msg) "ocean does not exist" = true <->
  exists pre mid post,
    msg = (pre ++ mid ++ post)%string /\
    strings.lowerASCII mid = "ocean does not exist"%string.
Proof.
  intros Hascii. split.
  - unfold strings.ToLower. rewrite Hascii. intros H.
    apply Contains_split in H as (pre' & post' & H).
    apply lowerASCII_split in H as (pre & rest & -> & _ & H).
    apply lowerASCII_split in H as (mid & post & -> & Hmid & _).
    exists pre, mid, post. auto.
  - intros (pre & mid & post & -> & Hmid).
    now apply spotinst_facts.any_letter_case_passes.
Qed.

(** ** Delete *)

(** When every message of the backend's list of errors is ASCII, the
    deletion of a launch spec is reported as done exactly when one of the
    messages holds "ocean does not exist" in some mix of upper and lower
    case; otherwise the list of errors is returned as it came.  This does not
    depend on how letters outside ASCII are lowered. *)
Theorem Delete_launch_spec_any_letter_case
    (f : string -> string) (B : Type) (svc : awsoc.Service B)
    (specID : string) (st st' : B) (errs : client.Errors)
    (Hbackend : awsoc.DeleteLaunchSpec svc
                  {| awsoc.LaunchSpecID := Some specID |} st
                = (Some (ClientErrors errs), st'))
    (Hascii : Forall (fun e => strings.isASCII (client.Message e) = true) errs) :
  let phrase :=
    exists e pre mid post,
      In e errs /\ client.Message e = (pre ++ mid ++ post)%string /\
      strings.lowerASCII mid = "ocean does not exist"%string in
  (phrase ->
   awsOceanLaunchSpecService_Delete f svc specID st = (None, st')) /\
  (~ phrase ->
   awsOceanLaunchSpecService_Delete f svc specID st
     = (Some (ClientErrors errs), st')).
Proof.
  cbv zeta. unfold awsOceanLaunchSpecService_Delete, fi.String.
  rewrite Hbackend. rewrite Forall_forall in Hascii. split.
  - intros (e & pre & mid & post & Hin & Hmsg & Hmid).
    assert (H : oceanGone f errs = true).
    { apply spotinst_facts.oceanGone_iff. exists e. split; [exact Hin |].
      apply ascii_message_test; [auto |]. eauto. }
    now rewrite H.
  - intros Hno. destruct (oceanGone f errs) eqn:H; [| reflexivity].
    exfalso. apply Hno.
    apply spotinst_facts.oceanGone_iff in H as (e & Hin & He).
    apply ascii_message_test in He as (pre & mid & post & Hmsg & Hmid);
      [| auto].
    exists e, pre, mid, post. auto.
Qed.

Lemma Delete_launch_spec_any_letter_case_witness :
  let gone := [ {| client.Code := "E1"; client.Message := "cluster is busy";
                   client.Field := "" |};
                {| client.Code := "E2";
                   client.Message := "Error: OCEAN does not Exist (o-123)";
                   client.Field := "" |} ] in
  awsOceanLaunchSpecService_Delete (fun s => s)
    (answering (Some (ClientErrors gone))) "ols-1" tt = (None, tt).
Proof.
  cbv zeta.
  refine (proj1 (@Delete_launch_spec_any_letter_case (fun s => s) unit
                   (answering _) "ols-1" tt tt _ eq_refl _) _).
  - repeat constructor.
  - eexists _, "Error: "%string, "OCEAN does not Exist"%string,
            " (o-123)"%string.
    split; [right; left; reflexivity |]. split; reflexivity.
Defined.

(** Each of the three services answers [Delete] with one request to the
    backend, which names the given id; the services of the Elastigroup and
    of the Ocean cluster hand back the backend's answer whatever it is, an
    "ocean does not exist" error included. *)
Theorem Delete_sends_one_request
    (f : string -> string) (B : Type)
    (egsvc : awseg.Service B) (ocsvc : awsoc.Service B)
    (id : string) (st : B) (log : list request) :
  let x := newAWSCloud f (recording_eg egsvc) (recording_oc ocsvc) in
  snd (snd (Delete (Elastigroup x) id (st, log)))
    = (log ++ [ReqDeleteGroup {| awseg.DeleteGroupInput_GroupID := Some id |}])%list /\
  snd (snd (Delete (OceanCluster x) id (st, log)))
    = (log ++ [ReqDeleteCluster
                 {| awsoc.DeleteClusterInput_ClusterID := Some id |}])%list /\
  snd (snd (Delete (OceanLaunchSpec x) id (st, log)))
    = (log ++ [ReqDeleteLaunchSpec {| awsoc.LaunchSpecID := Some id |}])%list /\
  fst (Delete (Elastigroup x) id (st, log))
    = fst (awseg.Delete egsvc
             {| awseg.DeleteGroupInput_GroupID := Some id |} st) /\
  fst (Delete (OceanCluster x) id (st, log))
    = fst (awsoc.DeleteCluster ocsvc
             {| awsoc.DeleteClusterInput_ClusterID := Some id |} st).
Proof.
  cbv zeta. simpl.
  unfold awsElastigroupService_Delete, awsOceanClusterService_Delete,
    awsOceanLaunchSpecService_Delete, fi.String; simpl. unfold recorded; simpl.
  destruct (awseg.Delete egsvc _ st) as [e1 s1].
  destruct (awsoc.DeleteCluster ocsvc _ st) as [e2 s2].
  destruct (awsoc.DeleteLaunchSpec ocsvc _ st) as [[[errs | text] |] s3];
    simpl; [destruct (oceanGone f errs) | |]; repeat split.
Qed.

End spotinst_more_facts.

(* ------------------------------------------------------------------ *)
(** * Properties of the instance-group wrappers and of the other calls *)

Module spotinst_groups_facts.

Import spotinst spotinst_groups.

(** ** Filling a slice by index *)

Lemma list_set_app {A} (pre : list A) (x v : A) (post : list A) :
  list_set (List.length pre) v (pre ++ x :: post) = (pre ++ v :: post)%list.
Proof.
  induction pre as [|y pre IH]; simpl; [reflexivity | now rewrite IH].
Qed.

Lemma fill_spec {A W} (wrap : A -> W) (items : list A) :
  forall (done : list (option W)),
    fill wrap items (List.length done)
         (done ++ repeat None (List.length items))
    = (done ++ map (fun x => Some (wrap x)) items)%list.
Proof.
  induction items as [|item items IH]; intros done; simpl; [reflexivity |].
  rewrite list_set_app.
  replace (done ++ Some (wrap item) :: repeat None (List.length items))%list
    with ((done ++ [Some (wrap item)]) ++ repeat None (List.length items))%list
    by (now rewrite <- app_assoc).
  replace (Datatypes.S (List.length done))
    with (List.length (done ++ [Some (wrap item)]))
    by (rewrite length_app; simpl; lia).
  rewrite IH, <- app_assoc. reflexivity.
Qed.

Lemma wrapAll_map {A W} (wrap : A -> W) (items : list A) :
  wrapAll wrap items = map (fun x => Some (wrap x)) items.
Proof.
  unfold wrapAll. apply (fill_spec wrap items []).
Qed.

(** ** Listing *)

(** A listing that the backend answers with objects returns one wrapper for
    each object, in the backend's order and with no nil entry between them:
    every slot that [make] left empty is filled.  An error of the backend is
    returned as it is, with no list. *)
Theorem List_wraps_in_order (B : Type)
    (svc : call -> B -> (error + output) * B) (st : B) (id : string) :
  awsElastigroupService_List svc st =
    match svc CallListGroups st with
    | (inl err, st') => (Err err, st')
    | (inr (OutGroups groups), st') =>
        (Ok (map (fun g => Some (awsElastigroupInstanceGroup g)) groups), st')
    | (inr _, st') => (nilDereference, st')
    end /\
  awsOceanClusterService_List svc st =
    match svc CallListClusters st with
    | (inl err, st') => (Err err, st')
    | (inr (OutClusters clusters), st') =>
        (Ok (map (fun c => Some (awsOceanClusterInstanceGroup c)) clusters), st')
    | (inr _, st') => (nilDereference, st')
    end /\
  awsOceanLaunchSpecService_List svc st =
    match svc CallListLaunchSpecs st with
    | (inl err, st') => (Err err, st')
    | (inr (OutLaunchSpecs specs), st') =>
        (Ok (map (fun s => Some (awsOceanLaunchSpecInstanceGroup s)) specs), st')
    | (inr _, st') => (nilDereference, st')
    end /\
  awsElastigroupService_Instances svc id st =
    match svc (CallStatusGroup (Some id)) st with
    | (inl err, st') => (Err err, st')
    | (inr (OutEgInstances instances), st') =>
        (Ok (map (fun i => Some (awsElastigroupInstance i)) instances), st')
    | (inr _, st') => (nilDereference, st')
    end /\
  awsOceanClusterService_Instances svc id st =
    match svc (CallListClusterInstances (Some id)) st with
    | (inl err, st') => (Err err, st')
    | (inr (OutOcInstances instances), st') =>
        (Ok (map (fun i => Some (awsOceanInstance i)) instances), st')
    | (inr _, st') => (nilDereference, st')
    end /\
  awsOceanLaunchSpecService_Instances svc id st =
    awsOceanClusterService_Instances svc id st.
Proof.
  unfold awsElastigroupService_List, awsOceanClusterService_List,
    awsOceanLaunchSpecService_List, awsElastigroupService_Instances,
    awsOceanClusterService_Instances, awsOceanLaunchSpecService_Instances,
    bind, request, ret, lift, fi.String.
  repeat split.
  - destruct (svc CallListGroups st) as [[err | []] st'];
      rewrite ?wrapAll_map; reflexivity.
  - destruct (svc CallListClusters st) as [[err | []] st'];
      rewrite ?wrapAll_map; reflexivity.
  - destruct (svc CallListLaunchSpecs st) as [[err | []] st'];
      rewrite ?wrapAll_map; reflexivity.
  - destruct (svc (CallStatusGroup (Some id)) st) as [[err | []] st'];
      rewrite ?wrapAll_map; reflexivity.
  - destruct (svc (CallListClusterInstances (Some id)) st) as [[err | []] st'];
      rewrite ?wrapAll_map; reflexivity.
Qed.

(** ** The constructor *)

(** With three distinct type names: a wrapper is rebuilt from its own type
    and object; whatever [newAWSInstanceGroup] builds has the type it was
    asked for and wraps the object it was given; and a type that is none of
    the three is refused with an error that names it, whatever the object. *)
Theorem newAWSInstanceGroup_round_trip (eg oc ls : string)
    (Hdistinct : NoDup [eg; oc; ls]) :
  (forall x, newAWSInstanceGroup eg oc ls (Type_ eg oc ls x) (Obj x) = Ok x) /\
  (forall typ obj x,
     newAWSInstanceGroup eg oc ls typ obj = Ok x ->
     Type_ eg oc ls x = typ /\ Obj x = obj) /\
  (forall typ obj,
     ~ In typ [eg; oc; ls] ->
     newAWSInstanceGroup eg oc ls typ obj
       = Err (OtherError ("spotinst: unsupported instance group type: " ++ typ))).
Proof.
  assert (Hne : eg <> oc /\ eg <> ls /\ oc <> ls).
  { inversion Hdistinct as [| ? ? H1 H2]; subst.
    inversion H2 as [| ? ? H3 _]; subst. simpl in *. intuition congruence. }
  destruct Hne as (H1 & H2 & H3).
  split; [| split].
  - intros [o | o | o]; unfold newAWSInstanceGroup; simpl.
    + now rewrite String.eqb_refl.
    + destruct (String.eqb_spec oc eg); [congruence |].
      now rewrite String.eqb_refl.
    + destruct (String.eqb_spec ls eg); [congruence |].
      destruct (String.eqb_spec ls oc); [congruence |].
      now rewrite String.eqb_refl.
  - intros typ obj x. unfold newAWSInstanceGroup.
    destruct (String.eqb_spec typ eg) as [-> |];
      [destruct obj; intros H; try discriminate; now injection H as <- |].
    destruct (String.eqb_spec typ oc) as [-> |];
      [destruct obj; intros H; try discriminate; now injection H as <- |].
    destruct (String.eqb_spec typ ls) as [-> |];
      [destruct obj; intros H; try discriminate; now injection H as <- |].
    discriminate.
  - intros typ obj Hnot. unfold newAWSInstanceGroup. simpl in Hnot.
    destruct (String.eqb_spec typ eg); [intuition congruence |].
    destruct (String.eqb_spec typ oc); [intuition congruence |].
    destruct (String.eqb_spec typ ls); [intuition congruence |].
    reflexivity.
Qed.

Lemma newAWSInstanceGroup_round_trip_witness :
  newAWSInstanceGroup "elastigroup" "ocean:cluster" "ocean:launchspec"
    "ocean:launchspec"
    (ObjLaunchSpec (Some {| LaunchSpec_ID := Some "ols-1"%string;
                            LaunchSpec_Name := Some "nodes"%string |}))
  = Ok (awsOceanLaunchSpecInstanceGroup
          (Some {| LaunchSpec_ID := Some "ols-1"%string;
                   LaunchSpec_Name := Some "nodes"%string |})) /\
  newAWSInstanceGroup "elastigroup" "ocean:cluster" "ocean:launchspec"
    "fleet" ObjOther
  = Err (OtherError "spotinst: unsupported instance group type: fleet").
Proof.
  assert (Hdistinct : NoDup ["elastigroup"; "ocean:cluster"; "ocean:launchspec"]%string).
  { repeat constructor; simpl; intuition discriminate. }
  split.
  - exact (proj1 (newAWSInstanceGroup_round_trip Hdistinct)
             (awsOceanLaunchSpecInstanceGroup
                (Some {| LaunchSpec_ID := Some "ols-1"%string;
                         LaunchSpec_Name := Some "nodes"%string |}))).
  - apply (proj2 (proj2 (newAWSInstanceGroup_round_trip Hdistinct))).
    simpl. intuition discriminate.
Defined.

(** ** Creating and updating *)

(** [Create] and [Update] of a service send the backend one call, which
    carries the very object that the instance group wraps, when the group is
    of the service's own variant; handed a group of another variant they
    panic on the type assertion, and nothing is sent. *)
Theorem Create_Update_own_variant_only (B : Type)
    (svc : call -> B -> (error + output) * B)
    (group : InstanceGroup) (st : B) (log : list call) :
  let sent {A} (r : outcome error A * (B * list call)) := snd (snd r) in
  let refused {A} (r : outcome error A * (B * list call)) :=
    r = (interfaceConversion, (st, log)) in
  match group with
  | awsElastigroupInstanceGroup p =>
      sent (awsElastigroupService_Create (logging svc) group (st, log))
        = (log ++ [CallCreateGroup p])%list /\
      sent (awsElastigroupService_Update (logging svc) group (st, log))
        = (log ++ [CallUpdateGroup p])%list /\
      refused (awsOceanClusterService_Create (logging svc) group (st, log)) /\
      refused (awsOceanClusterService_Update (logging svc) group (st, log)) /\
      refused (awsOceanLaunchSpecService_Create (logging svc) group (st, log)) /\
      refused (awsOceanLaunchSpecService_Update (logging svc) group (st, log))
  | awsOceanClusterInstanceGroup p =>
      sent (awsOceanClusterService_Create (logging svc) group (st, log))
        = (log ++ [CallCreateCluster p])%list /\
      sent (awsOceanClusterService_Update (logging svc) group (st, log))
        = (log ++ [CallUpdateCluster p])%list /\
      refused (awsElastigroupService_Create (logging svc) group (st, log)) /\
      refused (awsElastigroupService_Update (logging svc) group (st, log)) /\
      refused (awsOceanLaunchSpecService_Create (logging svc) group (st, log)) /\
      refused (awsOceanLaunchSpecService_Update (logging svc) group (st, log))
  | awsOceanLaunchSpecInstanceGroup p =>
      sent (awsOceanLaunchSpecService_Create (logging svc) group (st, log))
        = (log ++ [CallCreateLaunchSpec p])%list /\
      sent (awsOceanLaunchSpecService_Update (logging svc) group (st, log))
        = (log ++ [CallUpdateLaunchSpec p])%list /\
      refused (awsElastigroupService_Create (logging svc) group (st, log)) /\
      refused (awsElastigroupService_Update (logging svc) group (st, log)) /\
      refused (awsOceanClusterService_Create (logging svc) group (st, log)) /\
      refused (awsOceanClusterService_Update (logging svc) group (st, log))
  end.
Proof.
  cbv zeta.
  destruct group as [p | p | p];
    unfold awsElastigroupService_Create, awsElastigroupService_Update,
      awsOceanClusterService_Create, awsOceanClusterService_Update,
      awsOceanLaunchSpecService_Create, awsOceanLaunchSpecService_Update,
      bind, request, ret, lift, logging; simpl.
  - destruct (svc (CallCreateGroup p) st) as [[e | [| [g|] | | | | | | |]] s1];
      destruct (svc (CallUpdateGroup p) st) as [[e' | o'] s2]; repeat split.
  - destruct (svc (CallCreateCluster p) st) as [[e | [| | | | [c|] | | | |]] s1];
      destruct (svc (CallUpdateCluster p) st) as [[e' | o'] s2]; repeat split.
  - destruct (svc (CallCreateLaunchSpec p) st)
      as [[e | [| | | | | | | [s|] |]] s1];
      destruct (svc (CallUpdateLaunchSpec p) st) as [[e' | o'] s2];
      repeat split.
Qed.


End spotinst_groups_facts.

(* ------------------------------------------------------------------ *)
(** * Further properties of the model builder *)

Module awsmodel_more_facts.

Import kops awstasks awsmodel awsmodel_facts.

Section Builder.

Variable Registry : Type.
Variable b : AutoscalingGroupModelBuilder Registry.

#[local] Abbreviation World := (World Registry).

(** Rewrite with the component equations of a tuple equation. *)
Ltac rewrite_components :=
  lazymatch goal with
  | |- (_ = _) -> _ =>
      let H := fresh "E" in intro H; rewrite_components; rewrite ?H
  | _ => cbn
  end.

Ltac use_tuple F := generalize F; let H := fresh in
  intro H; injection H; clear H; rewrite_components.

(** ** The security groups of a launch configuration *)

#[local] Abbreviation nlbGroup :=
  (fun id : string =>
     {| SecurityGroup.ID := Some id;
        SecurityGroup.Lifecycle := SecurityLifecycle b;
        SecurityGroup.Name := Some ("nlb-" ++ id)%string;
        SecurityGroup.Shared := Some true |}).

#[local] Abbreviation additionalGroup :=
  (fun id : string =>
     {| SecurityGroup.ID := Some id;
        SecurityGroup.Lifecycle := SecurityLifecycle b;
        SecurityGroup.Name := Some id;
        SecurityGroup.Shared := Some true |}).

Lemma nlbSecurityGroups_list ids : forall t (w w' : World) t',
  nlbSecurityGroups b ids t w = (Ok t', w') ->
  LaunchConfiguration.SecurityGroups t' =
    (LaunchConfiguration.SecurityGroups t ++ map nlbGroup ids)%list.
Proof.
  induction ids as [|id ids IH]; intros t w w' t' H; simpl in H.
  - apply ret_Ok in H as [-> _]. now rewrite app_nil_r.
  - apply bind_Ok in H as (? & w1 & _ & H). apply IH in H.
    rewrite H. cbn. now rewrite <- app_assoc.
Qed.

Lemma additionalSecurityGroups_list ids : forall t (w w' : World) t',
  additionalSecurityGroups b ids t w = (Ok t', w') ->
  LaunchConfiguration.SecurityGroups t' =
    (LaunchConfiguration.SecurityGroups t
       ++ map additionalGroup ids)%list.
Proof.
  induction ids as [|id ids IH]; intros t w w' t' H; simpl in H.
  - apply ret_Ok in H as [-> _]. now rewrite app_nil_r.
  - apply bind_Ok in H as (? & w1 & _ & H). apply IH in H.
    rewrite H. cbn. now rewrite <- app_assoc.
Qed.

#[local] Abbreviation fixed t :=
  (LaunchConfiguration.Name t,
   LaunchConfiguration.Lifecycle t,
   LaunchConfiguration.IAMInstanceProfile t,
   LaunchConfiguration.ImageID t,
   LaunchConfiguration.InstanceMonitoring t,
   LaunchConfiguration.InstanceType t,
   LaunchConfiguration.RootVolumeDeleteOnTermination t,
   LaunchConfiguration.RootVolumeEncryption t,
   LaunchConfiguration.RootVolumeOptimization t,
   LaunchConfiguration.RootVolumeSize t,
   LaunchConfiguration.HTTPTokens t,
   LaunchConfiguration.HTTPPutResponseHopLimit t).

#[local] Abbreviation late t :=
  (LaunchConfiguration.SecurityGroups t,
   LaunchConfiguration.Tenancy t,
   LaunchConfiguration.SSHKey t).

(** The first security group: the one of the role, or the shared group
    named after the override and the role. *)
#[local] Abbreviation firstGroup :=
  (fun spec : InstanceGroupSpec =>
   match SecurityGroupOverride spec with
   | Some override =>
       {| SecurityGroup.ID := Some override;
          SecurityGroup.Lifecycle := None;
          SecurityGroup.Name := Some (override ++ "-" ++ Role spec)%string;
          SecurityGroup.Shared := Some true |}
   | None => LinkToSecurityGroup b (Role spec)
   end).

(** The security groups for the load balancer of the API. *)
#[local] Abbreviation nlbGroups :=
  (fun spec : InstanceGroupSpec =>
   if (Role spec =? InstanceGroupRoleMaster)%string
      && (APILoadBalancerClass b =? LoadBalancerClassNetwork)%string
   then match Cluster_Spec_API b with
        | Some api =>
            match AccessSpec.LoadBalancer api with
            | Some lb =>
                map nlbGroup
                    (LoadBalancerAccessSpec.AdditionalSecurityGroups lb)
            | None => []
            end
        | None => []
        end
   else []).

(** What a successful [buildLaunchConfigurationTask] returns, for the fields
    that the root volume, the metadata options, the security groups, the
    tenancy and the SSH key decide. *)
Lemma buildLaunchConfigurationTask_fields name (w w' : World) lc :
  buildLaunchConfigurationTask b name w = (Ok lc, w') ->
  let g := ig w in
  let spec := Spec g in
  exists volumeSize link,
    DefaultInstanceGroupVolumeSize b (Role spec) = Ok volumeSize /\
    LinkToIAMInstanceProfile b g = Ok link /\
    fixed lc =
      (Some name, Lifecycle b, link, Some (Image spec),
       DetailedInstanceMonitoring spec,
       Some (strings.SplitFirst (MachineType spec) ","%char),
       Some match RootVolumeDeleteOnTermination spec with
            | Some v => v
            | None => true
            end,
       Some match RootVolumeEncryption spec with
            | Some v => v
            | None => false
            end,
       RootVolumeOptimization spec,
       Some (if fi.Int32Value (RootVolumeSize spec) >? 0
             then fi.Int32Value (RootVolumeSize spec) else volumeSize),
       match InstanceMetadata spec with
       | Some md =>
           match InstanceMetadataOptions.HTTPTokens md with
           | Some v => Some v
           | None => Some "optional"%string
           end
       | None => Some "optional"%string
       end,
       match InstanceMetadata spec with
       | Some md =>
           match InstanceMetadataOptions.HTTPPutResponseHopLimit md with
           | Some v => Some v
           | None => Some 1
           end
       | None => Some 1
       end) /\
    late lc =
      ((firstGroup spec :: nlbGroups spec
          ++ map additionalGroup (AdditionalSecurityGroups spec))%list,
       (if (Tenancy spec =? "")%string then None else Some (Tenancy spec)),
       (if UseSSHKey b
        then match LinkToSSHKey b with Ok key => key | _ => None end
        else None)) /\
    (UseSSHKey b = true -> exists key, LinkToSSHKey b = Ok key).
Proof.
  intros H g spec.
  unfold buildLaunchConfigurationTask in H.
  apply bind_Ok in H as (g0 & w1 & Hg & H). injection Hg as <- <-.
  apply bind_Ok in H as (volumeSize & w1 & Hvs & H).
  apply lift_Ok in Hvs as [Hvs ->].
  cbv beta zeta in H.
  apply bind_Ok in H as (link & w1 & Hlink & H).
  apply lift_Ok in Hlink as [Hlink ->].
  assert (Hlink' : LinkToIAMInstanceProfile b g = Ok link).
  { fold g in Hlink. destruct (LinkToIAMInstanceProfile b g); simpl in Hlink;
      congruence. }
  exists volumeSize, link. split; [exact Hvs |]. split; [exact Hlink' |].
  clear Hvs Hlink Hlink'.
  apply bind_Ok in H as (t1 & w1 & Ht1 & H).
  match type of Ht1 with
  | context [nlbSecurityGroups b _ ?t] => set (t0 := t) in *
  end.
  fold g spec in H, Ht1, t0.
  match goal with
  | |- fixed lc = ?v /\ _ => set (fx := v)
  end.
  assert (F0 : fixed t0 = fx /\ late t0 = ([firstGroup spec], None, None)).
  { subst t0 fx.
    destruct (InstanceMetadata spec) as [[[?|] [?|]]|],
      (RootVolumeDeleteOnTermination spec), (RootVolumeEncryption spec),
      (SecurityGroupOverride spec); split; reflexivity. }
  destruct F0 as [F0 L0].
  assert (F1 : ig w1 = ig w /\ fixed t1 = fx /\
               late t1 = ((firstGroup spec :: nlbGroups spec)%list, None, None)).
  { destruct (_ && _) in Ht1 |- *.
    - destruct (Cluster_Spec_API b) as [api|]; [|discriminate].
      destruct (AccessSpec.LoadBalancer api) as [lb|]; [|discriminate].
      pose proof (nlbSecurityGroups_list _ _ _ Ht1) as Hs.
      split; [now apply nlbSecurityGroups_run in Ht1 |].
      apply nlbSecurityGroups_Ok in Ht1. rewrite Ht1. split.
      + use_tuple F0. reflexivity.
      + cbn. rewrite Hs. use_tuple L0. reflexivity.
    - apply ret_Ok in Ht1 as [-> ->].
      split; [reflexivity |]. split; [exact F0 | exact L0]. }
  clear Ht1 F0 L0. clearbody t0. destruct F1 as (Hw1 & F1 & L1).
  apply bind_Ok in H as (t2 & w2 & Ht2 & H).
  assert (Hw2 : ig w2 = ig w).
  { rewrite <- Hw1. now apply additionalSecurityGroups_run in Ht2. }
  set (tenancy := if (Tenancy spec =? "")%string
                  then None else Some (Tenancy spec)).
  assert (F2 : fixed t2 = fx /\
               late t2 = ((firstGroup spec :: nlbGroups spec
                            ++ map additionalGroup
                                   (AdditionalSecurityGroups spec))%list,
                          tenancy, None)).
  { pose proof (additionalSecurityGroups_list _ _ _ Ht2) as Hs.
    apply additionalSecurityGroups_Ok in Ht2. rewrite Ht2. split.
    - repeat match goal with
             | |- context [if ?c then _ else _] => destruct c
             end; use_tuple F1; reflexivity.
    - cbn. rewrite Hs. subst tenancy.
      destruct (Tenancy spec =? "")%string; cbn;
        repeat match goal with
               | |- context [if ?c then _ else _] => destruct c
               end; use_tuple L1; reflexivity. }
  clear Ht2 F1 L1. destruct F2 as [F2 L2].
  apply bind_Ok in H as (t3 & w3 & Ht3 & H).
  rewrite additionalBlockDevices_run in Ht3 by (simpl; now rewrite Hw2).
  injection Ht3 as <- <-.
  apply bind_Ok in H as (t4 & w4 & Ht4 & H).
  set (sshKey := if UseSSHKey b
                 then match LinkToSSHKey b with Ok key => key | _ => None end
                 else None).
  assert (F4 : fixed t4 = fx /\
               late t4 = ((firstGroup spec :: nlbGroups spec
                            ++ map additionalGroup
                                   (AdditionalSecurityGroups spec))%list,
                          tenancy, sshKey) /\
               (UseSSHKey b = true -> exists key, LinkToSSHKey b = Ok key)).
  { subst sshKey. destruct (UseSSHKey b).
    - apply bind_Ok in Ht4 as (key & w5 & Hkey & Ht4).
      apply lift_Ok in Hkey as [Hkey _]. apply ret_Ok in Ht4 as [-> _].
      rewrite Hkey. split; [use_tuple F2; reflexivity |].
      split; [use_tuple L2; reflexivity | eauto].
    - apply ret_Ok in Ht4 as [-> _].
      split; [use_tuple F2; reflexivity |].
      split; [use_tuple L2; reflexivity | discriminate]. }
  destruct F4 as (F4 & L4 & Hssh). clear Ht4 F2 L2.
  apply bind_Ok in H as (g1 & w5 & Hg & H). injection Hg as <- <-.
  apply bind_Ok in H as (userData & w5 & Hud & H).
  apply bind_Ok in H as (subnets & w6 & Hsub & H).
  destruct subnets as [|subnet0 rest]; [discriminate |].
  split; [| split; [| exact Hssh]].
  - repeat match type of H with
           | context [if ?c then _ else _] => destruct c
           | context [match ?c with Some _ => _ | None => _ end] => destruct c
           end;
      apply ret_Ok in H as [-> _]; use_tuple F4; reflexivity.
  - repeat match type of H with
           | context [if ?c then _ else _] => destruct c
           | context [match ?c with Some _ => _ | None => _ end] => destruct c
           end;
      apply ret_Ok in H as [-> _]; use_tuple L4; reflexivity.
Qed.

(** ** Failures before anything is registered *)

(** A failure of the volume-size policy of the role ends the build of the
    launch resource with that error, also when the specification sets a root
    volume size of its own; a failure of the IAM profile lookup ends it with
    the error wrapped together with the name of the group.  In both cases
    the registry and the instance group are as they were. *)
Theorem early_failures_touch_nothing name (w : World) :
  let g := ig w in
  match DefaultInstanceGroupVolumeSize b (Role (Spec g)) with
  | Err e => buildLaunchTask b name w = (Err e, w)
  | Panic msg => buildLaunchTask b name w = (Panic msg, w)
  | Ok _ =>
      match LinkToIAMInstanceProfile b g with
      | Err e =>
          buildLaunchTask b name w
            = (Err (ErrIAMProfileLink (ObjectMeta_Name g) e), w)
      | Panic msg => buildLaunchTask b name w = (Panic msg, w)
      | Ok _ => True
      end
  end.
Proof.
  cbv zeta.
  assert (Hlc : forall r,
    buildLaunchConfigurationTask b name w = (r, w) ->
    (forall lc, r <> Ok lc) ->
    buildLaunchTask b name w
      = (match r with Ok _ => Panic "" | Err e => Err e | Panic m => Panic m end,
         w)).
  { intros r Hr Hnot. unfold buildLaunchTask, buildLaunchTemplateTask.
    unfold bind at 1, getIG at 1.
    destruct (UseLaunchTemplate b (ig w)).
    - unfold bind at 1. unfold bind at 1. rewrite Hr.
      destruct r; [now destruct (Hnot a) | reflexivity | reflexivity].
    - unfold bind at 1. rewrite Hr.
      destruct r; [now destruct (Hnot a) | reflexivity | reflexivity]. }
  destruct (DefaultInstanceGroupVolumeSize b (Role (Spec (ig w)))) as [d | e | m]
    eqn:Hd.
  - destruct (LinkToIAMInstanceProfile b (ig w)) as [l | e | m] eqn:Hl;
      [exact I | |].
    + apply (Hlc (Err (ErrIAMProfileLink (ObjectMeta_Name (ig w)) e)));
        [| discriminate].
      unfold buildLaunchConfigurationTask.
      unfold bind at 1, getIG at 1. unfold bind at 1, lift at 1. rewrite Hd.
      cbv beta zeta iota. unfold bind at 1, lift at 1. rewrite Hl. reflexivity.
    + apply (Hlc (Panic m)); [| discriminate].
      unfold buildLaunchConfigurationTask.
      unfold bind at 1, getIG at 1. unfold bind at 1, lift at 1. rewrite Hd.
      cbv beta zeta iota. unfold bind at 1, lift at 1. rewrite Hl. reflexivity.
  - apply (Hlc (Err e)); [| discriminate].
    unfold buildLaunchConfigurationTask.
    unfold bind at 1, getIG at 1. unfold bind at 1, lift at 1. rewrite Hd.
    reflexivity.
  - apply (Hlc (Panic m)); [| discriminate].
    unfold buildLaunchConfigurationTask.
    unfold bind at 1, getIG at 1. unfold bind at 1, lift at 1. rewrite Hd.
    reflexivity.
Qed.

(** ** The fields of a launch configuration *)

(** The root volume of a launch configuration: its size is the one of the
    specification when that is positive and the size of the role's policy
    otherwise (an unset, zero or negative size is passed over); it is deleted
    on termination unless the specification says no, and not encrypted
    unless the specification says yes. *)
Theorem root_volume_defaults name (w w' : World) lc policySize
    (Hbuild : buildLaunchConfigurationTask b name w = (Ok lc, w'))
    (Hpolicy : DefaultInstanceGroupVolumeSize b (Role (Spec (ig w)))
               = Ok policySize) :
  let spec := Spec (ig w) in
  LaunchConfiguration.RootVolumeSize lc =
    Some match RootVolumeSize spec with
         | Some n => if 0 <? n then n else policySize
         | None => policySize
         end /\
  LaunchConfiguration.RootVolumeDeleteOnTermination lc =
    Some match RootVolumeDeleteOnTermination spec with
         | Some v => v
         | None => true
         end /\
  LaunchConfiguration.RootVolumeEncryption lc =
    Some match RootVolumeEncryption spec with
         | Some v => v
         | None => false
         end.
Proof.
  apply buildLaunchConfigurationTask_fields in Hbuild
    as (d & link & Hd & _ & F & _).
  rewrite Hpolicy in Hd. injection Hd as <-.
  injection F as _ _ _ _ _ _ Hdel Henc _ Hsize _ _.
  cbv zeta. rewrite Hsize, Hdel, Henc. repeat split.
  destruct (RootVolumeSize (Spec (ig w))) as [n |]; cbn; [| reflexivity].
  rewrite Z.gtb_ltb. reflexivity.
Qed.

(** The metadata options of a launch configuration: the token requirement is
    "optional" and the hop limit is 1, each unless the specification sets it,
    and each on its own. *)
Theorem metadata_defaults name (w w' : World) lc
    (Hbuild : buildLaunchConfigurationTask b name w = (Ok lc, w')) :
  let tokens :=
    match InstanceMetadata (Spec (ig w)) with
    | Some md => InstanceMetadataOptions.HTTPTokens md
    | None => None
    end in
  let hops :=
    match InstanceMetadata (Spec (ig w)) with
    | Some md => InstanceMetadataOptions.HTTPPutResponseHopLimit md
    | None => None
    end in
  LaunchConfiguration.HTTPTokens lc =
    Some match tokens with Some v => v | None => "optional"%string end /\
  LaunchConfiguration.HTTPPutResponseHopLimit lc =
    Some match hops with Some v => v | None => 1 end.
Proof.
  apply buildLaunchConfigurationTask_fields in Hbuild
    as (d & link & _ & _ & F & _).
  injection F as _ _ _ _ _ _ _ _ _ _ Htok Hhop.
  cbv zeta. rewrite Htok, Hhop.
  destruct (InstanceMetadata (Spec (ig w))) as [[[?|] [?|]]|]; split; reflexivity.
Qed.

(** The security groups of a launch configuration, in order: first the group
    of the role or, when the specification has an override, the shared group
    of that id named "override-role" in its place; then, for a master behind
    a network load balancer, one shared group "nlb-id" for each additional
    security group of the load balancer; then one shared group for each
    additional security group of the specification. *)
Theorem security_groups_in_order name (w w' : World) lc
    (Hbuild : buildLaunchConfigurationTask b name w = (Ok lc, w')) :
  let spec := Spec (ig w) in
  exists nlb,
    LaunchConfiguration.SecurityGroups lc =
      (match SecurityGroupOverride spec with
       | Some override =>
           {| SecurityGroup.ID := Some override;
              SecurityGroup.Lifecycle := None;
              SecurityGroup.Name := Some (override ++ "-" ++ Role spec)%string;
              SecurityGroup.Shared := Some true |}
       | None => LinkToSecurityGroup b (Role spec)
       end
       :: map (fun id =>
                 {| SecurityGroup.ID := Some id;
                    SecurityGroup.Lifecycle := SecurityLifecycle b;
                    SecurityGroup.Name := Some ("nlb-" ++ id)%string;
                    SecurityGroup.Shared := Some true |}) nlb
       ++ map (fun id =>
                 {| SecurityGroup.ID := Some id;
                    SecurityGroup.Lifecycle := SecurityLifecycle b;
                    SecurityGroup.Name := Some id;
                    SecurityGroup.Shared := Some true |})
              (AdditionalSecurityGroups spec))%list /\
    (Role spec <> InstanceGroupRoleMaster \/
     APILoadBalancerClass b <> LoadBalancerClassNetwork -> nlb = []) /\
    (Role spec = InstanceGroupRoleMaster ->
     APILoadBalancerClass b = LoadBalancerClassNetwork ->
     exists api lb,
       Cluster_Spec_API b = Some api /\
       AccessSpec.LoadBalancer api = Some lb /\
       nlb = LoadBalancerAccessSpec.AdditionalSecurityGroups lb).
Proof.
  pose proof Hbuild as Hinv.
  apply buildLaunchConfigurationTask_fields in Hinv
    as (d & link & _ & _ & _ & L & _).
  injection L as Hsg _ _. cbv zeta.
  set (spec := Spec (ig w)) in *.
  destruct ((Role spec =? InstanceGroupRoleMaster)%string
            && (APILoadBalancerClass b =? LoadBalancerClassNetwork)%string)
    eqn:Hcond.
  - apply andb_true_iff in Hcond as [Hr Hc].
    apply String.eqb_eq in Hr, Hc.
    (* the build went through the loop: both pointers are set *)
    assert (Hptr : exists api lb, Cluster_Spec_API b = Some api /\
                                  AccessSpec.LoadBalancer api = Some lb).
    { unfold buildLaunchConfigurationTask in Hbuild.
      apply bind_Ok in Hbuild as (g0 & w1 & Hg & H). injection Hg as <- <-.
      apply bind_Ok in H as (vs & w1 & _ & H). cbv beta zeta in H.
      apply bind_Ok in H as (lk & w2 & _ & H).
      apply bind_Ok in H as (t1 & w3 & Ht1 & _).
      fold spec in Ht1. rewrite Hr, Hc in Ht1. simpl in Ht1.
      destruct (Cluster_Spec_API b) as [api|]; [| discriminate].
      destruct (AccessSpec.LoadBalancer api) as [lb|] eqn:Hlb;
        [| discriminate].
      exists api, lb. split; [reflexivity | exact Hlb]. }
    destruct Hptr as (api & lb & Hapi & Hlb). rewrite Hapi, Hlb in Hsg.
    exists (LoadBalancerAccessSpec.AdditionalSecurityGroups lb).
    split; [exact Hsg |]. split.
    + intros [Hn | Hn]; contradiction.
    + intros _ _. eauto.
  - exists []. split; [exact Hsg |]. split; [reflexivity |].
    intros Hr Hc. rewrite Hr, Hc in Hcond. discriminate.
Qed.

(** Of the comma-separated machine types of the specification, a launch
    configuration takes the first: its instance type holds no comma, and the
    machine types are this type alone or this type, a comma and the rest. *)
Theorem instance_type_is_first_machine_type name (w w' : World) lc
    (Hbuild : buildLaunchConfigurationTask b name w = (Ok lc, w')) :
  exists first,
    LaunchConfiguration.InstanceType lc = Some first /\
    strings.Contains first "," = false /\
    (MachineType (Spec (ig w)) = first \/
     exists rest, MachineType (Spec (ig w)) = (first ++ "," ++ rest)%string).
Proof.
  apply buildLaunchConfigurationTask_fields in Hbuild
    as (d & link & _ & _ & F & _).
  injection F as _ _ _ _ _ Hty _ _ _ _ _ _.
  exists (strings.SplitFirst (MachineType (Spec (ig w))) ","%char).
  split; [exact Hty |]. clear.
  induction (MachineType (Spec (ig w))) as [|c s [IH1 IH2]]; simpl.
  - split; [reflexivity | now left].
  - destruct (Ascii.eqb_spec c ","%char) as [-> | Hc]; simpl.
    + split; [reflexivity |]. right. exists s. reflexivity.
    + split.
      * destruct (Ascii.eqb_spec c ","%char); [contradiction |]. simpl.
        destruct (strings.SplitFirst s ","); simpl in *; exact IH1.
      * destruct IH2 as [IH2 | (rest & IH2)].
        -- left. f_equal. exact IH2.
        -- right. exists rest. simpl. f_equal. exact IH2.
Qed.

(** The SSH key and the tenancy of a launch configuration: the key is
    attached when the cluster uses SSH keys, and is then the one that
    [LinkToSSHKey] returns; otherwise there is none and [LinkToSSHKey] is not
    asked.  The tenancy is the one of the specification, absent when that is
    empty. *)
Theorem ssh_key_and_tenancy name (w w' : World) lc
    (Hbuild : buildLaunchConfigurationTask b name w = (Ok lc, w')) :
  (if UseSSHKey b
   then LinkToSSHKey b = Ok (LaunchConfiguration.SSHKey lc)
   else LaunchConfiguration.SSHKey lc = None) /\
  LaunchConfiguration.Tenancy lc =
    (if (Tenancy (Spec (ig w)) =? "")%string
     then None else Some (Tenancy (Spec (ig w)))).
Proof.
  apply buildLaunchConfigurationTask_fields in Hbuild
    as (d & link & _ & _ & _ & L & Hssh).
  injection L as _ Hten Hkey. split; [| exact Hten].
  destruct (UseSSHKey b); [| exact Hkey].
  destruct (Hssh eq_refl) as (key & Hk). rewrite Hk in Hkey |- *.
  now rewrite Hkey.
Qed.

(** The mappings of the additional volumes, for the fields that no default
    of type, iops or throughput touches: each carries the device name, the
    size and the key of its volume, is deleted on termination unless the
    volume says no, and is not encrypted unless the volume says yes. *)
Theorem additional_volume_passthrough name (w w' : World) task
    (Hbuild : buildLaunchTask b name w = (Ok task, w')) :
  Forall2
    (fun x m =>
       BlockDeviceMapping.DeviceName m = Some (VolumeSpec.Device x) /\
       BlockDeviceMapping.EbsVolumeSize m = Some (VolumeSpec.Size x) /\
       BlockDeviceMapping.EbsKmsKey m = VolumeSpec.Key x /\
       BlockDeviceMapping.EbsDeleteOnTermination m =
         Some match VolumeSpec.DeleteOnTermination x with
              | Some v => v
              | None => true
              end /\
       BlockDeviceMapping.EbsEncrypted m =
         Some match VolumeSpec.Encrypted x with
              | Some v => v
              | None => false
              end)
    (Volumes (Spec (ig w))) (launchBlockDeviceMappings task).
Proof.
  assert (Hmap : launchBlockDeviceMappings task =
                 map (fun x => blockDeviceMapping (defaultVolume x))
                     (Volumes (Spec (ig w)))).
  { apply buildLaunchTask_Ok in Hbuild as [(lc & -> & H) | (lt & -> & H)].
    - apply buildLaunchConfigurationTask_Ok in H as (_ & s0 & rest & _ & F).
      injection F as _ _ _ Hb _. exact Hb.
    - apply buildLaunchTemplateTask_Ok in H as (_ & s0 & rest & _ & F).
      injection F as _ _ _ _ Hb _ _. exact Hb. }
  rewrite Hmap. clear. induction (Volumes (Spec (ig w))) as [|x l IH];
    simpl; constructor; [| exact IH].
  destruct (defaultVolume_frame x) as (Hdev & Henc & Hkey & Hsize & Hdot).
  unfold blockDeviceMapping. cbn.
  rewrite Hdev, Henc, Hkey, Hsize, Hdot.
  destruct (VolumeSpec.DeleteOnTermination x), (VolumeSpec.Encrypted x);
    repeat split.
Qed.

(** ** The launch template *)

(** A launch template is its launch configuration and more: building it
    builds the configuration, with the same registrations and the same
    writes, and copies its fields.  Only the root iops of a gp3 volume
    departs from the configuration.  The tags are those of the cloud-tag
    collaborator; spot duration and interruption behaviour are those of the
    specification. *)
Theorem template_copies_configuration name (w w' : World) lt
    (Hbuild : buildLaunchTemplateTask b name w = (Ok lt, w')) :
  exists lc,
    buildLaunchConfigurationTask b name w = (Ok lc, w') /\
    LaunchTemplate.Name lt = LaunchConfiguration.Name lc /\
    LaunchTemplate.Lifecycle lt = LaunchConfiguration.Lifecycle lc /\
    LaunchTemplate.AssociatePublicIP lt
      = LaunchConfiguration.AssociatePublicIP lc /\
    LaunchTemplate.BlockDeviceMappings lt
      = LaunchConfiguration.BlockDeviceMappings lc /\
    LaunchTemplate.IAMInstanceProfile lt
      = LaunchConfiguration.IAMInstanceProfile lc /\
    LaunchTemplate.ImageID lt = LaunchConfiguration.ImageID lc /\
    LaunchTemplate.InstanceMonitoring lt
      = LaunchConfiguration.InstanceMonitoring lc /\
    LaunchTemplate.InstanceType lt = LaunchConfiguration.InstanceType lc /\
    LaunchTemplate.RootVolumeOptimization lt
      = LaunchConfiguration.RootVolumeOptimization lc /\
    LaunchTemplate.RootVolumeSize lt = LaunchConfiguration.RootVolumeSize lc /\
    LaunchTemplate.RootVolumeType lt = LaunchConfiguration.RootVolumeType lc /\
    LaunchTemplate.RootVolumeEncryption lt
      = LaunchConfiguration.RootVolumeEncryption lc /\
    LaunchTemplate.SSHKey lt = LaunchConfiguration.SSHKey lc /\
    LaunchTemplate.SecurityGroups lt = LaunchConfiguration.SecurityGroups lc /\
    LaunchTemplate.Tenancy lt = LaunchConfiguration.Tenancy lc /\
    LaunchTemplate.UserData lt = LaunchConfiguration.UserData lc /\
    LaunchTemplate.HTTPTokens lt = LaunchConfiguration.HTTPTokens lc /\
    LaunchTemplate.HTTPPutResponseHopLimit lt
      = LaunchConfiguration.HTTPPutResponseHopLimit lc /\
    (fi.StringValue (LaunchConfiguration.RootVolumeType lc)
       <> ec2.VolumeTypeGp3 ->
     LaunchTemplate.RootVolumeIops lt = LaunchConfiguration.RootVolumeIops lc /\
     LaunchTemplate.RootVolumeThroughput lt = None) /\
    CloudTagsForInstanceGroup b (ig w') = Ok (LaunchTemplate.Tags lt) /\
    LaunchTemplate.SpotDurationInMinutes lt
      = SpotDurationInMinutes (Spec (ig w)) /\
    LaunchTemplate.InstanceInterruptionBehavior lt
      = InstanceInterruptionBehavior (Spec (ig w)).
Proof.
  unfold buildLaunchTemplateTask in Hbuild.
  apply bind_Ok in Hbuild as (lc & w1 & Hlc & H).
  apply bind_Ok in H as (g & w2 & Hg & H). injection Hg as <- <-.
  apply bind_Ok in H as (tags & w2 & Htags & H).
  apply lift_Ok in Htags as [Htags ->].
  assert (Htags' : CloudTagsForInstanceGroup b (ig w1) = Ok tags).
  { destruct (CloudTagsForInstanceGroup b (ig w1)); simpl in Htags; congruence. }
  cbv beta zeta in H. apply ret_Ok in H as [-> ->].
  exists lc. split; [exact Hlc |].
  pose proof (buildLaunchConfigurationTask_Ok _ _ _ Hlc) as (Hw1 & _).
  assert (Hname : fi.String name = LaunchConfiguration.Name lc
                  /\ Lifecycle b = LaunchConfiguration.Lifecycle lc).
  { pose proof (buildLaunchConfigurationTask_fields _ _ Hlc)
      as (vs & link & _ & _ & F & _).
    apply (f_equal (fun t => let '(n, l, _, _, _, _, _, _, _, _, _, _) := t
                             in (n, l))) in F.
    injection F as -> ->. split; reflexivity. }
  destruct Hname as [Hname Hlife].
  rewrite Hw1.
  change (Spec (defaultedVolumes (ig w)))
    with (set_Volumes (map defaultVolume (Volumes (Spec (ig w)))) (Spec (ig w))).
  cbn [MixedInstancesPolicy SpotDurationInMinutes InstanceInterruptionBehavior
       RootVolumeEncryption RootVolumeEncryptionKey RootVolumeIops
       RootVolumeThroughput set_Volumes].
  rewrite <- Hw1.
  destruct (MixedInstancesPolicy (Spec (ig w))),
    (SpotDurationInMinutes (Spec (ig w))),
    (InstanceInterruptionBehavior (Spec (ig w))),
    (fi.BoolValue (RootVolumeEncryption (Spec (ig w)))),
    (RootVolumeEncryptionKey (Spec (ig w)));
    cbn;
    (destruct (String.eqb_spec
                 (fi.StringValue (LaunchConfiguration.RootVolumeType lc))
                 ec2.VolumeTypeGp3) as [Hgp3 | Hgp3];
     [destruct (fi.Int32Value (RootVolumeIops (Spec (ig w))) <? 3000),
               (fi.Int32Value (RootVolumeThroughput (Spec (ig w))) <? 125) |]);
    cbn; repeat split;
    solve [exact Htags' | exact Hname | exact Hlife | contradiction | reflexivity].
Qed.

(** The key of the root volume on a launch template: the key of the
    specification when the specification turns encryption on and has a key;
    the empty string in every other case, a key that is supplied without
    encryption included. *)
Theorem template_kms_key name (w w' : World) lt
    (Hbuild : buildLaunchTemplateTask b name w = (Ok lt, w')) :
  let spec := Spec (ig w) in
  LaunchTemplate.RootVolumeKmsKey lt =
    match RootVolumeEncryption spec, RootVolumeEncryptionKey spec with
    | Some true, Some key => Some key
    | _, _ => Some ""%string
    end.
Proof.
  apply buildLaunchTemplateTask_Ok in Hbuild as (_ & s0 & rest & _ & F).
  injection F as _ _ _ _ _ _ Hkms. cbv zeta. rewrite Hkms.
  destruct (RootVolumeEncryption (Spec (ig w))) as [[|] |],
    (RootVolumeEncryptionKey (Spec (ig w))); reflexivity.
Qed.

(** ** No subnets *)

(** When no subnet is gathered for an instance group, the build of the
    autoscaling group returns the error that names the group and the subnets
    it asked for, and registers nothing; the build of the launch resource
    does not check: it never returns a launch resource, for it reads the
    first subnet of an empty list. *)
Theorem no_subnets name (w : World)
    (Hnone : GatherSubnets b (ig w) = Ok [])
    (Hnone' : GatherSubnets b (defaultedVolumes (ig w)) = Ok []) :
  buildAutoScalingGroupTask b name w
    = (Err (ErrNoSubnets (ObjectMeta_Name (ig w)) (kops.Subnets (Spec (ig w)))),
       w) /\
  (forall task w', buildLaunchTask b name w <> (Ok task, w')).
Proof.
  split.
  - unfold buildAutoScalingGroupTask.
    unfold bind at 1, getIG at 1. cbv beta zeta iota.
    unfold bind at 1, lift at 1. rewrite Hnone. reflexivity.
  - intros task w' H.
    apply buildLaunchTask_Ok in H as [(lc & _ & H) | (lt & _ & H)].
    + apply buildLaunchConfigurationTask_Ok in H as (Hw & s0 & rest & Hs & _).
      rewrite Hw in Hs. congruence.
    + apply buildLaunchTemplateTask_Ok in H as (Hw & s0 & rest & Hs & _).
      rewrite Hw in Hs. congruence.
Qed.

(** ** The autoscaling group *)

(** The fields of an autoscaling group other than its two lists of
    attachments. *)
#[local] Abbreviation others t :=
  (AutoscalingGroup.Name t, AutoscalingGroup.Lifecycle t,
   AutoscalingGroup.Granularity t, AutoscalingGroup.InstanceProtection t,
   AutoscalingGroup.LaunchConfiguration t, AutoscalingGroup.LaunchTemplate t,
   AutoscalingGroup.MaxSize t, AutoscalingGroup.Metrics t,
   AutoscalingGroup.MinSize t, AutoscalingGroup.Subnets t,
   AutoscalingGroup.SuspendProcesses t, AutoscalingGroup.Tags t,
   (AutoscalingGroup.MixedInstanceOverrides t,
    AutoscalingGroup.MixedOnDemandAboveBase t,
    AutoscalingGroup.MixedOnDemandAllocationStrategy t,
    AutoscalingGroup.MixedOnDemandBase t,
    AutoscalingGroup.MixedSpotAllocationStrategy t,
    AutoscalingGroup.MixedSpotInstancePools t,
    AutoscalingGroup.MixedSpotMaxPrice t)).

(** Whether the builder makes the attachments of the cluster itself, which
    it leaves to Spotinst for the groups that Spotinst manages. *)
#[local] Abbreviation attaches :=
  (fun g : InstanceGroup =>
     negb (featureflag_Spotinst_Enabled b)
     || (featureflag_SpotinstHybrid_Enabled b
         && negb (HybridInstanceGroup b g))).

(** The classic load balancers of the cluster for a group: the one of the
    API for a master behind a classic load balancer, the one of the bastion
    for a bastion. *)
#[local] Abbreviation clusterCLBs :=
  (fun g : InstanceGroup =>
     if attaches g
     then ((if UseLoadBalancerForAPI b
               && (Role (Spec g) =? InstanceGroupRoleMaster)%string
               && negb (UseNetworkLoadBalancer b)
            then [LinkToCLB b "api"] else [])
           ++ (if (Role (Spec g) =? InstanceGroupRoleBastion)%string
               then [LinkToCLB b "bastion"] else []))%list
     else []).

(** The target groups of the cluster for a group: those of the API for a
    master behind a network load balancer, the one for TLS only when the
    load balancer has a certificate. *)
#[local] Abbreviation clusterTGs :=
  (fun g : InstanceGroup =>
     if attaches g
        && UseLoadBalancerForAPI b
        && (Role (Spec g) =? InstanceGroupRoleMaster)%string
        && UseNetworkLoadBalancer b
     then LinkToTargetGroup b "tcp"
          :: match Cluster_Spec_API b with
             | Some api =>
                 match AccessSpec.LoadBalancer api with
                 | Some lb =>
                     if negb (LoadBalancerAccessSpec.SSLCertificate lb
                                =? "")%string
                     then [LinkToTargetGroup b "tls"] else []
                 | None => []
                 end
             | None => []
             end
     else []).

(** The classic load balancers that a group names itself. *)
#[local] Abbreviation externalCLBs :=
  (flat_map
     (fun extLB =>
        match LoadBalancer.LoadBalancerName extLB with
        | Some _ =>
            [ {| ClassicLoadBalancer.Name := LoadBalancer.LoadBalancerName extLB;
                 ClassicLoadBalancer.LoadBalancerName :=
                   LoadBalancer.LoadBalancerName extLB;
                 ClassicLoadBalancer.Shared := Some true |} ]
        | None => []
        end)).

(** The target groups that a group names itself, by their ARN. *)
#[local] Abbreviation externalTGs :=
  (fun name : string =>
     flat_map
       (fun extLB =>
          match LoadBalancer.TargetGroupARN extLB with
          | Some arn =>
              match GetTargetGroupNameFromARN b arn with
              | Ok targetGroupName =>
                  [ {| TargetGroup.Name :=
                         Some (name ++ "-" ++ targetGroupName)%string;
                       TargetGroup.ARN := Some arn;
                       TargetGroup.Shared := Some true |} ]
              | _ => []
              end
          | None => []
          end)).

Lemma managedLoadBalancers_Ok g t (w w1 : World) t1 :
  managedLoadBalancers b g t w = (Ok t1, w1) ->
  w1 = w /\
  others t1 = others t /\
  AutoscalingGroup.LoadBalancers t1
    = (AutoscalingGroup.LoadBalancers t ++ clusterCLBs g)%list /\
  AutoscalingGroup.TargetGroups t1
    = (AutoscalingGroup.TargetGroups t ++ clusterTGs g)%list.
Proof.
  unfold managedLoadBalancers, bind, ret, panic.
  destruct (featureflag_Spotinst_Enabled b),
    (featureflag_SpotinstHybrid_Enabled b), (HybridInstanceGroup b g),
    (UseLoadBalancerForAPI b),
    (Role (Spec g) =? InstanceGroupRoleMaster)%string,
    (UseNetworkLoadBalancer b),
    (Role (Spec g) =? InstanceGroupRoleBastion)%string;
    cbn [negb orb andb];
    repeat match goal with
           | |- context [match ?c with Some _ => _ | None => _ end] =>
               destruct c
           | |- context [if ?c then _ else _] => destruct c
           end;
    intros H; try discriminate; injection H as <- <-; cbn;
    rewrite <- ?app_assoc, ?app_nil_r; repeat split; reflexivity.
Qed.

Lemma externalLoadBalancers_exact name extLBs : forall t (w w' : World) t',
  externalLoadBalancers b name extLBs t w = (Ok t', w') ->
  others t' = others t /\
  AutoscalingGroup.LoadBalancers t'
    = (AutoscalingGroup.LoadBalancers t ++ externalCLBs extLBs)%list /\
  AutoscalingGroup.TargetGroups t'
    = (AutoscalingGroup.TargetGroups t ++ externalTGs name extLBs)%list /\
  Forall (fun extLB =>
            forall arn, LoadBalancer.TargetGroupARN extLB = Some arn ->
                        exists targetGroupName,
                          GetTargetGroupNameFromARN b arn = Ok targetGroupName)
         extLBs.
Proof.
  induction extLBs as [|e extLBs IH]; intros t w w' t' H; simpl in H.
  - apply ret_Ok in H as [-> _]. simpl. rewrite !app_nil_r.
    repeat split. constructor.
  - apply bind_Ok in H as (t1 & w1 & H1 & H).
    apply bind_Ok in H as (t2 & w2 & H2 & H).
    apply IH in H as (Ho & Hlb & Htg & Hall).
    assert (E1 : t1 = AutoscalingGroup.set_LoadBalancers
                        (AutoscalingGroup.LoadBalancers t ++ externalCLBs [e]) t).
    { simpl. destruct (LoadBalancer.LoadBalancerName e).
      - apply bind_Ok in H1 as (? & w3 & _ & H1).
        now apply ret_Ok in H1 as [-> _].
      - apply ret_Ok in H1 as [-> _]. simpl. rewrite app_nil_r. now destruct t. }
    assert (E2 : t2 = AutoscalingGroup.set_TargetGroups
                        (AutoscalingGroup.TargetGroups t1 ++ externalTGs name [e])
                        t1 /\
                 forall arn, LoadBalancer.TargetGroupARN e = Some arn ->
                   exists n, GetTargetGroupNameFromARN b arn = Ok n).
    { simpl. destruct (LoadBalancer.TargetGroupARN e) as [arn |].
      - apply bind_Ok in H2 as (n & w3 & Hn & H2).
        apply lift_Ok in Hn as [Hn _]. cbn in Hn.
        apply bind_Ok in H2 as (? & w4 & _ & H2).
        apply ret_Ok in H2 as [-> _]. rewrite Hn. simpl. split.
        + reflexivity.
        + intros ? [= <-]. eauto.
      - apply ret_Ok in H2 as [-> _]. simpl. rewrite app_nil_r. split.
        + now destruct t1.
        + discriminate. }
    destruct E2 as (E2 & Hparse). subst t2 t1. cbn in Ho, Hlb, Htg.
    rewrite Ho, Hlb, Htg. cbn [flat_map].
    rewrite !app_nil_r, <- !app_assoc. repeat split.
    constructor; assumption.
Qed.

Lemma buildAutoScalingGroupTask_exact name (w w' : World) t :
  buildAutoScalingGroupTask b name w = (Ok t, w') ->
  let g := ig w in
  let spec := Spec g in
  let fallback := if (Role spec =? InstanceGroupRoleNode)%string then 2 else 1 in
  exists subnet0 rest tags,
    GatherSubnets b g = Ok (subnet0 :: rest) /\
    CloudTagsForInstanceGroup b g = Ok tags /\
    others t =
      (Some name, Lifecycle b, Some "1Minute"%string, InstanceProtection spec,
       None, None,
       Some match MaxSize spec with Some n => n | None => fallback end,
       ["GroupDesiredCapacity"; "GroupInServiceInstances"; "GroupMaxSize";
        "GroupMinSize"; "GroupPendingInstances"; "GroupStandbyInstances";
        "GroupTerminatingInstances"; "GroupTotalInstances"]%string,
       Some match MinSize spec with Some n => n | None => fallback end,
       map (LinkToSubnet b) (subnet0 :: rest),
       Some (SuspendProcesses spec), tags,
       match MixedInstancesPolicy spec with
       | Some policy =>
           (MixedInstancesPolicySpec.Instances policy,
            MixedInstancesPolicySpec.OnDemandAboveBase policy,
            MixedInstancesPolicySpec.OnDemandAllocationStrategy policy,
            MixedInstancesPolicySpec.OnDemandBase policy,
            MixedInstancesPolicySpec.SpotAllocationStrategy policy,
            MixedInstancesPolicySpec.SpotInstancePools policy,
            MaxPrice spec)
       | None => ([], None, None, None, None, None, None)
       end) /\
    AutoscalingGroup.LoadBalancers t =
      sort.Stable OrderLoadBalancersByName_Less
        (clusterCLBs g ++ externalCLBs (ExternalLoadBalancers spec)) /\
    AutoscalingGroup.TargetGroups t =
      sort.Stable OrderTargetGroupsByName_Less
        (clusterTGs g ++ externalTGs name (ExternalLoadBalancers spec)) /\
    Forall (fun extLB =>
              forall arn, LoadBalancer.TargetGroupARN extLB = Some arn ->
                          exists targetGroupName,
                            GetTargetGroupNameFromARN b arn = Ok targetGroupName)
           (ExternalLoadBalancers spec).
Proof.
  intros H g spec fallback. unfold buildAutoScalingGroupTask in H.
  apply bind_Ok in H as (g0 & w1 & Hg & H). injection Hg as <- <-.
  cbv beta zeta in H.
  apply bind_Ok in H as (subnets & w1 & Hsub & H).
  apply lift_Ok in Hsub as [Hsub ->].
  destruct subnets as [|s0 rest]; [discriminate |].
  apply bind_Ok in H as (tags & w1 & Htags & H).
  apply lift_Ok in Htags as [Htags ->].
  assert (Htags' : CloudTagsForInstanceGroup b g = Ok tags).
  { subst g. destruct (CloudTagsForInstanceGroup b (ig w));
      simpl in Htags; congruence. }
  apply bind_Ok in H as (t1 & w1 & Ht1 & H).
  fold g spec in Ht1, H.
  apply managedLoadBalancers_Ok in Ht1 as (-> & Ho1 & Hlb1 & Htg1).
  apply bind_Ok in H as (t2 & w2 & Ht2 & H).
  apply externalLoadBalancers_exact in Ht2 as (Ho2 & Hlb2 & Htg2 & Hall).
  apply ret_Ok in H as [-> _].
  exists s0, rest, tags. split; [exact Hsub |]. split; [exact Htags' |].
  rewrite Hlb1 in Hlb2. rewrite Htg1 in Htg2. rewrite Ho1 in Ho2.
  cbn in Hlb2, Htg2, Ho2.
  split; [| split; [| split]].
  - subst fallback.
    destruct (MixedInstancesPolicy spec), (MinSize spec), (MaxSize spec),
      (Role spec =? InstanceGroupRoleNode)%string;
      use_tuple Ho2; reflexivity.
  - destruct (MixedInstancesPolicy spec); cbn; rewrite Hlb2; reflexivity.
  - destruct (MixedInstancesPolicy spec); cbn; rewrite Htg2; reflexivity.
  - exact Hall.
Qed.

(** What the builder of the autoscaling group sets besides sizes and
    attachments: the name it was given, the lifecycle of the builder, metrics
    at one minute, one subnet link for each subnet gathered, in their order
    and at least one, the tags of the cloud-tag collaborator, the suspended
    processes and the instance protection of the specification.  It binds no
    launch resource: that is left to [Build]. *)
Theorem autoscaling_group_settings name (w w' : World) t
    (Hbuild : buildAutoScalingGroupTask b name w = (Ok t, w')) :
  let g := ig w in
  let spec := Spec g in
  exists subnet0 rest tags,
    GatherSubnets b g = Ok (subnet0 :: rest) /\
    CloudTagsForInstanceGroup b g = Ok tags /\
    AutoscalingGroup.Name t = Some name /\
    AutoscalingGroup.Lifecycle t = Lifecycle b /\
    AutoscalingGroup.Granularity t = Some "1Minute"%string /\
    AutoscalingGroup.Metrics t =
      ["GroupDesiredCapacity"; "GroupInServiceInstances"; "GroupMaxSize";
       "GroupMinSize"; "GroupPendingInstances"; "GroupStandbyInstances";
       "GroupTerminatingInstances"; "GroupTotalInstances"]%string /\
    AutoscalingGroup.Subnets t = map (LinkToSubnet b) (subnet0 :: rest) /\
    AutoscalingGroup.Tags t = tags /\
    AutoscalingGroup.SuspendProcesses t = Some (SuspendProcesses spec) /\
    AutoscalingGroup.InstanceProtection t = InstanceProtection spec /\
    AutoscalingGroup.LaunchConfiguration t = None /\
    AutoscalingGroup.LaunchTemplate t = None.
Proof.
  apply buildAutoScalingGroupTask_exact in Hbuild
    as (s0 & rest & tags & Hsub & Htags & F & _).
  cbv zeta. exists s0, rest, tags.
  split; [exact Hsub |]. split; [exact Htags |].
  injection F as Hname Hlife Hgran Hprot Hlc Hlt _ Hmetrics _ Hsubnets Hsusp
    Htag _.
  repeat split; assumption.
Qed.

(** The mixed instances policy of a group goes to its autoscaling group
    field by field, and with it the maximum price of the specification; a
    group without a policy gets none of these, the maximum price included. *)
Theorem mixed_instances_policy_on_group name (w w' : World) t
    (Hbuild : buildAutoScalingGroupTask b name w = (Ok t, w')) :
  let spec := Spec (ig w) in
  match MixedInstancesPolicy spec with
  | Some policy =>
      AutoscalingGroup.MixedInstanceOverrides t
        = MixedInstancesPolicySpec.Instances policy /\
      AutoscalingGroup.MixedOnDemandAboveBase t
        = MixedInstancesPolicySpec.OnDemandAboveBase policy /\
      AutoscalingGroup.MixedOnDemandAllocationStrategy t
        = MixedInstancesPolicySpec.OnDemandAllocationStrategy policy /\
      AutoscalingGroup.MixedOnDemandBase t
        = MixedInstancesPolicySpec.OnDemandBase policy /\
      AutoscalingGroup.MixedSpotAllocationStrategy t
        = MixedInstancesPolicySpec.SpotAllocationStrategy policy /\
      AutoscalingGroup.MixedSpotInstancePools t
        = MixedInstancesPolicySpec.SpotInstancePools policy /\
      AutoscalingGroup.MixedSpotMaxPrice t = MaxPrice spec
  | None =>
      AutoscalingGroup.MixedInstanceOverrides t = [] /\
      AutoscalingGroup.MixedOnDemandAboveBase t = None /\
      AutoscalingGroup.MixedOnDemandAllocationStrategy t = None /\
      AutoscalingGroup.MixedOnDemandBase t = None /\
      AutoscalingGroup.MixedSpotAllocationStrategy t = None /\
      AutoscalingGroup.MixedSpotInstancePools t = None /\
      AutoscalingGroup.MixedSpotMaxPrice t = None
  end.
Proof.
  apply buildAutoScalingGroupTask_exact in Hbuild
    as (s0 & rest & tags & _ & _ & F & _).
  cbv zeta.
  apply (f_equal snd) in F. cbn [snd] in F.
  destruct (MixedInstancesPolicy (Spec (ig w)));
    injection F as H1 H2 H3 H4 H5 H6 H7; repeat split; assumption.
Qed.

(** The classic load balancers of an autoscaling group are, before they are
    sorted: the one of the API when the group is a master, the API has a
    load balancer and that one is not a network load balancer; the one of
    the bastion when the group is a bastion; then the load balancers that the
    group names, in their order.  The two of the cluster are left out when
    Spotinst manages the group. *)
Theorem classic_load_balancers_attached name (w w' : World) t
    (Hbuild : buildAutoScalingGroupTask b name w = (Ok t, w')) :
  let g := ig w in
  let spec := Spec g in
  AutoscalingGroup.LoadBalancers t =
    sort.Stable OrderLoadBalancersByName_Less
      ((if negb (featureflag_Spotinst_Enabled b)
           || (featureflag_SpotinstHybrid_Enabled b
               && negb (HybridInstanceGroup b g))
        then (if UseLoadBalancerForAPI b
                 && (Role spec =? InstanceGroupRoleMaster)%string
                 && negb (UseNetworkLoadBalancer b)
              then [LinkToCLB b "api"] else [])
             ++ (if (Role spec =? InstanceGroupRoleBastion)%string
                 then [LinkToCLB b "bastion"] else [])
        else [])
       ++ flat_map
            (fun extLB =>
               match LoadBalancer.LoadBalancerName extLB with
               | Some lbName =>
                   [ {| ClassicLoadBalancer.Name := Some lbName;
                        ClassicLoadBalancer.LoadBalancerName := Some lbName;
                        ClassicLoadBalancer.Shared := Some true |} ]
               | None => []
               end)
            (ExternalLoadBalancers spec))%list.
Proof.
  apply buildAutoScalingGroupTask_exact in Hbuild
    as (s0 & rest & tags & _ & _ & _ & Hlb & _).
  cbv zeta. rewrite Hlb. do 2 f_equal.
  apply flat_map_ext. intros e.
  destruct (LoadBalancer.LoadBalancerName e); reflexivity.
Qed.

(** The target groups of an autoscaling group are, before they are sorted:
    for a master behind a network load balancer of the API, the target group
    for TCP, and the one for TLS when that load balancer has a certificate;
    then one target group for each ARN that the group names, called by the
    name of the group, a dash and the name read from the ARN.  Every such
    ARN was read successfully. *)
Theorem target_groups_attached name (w w' : World) t
    (Hbuild : buildAutoScalingGroupTask b name w = (Ok t, w')) :
  let g := ig w in
  let spec := Spec g in
  AutoscalingGroup.TargetGroups t =
    sort.Stable OrderTargetGroupsByName_Less
      ((if (negb (featureflag_Spotinst_Enabled b)
            || (featureflag_SpotinstHybrid_Enabled b
                && negb (HybridInstanceGroup b g)))
           && UseLoadBalancerForAPI b
           && (Role spec =? InstanceGroupRoleMaster)%string
           && UseNetworkLoadBalancer b
        then LinkToTargetGroup b "tcp"
             :: match Cluster_Spec_API b with
                | Some api =>
                    match AccessSpec.LoadBalancer api with
                    | Some lb =>
                        if negb (LoadBalancerAccessSpec.SSLCertificate lb
                                   =? "")%string
                        then [LinkToTargetGroup b "tls"] else []
                    | None => []
                    end
                | None => []
                end
        else [])
       ++ externalTGs name (ExternalLoadBalancers spec))%list /\
  Forall (fun extLB =>
            forall arn, LoadBalancer.TargetGroupARN extLB = Some arn ->
                        exists targetGroupName,
                          GetTargetGroupNameFromARN b arn = Ok targetGroupName)
         (ExternalLoadBalancers spec).
Proof.
  apply buildAutoScalingGroupTask_exact in Hbuild
    as (s0 & rest & tags & _ & _ & _ & _ & Htg & Hall).
  cbv zeta. split; [exact Htg | exact Hall].
Qed.

(** A group that Spotinst manages gets no attachment of the cluster: its
    autoscaling group holds the load balancers and the target groups that
    the group names itself, and nothing more, whatever its role. *)
Theorem spotinst_attaches_only_external name (w w' : World) t
    (Hbuild : buildAutoScalingGroupTask b name w = (Ok t, w'))
    (Hspotinst : featureflag_Spotinst_Enabled b = true)
    (Hmanaged : featureflag_SpotinstHybrid_Enabled b = false \/
                HybridInstanceGroup b (ig w) = true) :
  let spec := Spec (ig w) in
  AutoscalingGroup.LoadBalancers t =
    sort.Stable OrderLoadBalancersByName_Less
      (externalCLBs (ExternalLoadBalancers spec)) /\
  AutoscalingGroup.TargetGroups t =
    sort.Stable OrderTargetGroupsByName_Less
      (externalTGs name (ExternalLoadBalancers spec)).
Proof.
  apply buildAutoScalingGroupTask_exact in Hbuild
    as (s0 & rest & tags & _ & _ & _ & Hlb & Htg & _).
  cbv zeta. rewrite Hlb, Htg, Hspotinst.
  destruct Hmanaged as [-> | ->]; cbn [negb orb andb];
    rewrite ?andb_false_r; split; reflexivity.
Qed.

(** The builder of the autoscaling group registers nothing of its own: for
    a group that names no load balancer it leaves registry and instance
    group as they were, whatever it returns. *)
Theorem autoscaling_group_registers_nothing name (w : World)
    (Hnone : ExternalLoadBalancers (Spec (ig w)) = []) :
  snd (buildAutoScalingGroupTask b name w) = w.
Proof.
  unfold buildAutoScalingGroupTask.
  apply (bind_snd (fun w1 => w1 = w)); [reflexivity |].
  intros g w1 Hg. injection Hg as <- <-. cbv beta zeta.
  apply (bind_snd (fun w1 => w1 = w)); [reflexivity |].
  intros subnets w1 Hsub. apply lift_Ok in Hsub as [_ ->].
  destruct subnets as [|s0 rest]; [reflexivity |].
  apply (bind_snd (fun w1 => w1 = w)); [reflexivity |].
  intros tags w1 Htags. apply lift_Ok in Htags as [_ ->].
  apply (bind_snd (fun w1 => w1 = w)).
  { match goal with |- snd ?x = _ => destruct x as [r w1] eqn:E end.
    apply managedLoadBalancers_run in E as [-> _]. reflexivity. }
  intros t1 w1 Ht1. apply managedLoadBalancers_run in Ht1 as [-> _].
  rewrite Hnone. reflexivity.
Qed.

(** ** The loop of Build *)

(** Whether [Build] passes over a group: hybrid groups are left to Spotinst
    when the hybrid feature is on. *)
#[local] Abbreviation skipped :=
  (fun g : InstanceGroup =>
     featureflag_SpotinstHybrid_Enabled b && HybridInstanceGroup b g).

(** The autoscaling group with its launch resource bound. *)
#[local] Abbreviation bound :=
  (fun (task : Task) (tsk : AutoscalingGroup.t) =>
     match task with
     | TaskLaunchTemplate lt =>
         AutoscalingGroup.set_LaunchTemplate (Some lt) tsk
     | TaskLaunchConfiguration lc =>
         AutoscalingGroup.set_LaunchConfiguration (Some lc) tsk
     | _ => tsk
     end).

Lemma buildInstanceGroup_skipped (w : World) :
  skipped (ig w) = true -> buildInstanceGroup b w = (Ok tt, w).
Proof.
  intros H. unfold buildInstanceGroup, bind at 1, getIG at 1.
  cbv beta zeta iota. rewrite H. reflexivity.
Qed.

Lemma buildInstanceGroup_Ok (w w' : World) :
  buildInstanceGroup b w = (Ok tt, w') ->
  skipped (ig w) = false ->
  let name := AutoscalingGroupName b (ig w) in
  exists task tsk (w1 w2 w3 : World),
    buildLaunchTask b name w = (Ok task, w1) /\
    onRegistry (AddTask b task) w1 = (Ok tt, w2) /\
    buildAutoScalingGroupTask b name w2 = (Ok tsk, w3) /\
    onRegistry (AddTask b (TaskAutoscalingGroup (bound task tsk))) w3
      = (Ok tt, w') /\
    ((exists lt, task = TaskLaunchTemplate lt
                 /\ UseLaunchTemplate b (ig w) = true
                 /\ UseLaunchTemplate b (ig w3) = true) \/
     (exists lc, task = TaskLaunchConfiguration lc
                 /\ UseLaunchTemplate b (ig w) = false
                 /\ UseLaunchTemplate b (ig w3) = false)).
Proof.
  intros H Hskip name. unfold buildInstanceGroup in H.
  apply bind_Ok in H as (g & w0 & Hg & H). injection Hg as <- <-.
  cbv zeta in H. rewrite Hskip in H. fold name in H.
  apply bind_Ok in H as (task & w1 & Htask & H).
  apply bind_Ok in H as ([] & w2 & Hreg & H).
  apply bind_Ok in H as (tsk & w3 & Htsk & H).
  apply bind_Ok in H as (g3 & w4 & Hg & H). injection Hg as <- <-.
  apply bind_Ok in H as (tsk' & w4 & Hbound & H).
  exists task, tsk, w1, w2, w3.
  split; [exact Htask |]. split; [exact Hreg |]. split; [exact Htsk |].
  assert (Hkind : UseLaunchTemplate b (ig w) = true /\
                  (exists lt, task = TaskLaunchTemplate lt) \/
                  UseLaunchTemplate b (ig w) = false /\
                  (exists lc, task = TaskLaunchConfiguration lc)).
  { unfold buildLaunchTask in Htask.
    apply bind_Ok in Htask as (g & w5 & Hg & Htask). injection Hg as <- <-.
    destruct (UseLaunchTemplate b (ig w)).
    - apply bind_Ok in Htask as (lt & w5 & _ & Htask).
      apply ret_Ok in Htask as [-> _]. left. eauto.
    - apply bind_Ok in Htask as (lc & w5 & _ & Htask).
      apply ret_Ok in Htask as [-> _]. right. eauto. }
  destruct Hkind as [[Huse (lt & ->)] | [Huse (lc & ->)]];
    destruct (UseLaunchTemplate b (ig w3)) eqn:Huse3; try discriminate;
    apply ret_Ok in Hbound as [-> ->]; (split; [exact H |]);
    [left | right]; eauto.
Qed.

Lemma buildInstanceGroup_Ok_ig (w w' : World) :
  buildInstanceGroup b w = (Ok tt, w') ->
  skipped (ig w) = true /\ w' = w \/
  skipped (ig w) = false /\ ig w' = defaultedVolumes (ig w).
Proof.
  intros H. destruct (skipped (ig w)) eqn:Hskip.
  - left. rewrite (buildInstanceGroup_skipped w Hskip) in H.
    injection H as <-. now split.
  - right. split; [reflexivity |].
    pose proof (@buildInstanceGroup_Ok _ _ H Hskip)
      as (task & tsk & w1 & w2 & w3 & Htask & Hreg & Htsk & Hadd & _).
    apply onRegistry_Ok in Hadd. apply onRegistry_Ok in Hreg.
    pose proof (buildAutoScalingGroupTask_ig b
                  (AutoscalingGroupName b (ig w)) w2) as H3.
    rewrite Htsk in H3. simpl in H3.
    rewrite Hadd, H3, Hreg.
    apply buildLaunchTask_Ok in Htask as [(lc & _ & Hb) | (lt & _ & Hb)].
    + now apply buildLaunchConfigurationTask_Ok in Hb as [Hw1 _].
    + now apply buildLaunchTemplateTask_Ok in Hb as [Hw1 _].
Qed.


(** With the hybrid feature on, [Build] passes over hybrid groups: over
    such groups only it succeeds, registers nothing and writes nothing,
    whatever the collaborators would answer. *)
Theorem hybrid_groups_skipped igs c
    (Hflag : featureflag_SpotinstHybrid_Enabled b = true)
    (Hhybrid : Forall (fun g => HybridInstanceGroup b g = true) igs) :
  buildInstanceGroups b igs c = (Ok tt, (c, igs)).
Proof.
  induction Hhybrid as [|g igs Hg _ IH]; simpl; [reflexivity |].
  rewrite (buildInstanceGroup_skipped {| reg := c; ig := g |}).
  - cbn [reg ig]. rewrite IH. reflexivity.
  - cbn [ig]. rewrite Hflag, Hg. reflexivity.
Qed.


(** A [Build] that succeeded has written every default: building the
    groups it leaves once more, over any registry, writes nothing, whether
    that second build succeeds or not. *)
Theorem second_build_writes_nothing igs : forall c c' igs'
    (Hbuild : buildInstanceGroups b igs c = (Ok tt, (c', igs'))) c2,
  snd (snd (buildInstanceGroups b igs' c2)) = igs'.
Proof.
  induction igs as [|g igs IH]; intros c c' igs' Hbuild c2; simpl in Hbuild.
  - injection Hbuild as _ <-. reflexivity.
  - destruct (buildInstanceGroup b {| reg := c; ig := g |})
      as [[[] | e | msg] w1] eqn:Hg; try discriminate.
    destruct (buildInstanceGroups b igs (reg w1)) as [r [c1 igs1]] eqn:Hrest.
    injection Hbuild as -> -> <-.
    specialize (IH _ _ _ Hrest).
    assert (Hfixed : forall w2 : World, ig w2 = ig w1 ->
              ig (snd (buildInstanceGroup b w2)) = ig w1).
    { intros w2 E.
      apply buildInstanceGroup_Ok_ig in Hg as [[Hskip ->] | [_ Hdef]];
        cbn [ig] in *.
      - rewrite buildInstanceGroup_skipped; [exact E | now rewrite E].
      - destruct (buildInstanceGroup_ig b w2) as [H | H]; rewrite H, E;
          [reflexivity |].
        rewrite Hdef. apply defaultedVolumes_idempotent. }
    simpl. specialize (Hfixed {| reg := c2; ig := ig w1 |} eq_refl).
    destruct (buildInstanceGroup b {| reg := c2; ig := ig w1 |})
      as [[[] | e | msg] w2]; cbn [snd] in Hfixed.
    + specialize (IH (reg w2)).
      destruct (buildInstanceGroups b igs1 (reg w2)) as [r2 [c3 igs3]].
      cbn [snd] in *. now rewrite Hfixed, IH.
    + cbn. now rewrite Hfixed.
    + cbn. now rewrite Hfixed.
Qed.

End Builder.

(** ** The theorems on the sample cluster *)

#[local] Abbreviation plain := (example.builder SubnetTypePublic false).
#[local] Abbreviation templated := (example.builder SubnetTypePublic true).
#[local] Abbreviation spotinst_managed :=
  (example_variants.customised [example.subnet SubnetTypePublic]
     true false (fun _ => false) plain).
#[local] Abbreviation without_subnets :=
  (example_variants.customised [] false false (fun _ => false) plain).
#[local] Abbreviation all_hybrid :=
  (example_variants.customised [] true true (fun _ => true) plain).
#[local] Abbreviation hardened := (example.start example_variants.hardened).
#[local] Abbreviation bastions :=
  (example.start
     (example.with_Role InstanceGroupRoleBastion
        (example.with_ExternalLoadBalancers example_variants.external
           example.nodes))).

Lemma root_volume_defaults_witness :
  exists lc w',
    buildLaunchConfigurationTask plain "nodes.example.com" hardened
      = (Ok lc, w') /\
    LaunchConfiguration.RootVolumeSize lc = Some 128 /\
    LaunchConfiguration.RootVolumeDeleteOnTermination lc = Some true /\
    LaunchConfiguration.RootVolumeEncryption lc = Some true.
Proof.
  eexists _, _. split; [vm_compute; reflexivity |].
  eapply (@root_volume_defaults _ plain "nodes.example.com" hardened _ _ 128);
    vm_compute; reflexivity.
Defined.

Lemma metadata_defaults_witness :
  exists lc w',
    buildLaunchConfigurationTask plain "nodes.example.com" hardened
      = (Ok lc, w') /\
    LaunchConfiguration.HTTPTokens lc = Some "required"%string /\
    LaunchConfiguration.HTTPPutResponseHopLimit lc = Some 1.
Proof.
  eexists _, _. split; [vm_compute; reflexivity |].
  eapply (@metadata_defaults _ plain "nodes.example.com" hardened).
  vm_compute; reflexivity.
Defined.

Lemma security_groups_in_order_witness :
  exists lc w',
    buildLaunchConfigurationTask plain "nodes.example.com" hardened
      = (Ok lc, w') /\
    map SecurityGroup.Name (LaunchConfiguration.SecurityGroups lc)
      = [Some "sg-override-Node"; Some "sg-extra"]%string.
Proof.
  eexists _, _. split; [vm_compute; reflexivity |].
  match goal with
  | |- context [LaunchConfiguration.SecurityGroups ?lc] =>
      pose proof (@security_groups_in_order _ plain "nodes.example.com"
                    hardened _ lc ltac:(vm_compute; reflexivity)) as H
  end.
  cbv zeta in H. destruct H as (nlb & Hsg & Hnil & _).
  assert (Hnlb : nlb = []) by (apply Hnil; left; discriminate).
  rewrite Hnlb in Hsg.
  exact (f_equal (map SecurityGroup.Name) Hsg).
Defined.

Lemma instance_type_is_first_machine_type_witness :
  exists lc w',
    buildLaunchConfigurationTask plain "nodes.example.com"
      (example.start example.nodes) = (Ok lc, w') /\
    exists first,
      LaunchConfiguration.InstanceType lc = Some first /\
      strings.Contains first "," = false /\
      ("m5.large,m5.xlarge" = first \/
       exists rest, "m5.large,m5.xlarge" = first ++ "," ++ rest)%string.
Proof.
  eexists _, _. split; [vm_compute; reflexivity |].
  eapply (@instance_type_is_first_machine_type _ plain "nodes.example.com"
            (example.start example.nodes)).
  vm_compute; reflexivity.
Defined.

Lemma ssh_key_and_tenancy_witness :
  exists lc w',
    buildLaunchConfigurationTask plain "nodes.example.com" hardened
      = (Ok lc, w') /\
    LaunchConfiguration.SSHKey lc = None /\
    LaunchConfiguration.Tenancy lc = Some "dedicated"%string.
Proof.
  eexists _, _. split; [vm_compute; reflexivity |].
  eapply (@ssh_key_and_tenancy _ plain "nodes.example.com" hardened).
  vm_compute; reflexivity.
Defined.

Lemma additional_volume_passthrough_witness :
  exists task w',
    buildLaunchTask templated "nodes.example.com"
      (example.start
         (set_Volumes [example_variants.keyed_volume] example.nodes))
      = (Ok task, w') /\
    map (fun m => (BlockDeviceMapping.DeviceName m,
                   BlockDeviceMapping.EbsVolumeSize m,
                   BlockDeviceMapping.EbsKmsKey m,
                   BlockDeviceMapping.EbsDeleteOnTermination m,
                   BlockDeviceMapping.EbsEncrypted m))
        (launchBlockDeviceMappings task)
      = [(Some "/dev/xvde", Some 50, Some "arn:aws:kms:key/2", Some false,
          Some true)]%string.
Proof.
  eexists _, _. split; [vm_compute; reflexivity |].
  match goal with
  | |- context [launchBlockDeviceMappings ?task] =>
      pose proof (@additional_volume_passthrough _ templated
                    "nodes.example.com"
                    (example.start
                       (set_Volumes [example_variants.keyed_volume]
                          example.nodes))
                    _ task ltac:(vm_compute; reflexivity)) as H
  end.
  inversion H as [| x m l l' (H1 & H2 & H3 & H4 & H5) Hrest Hx Hm].
  inversion Hrest. subst.
  exact (f_equal (fun t => [t])
           (f_equal2 pair
              (f_equal2 pair (f_equal2 pair (f_equal2 pair H1 H2) H3) H4) H5)).
Defined.

Lemma template_copies_configuration_witness :
  exists lt lc w',
    buildLaunchTemplateTask templated "nodes.example.com" hardened
      = (Ok lt, w') /\
    buildLaunchConfigurationTask templated "nodes.example.com" hardened
      = (Ok lc, w') /\
    LaunchTemplate.SecurityGroups lt = LaunchConfiguration.SecurityGroups lc /\
    LaunchTemplate.UserData lt = LaunchConfiguration.UserData lc /\
    LaunchTemplate.RootVolumeIops lt = LaunchConfiguration.RootVolumeIops lc.
Proof.
  assert (Hrun : { r | buildLaunchTemplateTask templated "nodes.example.com"
                         hardened = (Ok (fst r), snd r) }).
  { eexists (_, _). vm_compute; reflexivity. }
  destruct Hrun as [[lt w'] Hrun]. cbn [fst snd] in Hrun.
  destruct (@template_copies_configuration _ _ _ _ _ _ Hrun)
    as (lc & Hlc & _ & _ & _ & _ & _ & _ & _ & _ & _ & _ & Hty & _ & _ & Hsg
        & _ & Hud & _ & _ & Hiops & _).
  exists lt, lc, w'. repeat split; try assumption.
  apply Hiops.
  pose proof (buildLaunchConfigurationTask_Ok _ _ _ Hlc) as (_ & s0 & rest & _ & F).
  injection F as Hrv _. rewrite Hrv. vm_compute. discriminate.
Defined.

Lemma template_kms_key_witness :
  exists lt w',
    buildLaunchTemplateTask templated "nodes.example.com" hardened
      = (Ok lt, w') /\
    LaunchTemplate.RootVolumeKmsKey lt = Some "arn:aws:kms:key/1"%string.
Proof.
  eexists _, _. split; [vm_compute; reflexivity |].
  eapply (@template_kms_key _ templated "nodes.example.com" hardened).
  vm_compute; reflexivity.
Defined.

Lemma no_subnets_witness :
  buildAutoScalingGroupTask without_subnets "nodes.example.com"
    (example.start example.nodes)
    = (Err (ErrNoSubnets "nodes" ["us-test-1a"%string]),
       example.start example.nodes) /\
  (forall task w',
     buildLaunchTask without_subnets "nodes.example.com"
       (example.start example.nodes) <> (Ok task, w')) /\
  fst (buildLaunchTask without_subnets "nodes.example.com"
         (example.start example.nodes)) = Panic "index out of range".
Proof.
  pose proof (@no_subnets _ without_subnets "nodes.example.com"
                (example.start example.nodes) eq_refl eq_refl) as [H1 H2].
  split; [exact H1 |]. split; [exact H2 |]. vm_compute; reflexivity.
Defined.

Lemma autoscaling_group_settings_witness :
  exists t w',
    buildAutoScalingGroupTask plain "nodes.example.com"
      (example.start
         (example_variants.with_SuspendProcesses ["AZRebalance"%string]
            example.nodes)) = (Ok t, w') /\
    AutoscalingGroup.Subnets t = [ {| Subnet.Name := Some "us-test-1a"%string |} ] /\
    AutoscalingGroup.SuspendProcesses t = Some ["AZRebalance"%string] /\
    AutoscalingGroup.LaunchConfiguration t = None /\
    AutoscalingGroup.LaunchTemplate t = None.
Proof.
  eexists _, _. split; [vm_compute; reflexivity |].
  match goal with
  | |- context [AutoscalingGroup.Subnets ?t] =>
      pose proof (@autoscaling_group_settings _ plain "nodes.example.com"
                    (example.start
                       (example_variants.with_SuspendProcesses
                          ["AZRebalance"%string] example.nodes))
                    _ t ltac:(vm_compute; reflexivity)) as H
  end.
  cbv zeta in H.
  destruct H as (s0 & rest & tags & Hsub & _ & _ & _ & _ & _ & Hsubnets & _
                 & Hsusp & _ & Hlc & Hlt).
  injection Hsub as <- <-.
  repeat split; assumption.
Defined.

Lemma mixed_instances_policy_on_group_witness :
  exists t w',
    buildAutoScalingGroupTask templated "nodes.example.com"
      (example.start
         (example.with_MixedInstancesPolicy (Some example.mixed)
            (example.with_MaxPrice (Some "0.10"%string) example.nodes)))
      = (Ok t, w') /\
    AutoscalingGroup.MixedInstanceOverrides t = ["m5.large"; "m5a.large"]%string /\
    AutoscalingGroup.MixedOnDemandAboveBase t = Some 50 /\
    AutoscalingGroup.MixedOnDemandAllocationStrategy t = None /\
    AutoscalingGroup.MixedOnDemandBase t = Some 1 /\
    AutoscalingGroup.MixedSpotAllocationStrategy t = None /\
    AutoscalingGroup.MixedSpotInstancePools t = None /\
    AutoscalingGroup.MixedSpotMaxPrice t = Some "0.10"%string.
Proof.
  eexists _, _. split; [vm_compute; reflexivity |].
  eapply (@mixed_instances_policy_on_group _ templated "nodes.example.com"
            (example.start
               (example.with_MixedInstancesPolicy (Some example.mixed)
                  (example.with_MaxPrice (Some "0.10"%string) example.nodes)))).
  vm_compute; reflexivity.
Defined.

Lemma classic_load_balancers_attached_witness :
  exists t w',
    buildAutoScalingGroupTask plain "bastions.example.com" bastions
      = (Ok t, w') /\
    map ClassicLoadBalancer.Name (AutoscalingGroup.LoadBalancers t)
      = [Some "bastion.example.com"; Some "zeta"]%string.
Proof.
  eexists _, _. split; [vm_compute; reflexivity |].
  match goal with
  | |- context [AutoscalingGroup.LoadBalancers ?t] =>
      pose proof (@classic_load_balancers_attached _ plain
                    "bastions.example.com" bastions _ t
                    ltac:(vm_compute; reflexivity)) as H
  end.
  cbv zeta in H. rewrite H. reflexivity.
Defined.

Lemma target_groups_attached_witness :
  exists t w',
    buildAutoScalingGroupTask plain "bastions.example.com" bastions
      = (Ok t, w') /\
    map TargetGroup.Name (AutoscalingGroup.TargetGroups t)
      = [Some "bastions.example.com-tg-of-arn-1";
         Some "bastions.example.com-tg-of-arn-2"]%string.
Proof.
  eexists _, _. split; [vm_compute; reflexivity |].
  match goal with
  | |- context [AutoscalingGroup.TargetGroups ?t] =>
      pose proof (@target_groups_attached _ plain
                    "bastions.example.com" bastions _ t
                    ltac:(vm_compute; reflexivity)) as H
  end.
  cbv zeta in H. destruct H as [H _]. rewrite H. reflexivity.
Defined.

Lemma spotinst_attaches_only_external_witness :
  exists t w',
    buildAutoScalingGroupTask spotinst_managed "bastions.example.com" bastions
      = (Ok t, w') /\
    map ClassicLoadBalancer.Name (AutoscalingGroup.LoadBalancers t)
      = [Some "zeta"%string] /\
    map TargetGroup.Name (AutoscalingGroup.TargetGroups t)
      = [Some "bastions.example.com-tg-of-arn-1";
         Some "bastions.example.com-tg-of-arn-2"]%string.
Proof.
  eexists _, _. split; [vm_compute; reflexivity |].
  match goal with
  | |- context [AutoscalingGroup.LoadBalancers ?t] =>
      pose proof (@spotinst_attaches_only_external _ spotinst_managed
                    "bastions.example.com" bastions _ t
                    ltac:(vm_compute; reflexivity) eq_refl
                    (or_introl eq_refl)) as H
  end.
  cbv zeta in H. destruct H as [Hlb Htg]. rewrite Hlb, Htg.
  split; reflexivity.
Defined.

Lemma autoscaling_group_registers_nothing_witness :
  snd (buildAutoScalingGroupTask plain "nodes.example.com"
         (example.start example.nodes))
  = example.start example.nodes.
Proof.
  exact (@autoscaling_group_registers_nothing _ plain "nodes.example.com"
           (example.start example.nodes) eq_refl).
Defined.

Lemma hybrid_groups_skipped_witness :
  buildInstanceGroups all_hybrid
    [example_variants.group "nodes" example.nodes;
     example_variants.group "others" example_variants.hardened] []
  = (Ok tt,
     ([], [example_variants.group "nodes" example.nodes;
           example_variants.group "others" example_variants.hardened])).
Proof.
  apply (@hybrid_groups_skipped _ all_hybrid); [reflexivity |].
  repeat constructor.
Defined.


Lemma second_build_writes_nothing_witness :
  exists c' igs',
    buildInstanceGroups templated
      [example_variants.group "nodes"
         (set_Volumes [example.volume "" None None] example.nodes)] []
      = (Ok tt, (c', igs')) /\
    snd (snd (buildInstanceGroups templated igs' c')) = igs'.
Proof.
  eexists _, _. split; [vm_compute; reflexivity |].
  eapply (@second_build_writes_nothing _ templated
            [example_variants.group "nodes"
               (set_Volumes [example.volume "" None None] example.nodes)] []).
  vm_compute; reflexivity.
Defined.

End awsmodel_more_facts.
